(** * Step executors of the SDK: state progression of a transfer step

    Shallow embedding of
      - [src/core/Solana/SolanaStepExecutor.ts]   ([SolanaStepExecutor.executeStep])
      - [src/executionFiles/bridges/multichain.execute.ts]
                                                  ([MultichainExecutionManager.execute])

    Both executors are sequential flows over one step.  The step and its
    execution record are threaded as explicit state; every awaited collaborator
    (balance guard, quote service, signing agent, RPC endpoint, status waiter)
    is a field of a [World] record, and every call and every ledger write is
    logged, in order, in a trace. *)

From Stdlib Require Import List String Bool NArith Lia.
Import ListNotations.
Local Open Scope string_scope.

(** ** JavaScript values shared by both executors *)

(** Truthiness of a [string | undefined]: [undefined] and the empty string are
    falsy. *)
Definition truthy (s : option string) : bool :=
  match s with
  | Some s => negb (String.eqb s "")
  | None => false
  end.

(** The string a truthy [string | undefined] holds. *)
Definition truthy_value (s : option string) : option string :=
  match s with
  | Some s => if String.eqb s "" then None else Some s
  | None => None
  end.

(** An own property of an object literal: [None] when the key is absent,
    [Some v] when it is present ([v = None] for a present key holding
    [undefined]). *)
Definition Property (A : Type) : Type := option (option A).

(** [{...a, ...b}] on one key: a key present in [b] wins, also when it holds
    [undefined]. *)
Definition spread {A} (a b : Property A) : Property A :=
  match b with
  | Some _ => b
  | None => a
  end.

(** Reading a property: an absent key reads as [undefined]. *)
Definition prop_get {A} (p : Property A) : option A :=
  match p with
  | Some v => v
  | None => None
  end.

(** Assigning the keys of a patch into a field of the target. *)
Definition assign {A} (old : option A) (p : Property A) : option A :=
  match p with
  | Some v => v
  | None => old
  end.

(** [a || b] on possibly undefined strings. *)
Definition orElse (a b : option string) : option string :=
  if truthy a then a else b.

(** Optional chaining [o?.field]. *)
Definition optionalChain {A B} (o : option A) (field : A -> option B) : option B :=
  match o with
  | Some x => field x
  | None => None
  end.

(** Template-literal interpolation of a possibly undefined string. *)
Definition interpolate (s : option string) : string :=
  match s with
  | Some s => s
  | None => "undefined"
  end.

(** Modelled from the spec: the closed error taxonomy of section 7 (the
    declaration of [LiFiErrorCode] is not among the sources; the executors use
    its members [TransactionUnprepared] and [TransactionFailed]). *)
Inductive LiFiErrorCode :=
| InsufficientFunds
| TransactionUnprepared
| TransactionFailed
| ReceivingChainTimeout
| UnknownError.

(** The [code] property of an error: a library string such as
    ['TRANSACTION_REPLACED'] or a member of the SDK's enum. *)
Inductive ErrorCode :=
| CodeName (s : string)
| CodeLiFi (c : LiFiErrorCode).

Definition LiFiErrorCode_eqb (a b : LiFiErrorCode) : bool :=
  match a, b with
  | InsufficientFunds, InsufficientFunds
  | TransactionUnprepared, TransactionUnprepared
  | TransactionFailed, TransactionFailed
  | ReceivingChainTimeout, ReceivingChainTimeout
  | UnknownError, UnknownError => true
  | _, _ => false
  end.

Definition ErrorCode_eqb (a b : ErrorCode) : bool :=
  match a, b with
  | CodeName s, CodeName t => String.eqb s t
  | CodeLiFi c, CodeLiFi d => LiFiErrorCode_eqb c d
  | _, _ => false
  end.

(** An error object as the executors read it: [code], [message],
    [htmlMessage], and the [replacement] transaction (its hash) that a
    replaced-transaction error carries. *)
Record ErrorObject := mkError {
  e_code : option ErrorCode;
  e_message : string;
  e_htmlMessage : option string;
  e_replacement : option string
}.

(** What a [throw] can carry here: an error object, a bare string, or
    [undefined]. *)
Inductive Thrown :=
| ThrowObject (e : ErrorObject)
| ThrowString (s : string)
| ThrowUndefined.

(** [new TransactionError(code, message)] *)
Definition TransactionError (c : LiFiErrorCode) (msg : string) : Thrown :=
  ThrowObject (mkError (Some (CodeLiFi c)) msg None None).

(** [new Error(message)] *)
Definition JsError (msg : string) : Thrown :=
  ThrowObject (mkError None msg None None).

Definition isUndefined (e : Thrown) : bool :=
  match e with
  | ThrowUndefined => true
  | _ => false
  end.

Definition thrown_code (e : Thrown) : option ErrorCode :=
  match e with
  | ThrowObject o => e_code o
  | _ => None
  end.

Definition thrown_replacement (e : Thrown) : option string :=
  match e with
  | ThrowObject o => e_replacement o
  | _ => None
  end.

(** Process and execution statuses (spec section 4.2). *)
Inductive Status := STARTED | ACTION_REQUIRED | PENDING | DONE | FAILED.

Definition Status_eqb (a b : Status) : bool :=
  match a, b with
  | STARTED, STARTED | ACTION_REQUIRED, ACTION_REQUIRED | PENDING, PENDING
  | DONE, DONE | FAILED, FAILED => true
  | _, _ => false
  end.

(** Chain reference data: read-only, resolved by chain id (spec section 3). *)
Record Chain := mkChain {
  chain_id : N;
  blockExplorerUrl : string     (* metamask.blockExplorerUrls[0] *)
}.

(** ** A state-and-exception monad

    A computation runs on a frame of mutable locals [S]; a [throw] keeps the
    frame as it was at the throw, as in-place mutation does. *)

Inductive Result (A : Type) :=
| Ok (a : A)
| Throw (e : Thrown).
Arguments Ok {A} a.
Arguments Throw {A} e.

Section StateExc.
Context {S : Type}.

Definition M (A : Type) : Type := S -> Result A * S.

Definition ret {A} (a : A) : M A := fun s => (Ok a, s).

Definition bind {A B} (m : M A) (k : A -> M B) : M B :=
  fun s =>
    match m s with
    | (Ok a, s') => k a s'
    | (Throw e, s') => (Throw e, s')
    end.

Definition throw {A} (e : Thrown) : M A := fun s => (Throw e, s).

(** [try { m } catch (e) { h e }] *)
Definition tryCatch {A} (m : M A) (h : Thrown -> M A) : M A :=
  fun s =>
    match m s with
    | (Ok a, s') => (Ok a, s')
    | (Throw e, s') => h e s'
    end.

Definition get : M S := fun s => (Ok s, s).
Definition modify (f : S -> S) : M unit := fun s => (Ok tt, f s).

(** An awaited call whose promise resolves ([inr]) or rejects ([inl]). *)
Definition await {A} (r : Thrown + A) : M A :=
  match r with
  | inr a => ret a
  | inl e => throw e
  end.
End StateExc.

Declare Scope exec_scope.
Delimit Scope exec_scope with exec.
Notation "x <- m ;; k" := (bind m (fun x => k))
  (at level 61, m at next level, right associativity) : exec_scope.
Notation "m ;; k" := (bind m (fun _ => k))
  (at level 61, right associativity) : exec_scope.

(** * The Solana step executor ([SolanaStepExecutor.executeStep]) *)
Module Solana.

Local Open Scope exec_scope.

(** ** Data model (spec section 3) *)

Inductive ProcessType := SWAP | CROSS_CHAIN | RECEIVING_CHAIN.

Definition ProcessType_eqb (a b : ProcessType) : bool :=
  match a, b with
  | SWAP, SWAP | CROSS_CHAIN, CROSS_CHAIN | RECEIVING_CHAIN, RECEIVING_CHAIN => true
  | _, _ => false
  end.

(** The [error] triple recorded on a failed Process. *)
Record ProcessError := mkProcessError {
  message : string;
  htmlMessage : option string;
  code : option ErrorCode
}.

Record Process := mkProcess {
  type : ProcessType;
  status : Status;
  txHash : option string;
  txLink : option string;
  substatus : option string;
  substatusMessage : option string;
  error : option ProcessError
}.

(** The optional last argument of [updateProcess]. *)
Record ProcessPatch := mkProcessPatch {
  patch_txHash : Property string;
  patch_txLink : Property string;
  patch_substatus : Property string;
  patch_substatusMessage : Property string;
  patch_error : option ProcessError
}.

Definition noPatch : ProcessPatch := mkProcessPatch None None None None None.

(** Summary fields of an Execution, written by [updateExecution]. *)
Record Summary := mkSummary {
  fromAmount : option string;
  toAmount : option string;
  toToken : option string;
  gasAmount : option string;
  gasAmountUSD : option string;
  gasPrice : option string;
  gasToken : option string;
  gasUsed : option string
}.

Definition noSummary : Summary := mkSummary None None None None None None None None.

Record Execution := mkExecution {
  execution_status : Status;
  process : list Process;
  summary : Summary
}.

Record Action := mkAction {
  fromChainId : N;
  toChainId : N
}.

Record TransactionRequest := mkTransactionRequest {
  data : option string
}.

Record Step := mkStep {
  id : string;
  action : Action;
  estimate : string;
  transactionRequest : option TransactionRequest;
  execution : option Execution
}.

Definition set_execution (step : Step) (e : Execution) : Step :=
  mkStep (id step) (action step) (estimate step) (transactionRequest step) (Some e).

(** ** Process Ledger (status manager) *)

Definition emptyExecution : Execution := mkExecution PENDING [] noSummary.

(** Modelled from the spec: [initExecutionObject] of the status manager, whose
    code is not among the sources (section 4.1: creates the execution record if
    absent; on a step that already has one, returns it unchanged). *)
Definition initExecutionObject (step : Step) : Execution :=
  match execution step with
  | Some e => e
  | None => emptyExecution
  end.

Definition findProcess (t : ProcessType) (l : list Process) : option Process :=
  find (fun p => ProcessType_eqb (type p) t) l.

Definition newProcess (t : ProcessType) (s : Status) : Process :=
  mkProcess t s None None None None None.

(** Modelled from the spec: [findOrCreateProcess] of the status manager
    (section 4.1: returns the existing Process for the type, or creates one
    with the given initial status, [STARTED] by default; a created Process is
    appended, so that creation order is phase order). *)
Definition findOrCreateProcess (step : Step) (t : ProcessType) (s : option Status)
  : Step * Process :=
  let e := initExecutionObject step in
  match findProcess t (process e) with
  | Some p => (set_execution step e, p)
  | None =>
      let p := newProcess t (match s with Some s => s | None => STARTED end) in
      (set_execution step
         (mkExecution (execution_status e) (process e ++ [p]) (summary e)), p)
  end.

Definition applyPatch (s : Status) (patch : ProcessPatch) (p : Process) : Process :=
  mkProcess (type p) s
    (assign (txHash p) (patch_txHash patch))
    (assign (txLink p) (patch_txLink patch))
    (assign (substatus p) (patch_substatus patch))
    (assign (substatusMessage p) (patch_substatusMessage patch))
    (match patch_error patch with Some e => Some e | None => error p end).

Fixpoint updateList (t : ProcessType) (f : Process -> Process) (l : list Process)
  : list Process :=
  match l with
  | [] => []
  | p :: r => if ProcessType_eqb (type p) t then f p :: r else p :: updateList t f r
  end.

(** Modelled from the spec: [updateProcess] of the status manager (section 4.1:
    sets [status], merges the patch fields into the Process, in place, and
    returns the updated Process).  Every phase is entered through
    [findOrCreateProcess] before it is updated; on a type without a Process the
    ledger is left as it is. *)
Definition updateProcess (step : Step) (t : ProcessType) (s : Status)
  (patch : ProcessPatch) : Step * Process :=
  let e := initExecutionObject step in
  (set_execution step
     (mkExecution (execution_status e) (updateList t (applyPatch s patch) (process e))
        (summary e)),
   applyPatch s patch
     (match findProcess t (process e) with
      | Some p => p
      | None => newProcess t s
      end)).

(** Modelled from the spec: [updateExecution] of the status manager (section
    4.1: sets the overall status and merges the summary fields, when given). *)
Definition updateExecution (step : Step) (s : Status) (patch : option Summary) : Step :=
  let e := initExecutionObject step in
  set_execution step
    (mkExecution s (process e)
       (match patch with Some m => m | None => summary e end)).

(** ** Collaborators *)

(** The object handed to, and returned by, the customization hook; the
    executor reads its [data] key only. *)
Record TransactionParameters := mkTransactionParameters {
  tp_data : Property string
}.

Record VersionedTransaction := mkVersionedTransaction {
  serialized : string
}.

Record SendOptions := mkSendOptions {
  maxRetries : nat;
  skipPreflight : bool
}.

(** [signatureResult.value]; [err] is [null] or the error, as the template
    literal of line 163 renders it. *)
Record SignatureResult := mkSignatureResult {
  err : option string
}.

Record TransactionInfo := mkTransactionInfo {
  ti_amount : option string;
  ti_gasAmount : option string;
  ti_gasAmountUSD : option string;
  ti_gasPrice : option string;
  ti_gasToken : option string;
  ti_gasUsed : option string
}.

Record ExtendedTransactionInfo := mkExtendedTransactionInfo {
  eti_txHash : option string;
  eti_amount : option string;
  eti_token : option string
}.

Record FullStatusData := mkFullStatusData {
  sr_status : string;
  sr_substatus : option string;
  sr_substatusMessage : option string;
  sending : TransactionInfo;
  receiving : option ExtendedTransactionInfo
}.

(** Everything the executor is constructed with or imports.  An awaited call
    answers [inr] when its promise resolves and [inl] when it rejects.  Chain
    lookup is configuration (spec section 3); the Error Classifier never
    throws (section 4.3).  [stepComparison] and
    [waitForReceivingTransaction] are handed the status manager; what they
    record with it is theirs, and the ledger calls of this model are the ones
    [executeStep] makes itself. *)
Record World := mkWorld {
  allowUserInteraction : bool;
  updateTransactionRequestHook :
    option (TransactionParameters -> Thrown + TransactionParameters);
  getChainById : N -> Chain;
  getSolanaConnection : Thrown + unit;
  publicKey : string;
  checkBalance : string -> Step -> Thrown + unit;
  getStepTransaction : Step -> Thrown + Step;
  stepComparison : Step -> Step -> Thrown + Step;
  deserialize : string -> Thrown + VersionedTransaction;
  sendTransaction : VersionedTransaction -> SendOptions -> Thrown + string;
  confirmTransaction : string -> string -> Thrown + SignatureResult;
  waitForReceivingTransaction : string -> ProcessType -> Step -> Thrown + FullStatusData;
  parseError : Thrown -> Step -> Process -> ErrorObject;
  getTransactionFailedMessage : Step -> option string -> option string;
  getSubstatusMessage : string -> option string -> option string
}.

(** ** Trace of one invocation *)

Inductive Event :=
| LedgerFindOrCreateProcess (t : ProcessType) (s : option Status)
| LedgerUpdateProcess (t : ProcessType) (s : Status) (patch : ProcessPatch)
| LedgerUpdateExecution (s : Status)
| CallGetSolanaConnection (r : Thrown + unit)
| CallCheckBalance (owner : string) (r : Thrown + unit)
| CallGetStepTransaction (r : Thrown + Step)
| CallStepComparison (r : Thrown + Step)
| CallHook (r : Thrown + TransactionParameters)
| CallDeserialize (payload : string)
| CallSendTransaction (tx : VersionedTransaction) (o : SendOptions) (r : Thrown + string)
| CallConfirmTransaction (signature : string) (r : Thrown + SignatureResult)
| CallWaitForReceivingTransaction (h : string) (t : ProcessType)
    (r : Thrown + FullStatusData).

(** The mutable locals of [executeStep]: [step], [process], and the trace. *)
Record Frame := mkFrame {
  step : Step;
  current : Process;
  trace : list Event
}.

Definition log (ev : Event) : M (S := Frame) unit :=
  modify (fun f => mkFrame (step f) (current f) (trace f ++ [ev])).

Definition call {A} (ev : Event) (r : Thrown + A) : M (S := Frame) A :=
  log ev ;; await r.

(** [process = this.statusManager.updateProcess(step, t, s, patch)] *)
Definition doUpdateProcess (t : ProcessType) (s : Status) (patch : ProcessPatch)
  : M (S := Frame) unit :=
  modify (fun f =>
    let r := updateProcess (step f) t s patch in
    mkFrame (fst r) (snd r) (trace f ++ [LedgerUpdateProcess t s patch])).

(** [process = this.statusManager.findOrCreateProcess(step, t, s)] *)
Definition doFindOrCreateProcess (t : ProcessType) (s : option Status)
  : M (S := Frame) unit :=
  modify (fun f =>
    let r := findOrCreateProcess (step f) t s in
    mkFrame (fst r) (snd r) (trace f ++ [LedgerFindOrCreateProcess t s])).

(** [this.statusManager.updateExecution(step, s, patch)] *)
Definition doUpdateExecution (s : Status) (patch : option Summary)
  : M (S := Frame) unit :=
  modify (fun f =>
    mkFrame (updateExecution (step f) s patch) (current f)
      (trace f ++ [LedgerUpdateExecution s])).

Definition setStep (step' : Step) : M (S := Frame) unit :=
  modify (fun f => mkFrame step' (current f) (trace f)).

(** ** [executeStep] *)

Definition isBridgeExecution (w : World) (s : Step) : bool :=
  negb (N.eqb (chain_id (getChainById w (fromChainId (action s))))
              (chain_id (getChainById w (toChainId (action s))))).

Definition currentProcessType (w : World) (s : Step) : ProcessType :=
  if isBridgeExecution w s then CROSS_CHAIN else SWAP.

(** Lines 72-85: fetch and compare a fresh plan when the step has no
    [transactionRequest]; the compared step replaces [step], keeping
    [step.execution]. *)
Definition replaceStep (comparedStep step : Step) : Step :=
  mkStep (id comparedStep) (action comparedStep) (estimate comparedStep)
    (transactionRequest comparedStep) (execution step).

Definition reconcile (w : World) : M (S := Frame) unit :=
  f <- get ;;
  match transactionRequest (step f) with
  | Some _ => ret tt
  | None =>
      updatedStep <- call (CallGetStepTransaction (getStepTransaction w (step f)))
                       (getStepTransaction w (step f)) ;;
      comparedStep <- call (CallStepComparison (stepComparison w (step f) updatedStep))
                        (stepComparison w (step f) updatedStep) ;;
      setStep (replaceStep comparedStep (step f))
  end.

(** [step.transactionRequest?.data] *)
Definition payload (s : Step) : option string :=
  match transactionRequest s with
  | Some r => data r
  | None => None
  end.

Definition unprepared : Thrown :=
  TransactionError TransactionUnprepared "Unable to prepare transaction.".

(** Lines 104-119: the request handed to the signing agent, after the optional
    customization hook. *)
Definition customize (w : World) (d : string) : M (S := Frame) TransactionParameters :=
  let transactionRequest := mkTransactionParameters (Some (Some d)) in
  match updateTransactionRequestHook w with
  | Some hook =>
      customizedTransactionRequest <-
        call (CallHook (hook transactionRequest)) (hook transactionRequest) ;;
      ret (mkTransactionParameters
             (spread (tp_data transactionRequest) (tp_data customizedTransactionRequest)))
  | None => ret transactionRequest
  end.

(** Lines 62-150, the branch without a transaction hash.  [None] is the early
    [return step] of line 101, [Some txHash] the broadcast transaction. *)
Definition prepareAndSend (w : World) (fromChain : Chain)
  : M (S := Frame) (option string) :=
  f <- get ;;
  doUpdateProcess (type (current f)) STARTED noPatch ;;
  f <- get ;;
  call (CallCheckBalance (publicKey w) (checkBalance w (publicKey w) (step f)))
       (checkBalance w (publicKey w) (step f)) ;;
  reconcile w ;;
  f <- get ;;
  match truthy_value (payload (step f)) with
  | None => throw unprepared
  | Some d0 =>
  doUpdateProcess (type (current f)) ACTION_REQUIRED noPatch ;;
  if negb (allowUserInteraction w) then ret None else
  transactionRequest <- customize w d0 ;;
  match truthy_value (prop_get (tp_data transactionRequest)) with
  | None => throw unprepared
  | Some d =>
  versionedTransaction <- call (CallDeserialize d) (deserialize w d) ;;
  let o := mkSendOptions 5 true in
  txHash <- call (CallSendTransaction versionedTransaction o
                    (sendTransaction w versionedTransaction o))
                 (sendTransaction w versionedTransaction o) ;;
  f <- get ;;
  doUpdateProcess (type (current f)) PENDING
    (mkProcessPatch (Some (Some txHash))
       (Some (Some (blockExplorerUrl fromChain ++ "tx/" ++ txHash)))
       None None None) ;;
  ret (Some txHash)
  end end.

(** Lines 57-169, the body of the first [try].  [false] when the function
    returned at line 101. *)
Definition sendPhase (w : World) (isBridge : bool) (fromChain : Chain)
  : M (S := Frame) bool :=
  call (CallGetSolanaConnection (getSolanaConnection w)) (getSolanaConnection w) ;;
  f <- get ;;
  sent <- (match truthy_value (txHash (current f)) with
           | Some h => ret (Some h)
           | None => prepareAndSend w fromChain
           end) ;;
  match sent with
  | None => ret false
  | Some txHash =>
      signatureResult <-
        call (CallConfirmTransaction txHash (confirmTransaction w txHash "confirmed"))
             (confirmTransaction w txHash "confirmed") ;;
      match truthy_value (err signatureResult) with
      | Some e => throw (TransactionError TransactionFailed ("Transaction failed: " ++ e))
      | None =>
          (if isBridge
           then f <- get ;; doUpdateProcess (type (current f)) DONE noPatch
           else ret tt) ;;
          ret true
      end
  end.

(** [{ message: error.message, htmlMessage: error.htmlMessage, code: error.code }] *)
Definition errorTriple (error : ErrorObject) : ProcessError :=
  mkProcessError (e_message error) (e_htmlMessage error) (e_code error).

(** Lines 170-186, the first [catch]. *)
Definition sendPhaseFailed (w : World) (e : Thrown) : M (S := Frame) bool :=
  f <- get ;;
  let error := parseError w e (step f) (current f) in
  doUpdateProcess (type (current f)) FAILED
    (mkProcessPatch None None None None (Some (errorTriple error))) ;;
  doUpdateExecution FAILED None ;;
  throw (ThrowObject error).

(** Lines 199-231, the body of the second [try]. *)
Definition receive (w : World) (toChain : Chain) (processTxHash : option string)
  : M (S := Frame) unit :=
  match truthy_value processTxHash with
  | None => throw (JsError "Transaction hash is undefined.")
  | Some h =>
  f <- get ;;
  statusResponse <-
    call (CallWaitForReceivingTransaction h (type (current f))
            (waitForReceivingTransaction w h (type (current f)) (step f)))
         (waitForReceivingTransaction w h (type (current f)) (step f)) ;;
  let statusReceiving := receiving statusResponse in
  doUpdateProcess (type (current f)) DONE
    (mkProcessPatch
       (Some (optionalChain statusReceiving eti_txHash))
       (Some (Some (blockExplorerUrl toChain ++ "tx/"
                    ++ interpolate (optionalChain statusReceiving eti_txHash))))
       (Some (sr_substatus statusResponse))
       (Some (orElse (sr_substatusMessage statusResponse)
                (getSubstatusMessage w (sr_status statusResponse)
                   (sr_substatus statusResponse))))
       None) ;;
  doUpdateExecution DONE
    (Some (mkSummary
             (ti_amount (sending statusResponse))
             (optionalChain statusReceiving eti_amount)
             (optionalChain statusReceiving eti_token)
             (ti_gasAmount (sending statusResponse))
             (ti_gasAmountUSD (sending statusResponse))
             (ti_gasPrice (sending statusResponse))
             (ti_gasToken (sending statusResponse))
             (ti_gasUsed (sending statusResponse))))
  end.

(** Lines 232-248, the second [catch]. *)
Definition receiveFailed (w : World) (e : Thrown) : M (S := Frame) unit :=
  f <- get ;;
  let htmlMessage := getTransactionFailedMessage w (step f) (txLink (current f)) in
  doUpdateProcess (type (current f)) FAILED
    (mkProcessPatch None None None None
       (Some (mkProcessError "Failed while waiting for receiving chain." htmlMessage
                (Some (CodeLiFi TransactionFailed))))) ;;
  doUpdateExecution FAILED None ;;
  throw e.

(** Lines 189-251. *)
Definition receivingPhase (w : World) (isBridge : bool) (toChain : Chain)
  : M (S := Frame) Step :=
  f <- get ;;
  let processTxHash := txHash (current f) in
  (if isBridge then doFindOrCreateProcess RECEIVING_CHAIN (Some PENDING) else ret tt) ;;
  tryCatch (receive w toChain processTxHash) (receiveFailed w) ;;
  f <- get ;;
  ret (step f).

(** Lines 55-187: the send phase with its [catch], skipped when the Process
    is already [DONE]. *)
Definition sendStage (w : World) (isBridge : bool) (fromChain : Chain)
  : M (S := Frame) bool :=
  f <- get ;;
  if negb (Status_eqb (status (current f)) DONE)
  then tryCatch (sendPhase w isBridge fromChain) (sendPhaseFailed w)
  else ret true.

(** Lines 55-252, once [process] is bound. *)
Definition executeStepFrom (w : World) (isBridge : bool) (fromChain toChain : Chain)
  : M (S := Frame) Step :=
  continue <- sendStage w isBridge fromChain ;;
  if continue then receivingPhase w isBridge toChain
  else f <- get ;; ret (step f).

Definition executeStep (w : World) (step0 : Step) : Result Step * Frame :=
  let step1 := set_execution step0 (initExecutionObject step0) in
  let fromChain := getChainById w (fromChainId (action step1)) in
  let toChain := getChainById w (toChainId (action step1)) in
  let isBridge := negb (N.eqb (chain_id fromChain) (chain_id toChain)) in
  let t := if isBridge then CROSS_CHAIN else SWAP in
  let r := findOrCreateProcess step1 t None in
  executeStepFrom w isBridge fromChain toChain
    (mkFrame (fst r) (snd r) [LedgerFindOrCreateProcess t None]).

(** ** Observations on a step and on a run *)

(** The Process of a phase, as the ledger of the step holds it. *)
Definition processOf (t : ProcessType) (s : Step) : option Process :=
  findProcess t (process (initExecutionObject s)).

(** The overall status of the step's Execution. *)
Definition statusOf (s : Step) : Status :=
  execution_status (initExecutionObject s).

(** The send-phase Process of a step at invocation, if it was entered before. *)
Definition sendProcess (w : World) (s : Step) : option Process :=
  processOf (currentProcessType w s) s.

(** The transaction hash a Process carries, if any. *)
Definition carriedTxHash (p : option Process) : option string :=
  match p with
  | Some p => truthy_value (txHash p)
  | None => None
  end.

Definition alreadyDone (p : option Process) : bool :=
  match p with
  | Some p => Status_eqb (status p) DONE
  | None => false
  end.

Definition is_send (ev : Event) : bool :=
  match ev with CallSendTransaction _ _ _ => true | _ => false end.

Definition is_balance_check (ev : Event) : bool :=
  match ev with CallCheckBalance _ _ => true | _ => false end.

Definition is_reconciliation (ev : Event) : bool :=
  match ev with
  | CallGetStepTransaction _ | CallStepComparison _ => true
  | _ => false
  end.

Definition is_confirmation (ev : Event) : bool :=
  match ev with CallConfirmTransaction _ _ => true | _ => false end.

Definition is_receiving_wait (ev : Event) : bool :=
  match ev with CallWaitForReceivingTransaction _ _ _ => true | _ => false end.

(** A ledger call that puts a Process in status [s]. *)
Definition sets_status (s : Status) (ev : Event) : bool :=
  match ev with
  | LedgerUpdateProcess _ s' _ => Status_eqb s' s
  | LedgerFindOrCreateProcess _ (Some s') => Status_eqb s' s
  | _ => false
  end.

(** A write to the Process of phase [t]. *)
Definition writes_process (t : ProcessType) (ev : Event) : bool :=
  match ev with
  | LedgerUpdateProcess t' _ _ => ProcessType_eqb t' t
  | _ => false
  end.

Definition creates_receiving (ev : Event) : bool :=
  match ev with
  | LedgerFindOrCreateProcess RECEIVING_CHAIN _ => true
  | _ => false
  end.

(** The events the receiving phase can log. *)
Definition is_receiving_event (ev : Event) : bool :=
  match ev with
  | LedgerFindOrCreateProcess RECEIVING_CHAIN (Some PENDING)
  | CallWaitForReceivingTransaction _ _ _
  | LedgerUpdateProcess _ DONE _
  | LedgerUpdateProcess _ FAILED _
  | LedgerUpdateExecution _ => true
  | _ => false
  end.

(** The frame in which [executeStep] binds [process] (line 50). *)
Definition entryFrame (w : World) (s0 : Step) : Frame :=
  let r := findOrCreateProcess (set_execution s0 (initExecutionObject s0))
             (currentProcessType w s0) None in
  mkFrame (fst r) (snd r) [LedgerFindOrCreateProcess (currentProcessType w s0) None].

Definition fromChainOf (w : World) (s0 : Step) : Chain :=
  getChainById w (fromChainId (action s0)).

Definition toChainOf (w : World) (s0 : Step) : Chain :=
  getChainById w (toChainId (action s0)).

(** The send stage of the run of [executeStep w s0]. *)
Definition sendRun (w : World) (s0 : Step) : Result bool * Frame :=
  sendStage w (isBridgeExecution w s0) (fromChainOf w s0) (entryFrame w s0).

(** The Process the receiving phase works on, and the ledger call that opens
    it. *)
Definition receivingType (isBridge : bool) (p : Process) : ProcessType :=
  if isBridge then RECEIVING_CHAIN else type p.

Definition receivingOpening (isBridge : bool) : list Event :=
  if isBridge then [LedgerFindOrCreateProcess RECEIVING_CHAIN (Some PENDING)] else [].

(** Status [st] is recorded in frame [f]: on the Process of phase [t], which
    is the local [process], and on the Execution. *)
Definition recorded (t : ProcessType) (st : Status) (f : Frame) : Prop :=
  type (current f) = t
  /\ processOf t (step f) = Some (current f)
  /\ status (current f) = st
  /\ statusOf (step f) = st.

(** Two steps carry the same plan: they agree on everything but [execution]. *)
Definition samePlan (s s' : Step) : Prop :=
  id s = id s' /\ action s = action s' /\ estimate s = estimate s'
  /\ transactionRequest s = transactionRequest s'.

(** The send stage failed with the [TransactionUnprepared] error before
    anything was sent. *)
Definition failedUnprepared {A} (w : World) (r : Result A * Frame) : Prop :=
  exists s' p',
    fst r = Throw (ThrowObject (parseError w unprepared s' p'))
    /\ processOf (type (current (snd r))) (step (snd r)) = Some (current (snd r))
    /\ status (current (snd r)) = FAILED
    /\ error (current (snd r)) = Some (errorTriple (parseError w unprepared s' p'))
    /\ statusOf (step (snd r)) = FAILED
    /\ existsb is_send (trace (snd r)) = false.

(** The local [process] is the ledger's Process of phase [t]; the Processes
    of the other phases are as in [s0]. *)
Definition inSync (t : ProcessType) (s0 s : Step) (p : Process) : Prop :=
  type p = t
  /\ processOf t s = Some p
  /\ (forall t', t' <> t -> processOf t' s = processOf t' s0).

(** The summary fields of the step's Execution. *)
Definition summaryOf (s : Step) : Summary :=
  summary (initExecutionObject s).

(** The collaborators [executeStep] awaits or calls, in the order of their
    call sites (lines 57, 69, 73, 74, 110, 128, 133, 153, 203). *)
Inductive Collaborator :=
| RpcConnection
| BalanceGuard
| QuoteService
| QuoteComparison
| CustomizationHook
| Deserializer
| SigningAgent
| Confirmation
| StatusWaiter.

Definition Collaborator_eqb (a b : Collaborator) : bool :=
  match a, b with
  | RpcConnection, RpcConnection | BalanceGuard, BalanceGuard
  | QuoteService, QuoteService | QuoteComparison, QuoteComparison
  | CustomizationHook, CustomizationHook | Deserializer, Deserializer
  | SigningAgent, SigningAgent | Confirmation, Confirmation
  | StatusWaiter, StatusWaiter => true
  | _, _ => false
  end.

Definition callSites : list Collaborator :=
  [RpcConnection; BalanceGuard; QuoteService; QuoteComparison; CustomizationHook;
   Deserializer; SigningAgent; Confirmation; StatusWaiter].

(** The collaborator an event is a call of; ledger calls are no calls of a
    collaborator. *)
Definition collaborator (ev : Event) : option Collaborator :=
  match ev with
  | CallGetSolanaConnection _ => Some RpcConnection
  | CallCheckBalance _ _ => Some BalanceGuard
  | CallGetStepTransaction _ => Some QuoteService
  | CallStepComparison _ => Some QuoteComparison
  | CallHook _ => Some CustomizationHook
  | CallDeserialize _ => Some Deserializer
  | CallSendTransaction _ _ _ => Some SigningAgent
  | CallConfirmTransaction _ _ => Some Confirmation
  | CallWaitForReceivingTransaction _ _ _ => Some StatusWaiter
  | LedgerFindOrCreateProcess _ _ | LedgerUpdateProcess _ _ _
  | LedgerUpdateExecution _ => None
  end.

(** The collaborators called in a trace, in the order of the calls. *)
Fixpoint calls (tr : list Event) : list Collaborator :=
  match tr with
  | [] => []
  | ev :: tr' =>
      match collaborator ev with
      | Some c => c :: calls tr'
      | None => calls tr'
      end
  end.

(** [l] picks elements of [sites], in their order, each at most once. *)
Fixpoint in_order (sites l : list Collaborator) : bool :=
  match sites with
  | [] => match l with [] => true | _ :: _ => false end
  | c :: sites' =>
      match l with
      | [] => true
      | x :: l' => if Collaborator_eqb x c then in_order sites' l' else in_order sites' l
      end
  end.

(** The Process patch of lines 146-149. *)
Definition sentPatch (fromChain : Chain) (txHash : string) : ProcessPatch :=
  mkProcessPatch (Some (Some txHash))
    (Some (Some (blockExplorerUrl fromChain ++ "tx/" ++ txHash))) None None None.

(** The error a call of the first [try] block (lines 57-158) was rejected
    with.  The deserializer is synchronous: what it throws is read off the
    world. *)
Definition rejection (w : World) (ev : Event) : option Thrown :=
  match ev with
  | CallGetSolanaConnection (inl e) | CallCheckBalance _ (inl e)
  | CallGetStepTransaction (inl e) | CallStepComparison (inl e) | CallHook (inl e)
  | CallSendTransaction _ _ (inl e) | CallConfirmTransaction _ (inl e) => Some e
  | CallDeserialize d =>
      match deserialize w d with
      | inl e => Some e
      | inr _ => None
      end
  | _ => None
  end.

(** A ledger call, of either kind, for the Process of phase [t]. *)
Definition ledger_call_for (t : ProcessType) (ev : Event) : bool :=
  match ev with
  | LedgerFindOrCreateProcess t' _ | LedgerUpdateProcess t' _ _ => ProcessType_eqb t' t
  | _ => false
  end.

End Solana.

(** * The EVM bridge executor ([MultichainExecutionManager.execute]) *)
Module Multichain.

Local Open Scope exec_scope.

(** ** Data model *)

Record Process := mkProcess {
  id : string;
  message : option string;
  status : Status;
  txHash : option string;
  txLink : option string;
  errorMessage : option string;
  htmlErrorMessage : option string;
  errorCode : option ErrorCode
}.

(** The optional last argument of [updateProcess]. *)
Record ProcessPatch := mkProcessPatch {
  patch_message : Property string;
  patch_txHash : Property string;
  patch_txLink : Property string;
  patch_errorMessage : Property string;
  patch_htmlErrorMessage : Property string;
  patch_errorCode : Property ErrorCode
}.

Definition noPatch : ProcessPatch := mkProcessPatch None None None None None None.

Record Summary := mkSummary {
  fromAmount : option string;
  toAmount : option string
}.

Record Execution := mkExecution {
  execution_status : Status;
  process : list Process;
  summary : Summary
}.

Record Token := mkToken {
  address : string
}.

Record Action := mkAction {
  fromChainId : N;
  toChainId : N;
  fromToken : Token;
  fromAmount_ : string;
  toToken : Token
}.

Record Estimate := mkEstimate {
  approvalAddress : string
}.

Record TransactionRequest := mkTransactionRequest {
  data : string
}.

Record Step := mkStep {
  action : Action;
  estimate : Estimate;
  transactionRequest : option TransactionRequest;
  execution : option Execution
}.

Definition set_execution (step : Step) (e : Execution) : Step :=
  mkStep (action step) (estimate step) (transactionRequest step) (Some e).

(** [constants.AddressZero] of ethers *)
Definition AddressZero : string := "0x0000000000000000000000000000000000000000".

(** ** Process Ledger (status manager), keyed by process id *)

Definition emptyExecution : Execution := mkExecution PENDING [] (mkSummary None None).

(** Modelled from the spec: [initExecutionObject] of the status manager, whose
    code is not among the sources (section 4.1: creates the execution record if
    absent; on a step that already has one, returns it unchanged). *)
Definition initExecutionObject (step : Step) : Execution :=
  match execution step with
  | Some e => e
  | None => emptyExecution
  end.

Definition findProcess (i : string) (l : list Process) : option Process :=
  find (fun p => String.eqb (id p) i) l.

Definition newProcess (i : string) (msg : option string) (s : Status) : Process :=
  mkProcess i msg s None None None None None.

(** Modelled from the spec: [findOrCreateProcess] of the status manager
    (section 4.1: returns the existing Process, or creates one, in status
    [STARTED] when none is given; a created Process is appended). *)
Definition findOrCreateProcess (i : string) (step : Step) (msg : string)
  : Step * Process :=
  let e := initExecutionObject step in
  match findProcess i (process e) with
  | Some p => (set_execution step e, p)
  | None =>
      let p := newProcess i (Some msg) STARTED in
      (set_execution step
         (mkExecution (execution_status e) (process e ++ [p]) (summary e)), p)
  end.

Definition applyPatch (s : Status) (patch : ProcessPatch) (p : Process) : Process :=
  mkProcess (id p)
    (assign (message p) (patch_message patch))
    s
    (assign (txHash p) (patch_txHash patch))
    (assign (txLink p) (patch_txLink patch))
    (assign (errorMessage p) (patch_errorMessage patch))
    (assign (htmlErrorMessage p) (patch_htmlErrorMessage patch))
    (assign (errorCode p) (patch_errorCode patch)).

Fixpoint updateList (i : string) (f : Process -> Process) (l : list Process)
  : list Process :=
  match l with
  | [] => []
  | p :: r => if String.eqb (id p) i then f p :: r else p :: updateList i f r
  end.

(** Modelled from the spec: [updateProcess] of the status manager (section 4.1:
    sets [status] and merges the patch fields into the Process, in place).  On
    an id without a Process the ledger is left as it is. *)
Definition updateProcess (step : Step) (i : string) (s : Status)
  (patch : ProcessPatch) : Step :=
  let e := initExecutionObject step in
  set_execution step
    (mkExecution (execution_status e) (updateList i (applyPatch s patch) (process e))
       (summary e)).

(** Modelled from the spec: [updateExecution] of the status manager (section
    4.1: sets the overall status and merges the summary fields, when given). *)
Definition updateExecution (step : Step) (s : Status) (patch : option Summary) : Step :=
  let e := initExecutionObject step in
  set_execution step
    (mkExecution s (process e)
       (match patch with Some m => m | None => summary e end)).

(** A [const] bound to a Process is a reference into the ledger: its fields
    are read from the ledger as it is at the time of the read. *)
Definition deref (i : string) (step : Step) : Process :=
  match findProcess i (process (initExecutionObject step)) with
  | Some p => p
  | None => newProcess i None STARTED
  end.

(** ** Collaborators *)

Record TransactionResponse := mkTransactionResponse {
  hash : string
}.

Record TransactionReceipt := mkTransactionReceipt {
  transactionHash : string
}.

Record ParsedReceipt := mkParsedReceipt {
  parsed_fromAmount : option string;
  parsed_toAmount : option string
}.

(** Everything [execute] is handed or imports.  An awaited call answers [inr]
    when its promise resolves and [inl] when it rejects; [getTransaction]
    resolves to [None] for a hash the provider does not know.  Chain lookup is
    configuration; the wallet-error parser is synchronous and total.
    [checkAllowance] is handed the status manager; what it records with it is
    its own, and the ledger calls of this model are the ones [execute] makes
    itself. *)
Record World := mkWorld {
  shouldContinue : bool;
  getChainById : N -> Chain;
  checkAllowance : Step -> Chain -> Token -> string -> string -> bool -> bool -> Thrown + unit;
  getTransaction : option string -> Thrown + option TransactionResponse;
  balanceCheck : Step -> Thrown + unit;
  personalizeStep : Step -> Thrown + Step;
  getStepTransaction : Step -> Thrown + Step;
  sendTransaction : TransactionRequest -> Thrown + TransactionResponse;
  wait : TransactionResponse -> Thrown + unit;
  parseWalletError : Thrown -> Step -> Process -> ErrorObject;
  waitForDestinationChainReceipt : option string -> N -> Thrown + TransactionReceipt;
  getAddress : Thrown + string;
  parseReceipt : string -> string -> option string -> TransactionReceipt
                 -> Thrown + ParsedReceipt
}.

(** ** Trace of one invocation *)

Inductive Event :=
| LedgerFindOrCreateProcess (i : string)
| LedgerUpdateProcess (i : string) (s : Status) (patch : ProcessPatch)
| LedgerUpdateExecution (s : Status)
| CallCheckAllowance (r : Thrown + unit)
| CallGetTransaction (h : option string) (r : Thrown + option TransactionResponse)
| CallBalanceCheck (r : Thrown + unit)
| CallPersonalizeStep (r : Thrown + Step)
| CallGetStepTransaction (r : Thrown + Step)
| CallSendTransaction (req : TransactionRequest) (r : Thrown + TransactionResponse)
| CallWait (tx : TransactionResponse) (r : Thrown + unit)
| CallWaitForDestinationChainReceipt (h : option string) (chain : N)
    (r : Thrown + TransactionReceipt)
| CallGetAddress (r : Thrown + string)
| CallParseReceipt (r : Thrown + ParsedReceipt).

(** The state of one invocation: the step (with its execution record) and the
    trace. *)
Record Frame := mkFrame {
  step : Step;
  trace : list Event
}.

Definition log (ev : Event) : M (S := Frame) unit :=
  modify (fun f => mkFrame (step f) (trace f ++ [ev])).

Definition call {A} (ev : Event) (r : Thrown + A) : M (S := Frame) A :=
  log ev ;; await r.

Definition doFindOrCreateProcess (i : string) (msg : string) : M (S := Frame) unit :=
  modify (fun f =>
    mkFrame (fst (findOrCreateProcess i (step f) msg))
      (trace f ++ [LedgerFindOrCreateProcess i])).

Definition doUpdateProcess (i : string) (s : Status) (patch : ProcessPatch)
  : M (S := Frame) unit :=
  modify (fun f =>
    mkFrame (updateProcess (step f) i s patch) (trace f ++ [LedgerUpdateProcess i s patch])).

Definition doUpdateExecution (s : Status) (patch : option Summary)
  : M (S := Frame) unit :=
  modify (fun f =>
    mkFrame (updateExecution (step f) s patch) (trace f ++ [LedgerUpdateExecution s])).

(** ** [execute] *)

Definition crossProcess : string := "crossProcess".
Definition waitForTxProcess : string := "waitForTxProcess".

(** Lines 33-36: is the token approval still to be looked at? *)
Definition approvalStillNeeded (s : Step) : bool :=
  match findProcess crossProcess (process (initExecutionObject s)) with
  | None => true
  | Some oldCrossProcess => negb (truthy (txHash oldCrossProcess))
  end.

(** Lines 31-51. *)
Definition allowancePhase (w : World) (fromChain : Chain) : M (S := Frame) unit :=
  f <- get ;;
  let action := action (step f) in
  if approvalStillNeeded (step f) then
    if negb (String.eqb (address (fromToken action)) AddressZero) then
      let r := checkAllowance w (step f) fromChain (fromToken action)
                 (fromAmount_ action) (approvalAddress (estimate (step f)))
                 true (shouldContinue w) in
      call (CallCheckAllowance r) r
    else ret tt
  else ret tt.

(** [tx.wait()]; on the [null] of an unknown hash the member access throws. *)
Definition waitFor (w : World) (tx : option TransactionResponse) : M (S := Frame) unit :=
  match tx with
  | Some tx => call (CallWait tx (wait w tx)) (wait w tx)
  | None => throw (JsError "Cannot read properties of null (reading 'wait')")
  end.

(** [throw crossProcess.errorMessage] *)
Definition throwErrorMessage (p : Process) : M (S := Frame) (option TransactionResponse) :=
  match errorMessage p with
  | Some m => throw (ThrowString m)
  | None => throw ThrowUndefined
  end.

(** Lines 66-91, the branch without a transaction hash.  [None] is the early
    [return step.execution] of line 83. *)
Definition prepareAndSend (w : World) (fromChain : Chain)
  : M (S := Frame) (option (option TransactionResponse)) :=
  f <- get ;;
  call (CallBalanceCheck (balanceCheck w (step f))) (balanceCheck w (step f)) ;;
  personalizedStep <-
    call (CallPersonalizeStep (personalizeStep w (step f))) (personalizeStep w (step f)) ;;
  quoted <-
    call (CallGetStepTransaction (getStepTransaction w personalizedStep))
         (getStepTransaction w personalizedStep) ;;
  match transactionRequest quoted with
  | None =>
      doUpdateProcess crossProcess FAILED
        (mkProcessPatch None None None (Some (Some "Unable to prepare Transaction"))
           None None) ;;
      f <- get ;;
      r <- throwErrorMessage (deref crossProcess (step f)) ;;
      ret (Some r)
  | Some transactionRequest =>
      doUpdateProcess crossProcess ACTION_REQUIRED noPatch ;;
      if negb (shouldContinue w) then ret None else
      tx <- call (CallSendTransaction transactionRequest
                    (sendTransaction w transactionRequest))
                 (sendTransaction w transactionRequest) ;;
      doUpdateProcess crossProcess PENDING
        (mkProcessPatch None (Some (Some (hash tx)))
           (Some (Some (blockExplorerUrl fromChain ++ "tx/" ++ hash tx)))
           None None None) ;;
      ret (Some (Some tx))
  end.

(** Lines 61-94, the body of the first [try].  [false] when the function
    returned at line 83. *)
Definition sendPhase (w : World) (fromChain : Chain) : M (S := Frame) bool :=
  f <- get ;;
  let h := txHash (deref crossProcess (step f)) in
  loaded <- (if truthy h
             then tx <- call (CallGetTransaction h (getTransaction w h))
                             (getTransaction w h) ;;
                  ret (Some tx)
             else prepareAndSend w fromChain) ;;
  match loaded with
  | None => ret false
  | Some tx => waitFor w tx ;; ret true
  end.

(** [e.code === 'TRANSACTION_REPLACED' && e.replacement] *)
Definition replaced (e : Thrown) : option string :=
  match thrown_code e with
  | Some (CodeName c) =>
      if String.eqb c "TRANSACTION_REPLACED" then thrown_replacement e else None
  | _ => None
  end.

(** The [TypeError] of reading [e.code] when [e] is [undefined]. *)
Definition undefinedCodeRead : Thrown :=
  JsError "Cannot read properties of undefined (reading 'code')".

(** Reading [e.code] in a [catch]: a member access on [undefined] throws. *)
Definition readCode {A} (e : Thrown) (k : M (S := Frame) A) : M (S := Frame) A :=
  if isUndefined e then throw undefinedCodeRead else k.

(** [{ errorMessage: error.message, htmlErrorMessage: error.htmlMessage,
      errorCode: error.code }] *)
Definition errorPatch (error : ErrorObject) : ProcessPatch :=
  mkProcessPatch None None None
    (Some (Some (e_message error)))
    (Some (e_htmlMessage error))
    (Some (e_code error)).

(** [{ txHash: h, txLink: explorer + 'tx/' + h }] *)
Definition hashPatch (chain : Chain) (h : string) : ProcessPatch :=
  mkProcessPatch None (Some (Some h))
    (Some (Some (blockExplorerUrl chain ++ "tx/" ++ h))) None None None.

(** Lines 95-114, the first [catch]. *)
Definition sendPhaseFailed (w : World) (fromChain : Chain) (e : Thrown)
  : M (S := Frame) bool :=
  readCode e
    (match replaced e with
     | Some replacementHash =>
         doUpdateProcess crossProcess PENDING (hashPatch fromChain replacementHash) ;;
         ret true
     | None =>
         f <- get ;;
         let error := parseWalletError w e (step f) (deref crossProcess (step f)) in
         doUpdateProcess crossProcess FAILED (errorPatch error) ;;
         doUpdateExecution FAILED None ;;
         throw (ThrowObject error)
     end).

(** Lines 132-139, the second [catch]. *)
Definition receiptFailed (e : Thrown) : M (S := Frame) TransactionReceipt :=
  readCode e
    (doUpdateProcess waitForTxProcess FAILED
       (mkProcessPatch None None None (Some (Some "Failed waiting")) None
          (Some (thrown_code e))) ;;
     doUpdateExecution FAILED None ;;
     throw e).

(** Lines 116-165. *)
Definition receivingPhase (w : World) (toChain : Chain) : M (S := Frame) Execution :=
  doUpdateProcess crossProcess DONE
    (mkProcessPatch (Some (Some "Transfer started: ")) None None None None None) ;;
  doFindOrCreateProcess waitForTxProcess "Wait for Receiving Chain" ;;
  f <- get ;;
  let sourceHash := txHash (deref crossProcess (step f)) in
  destinationTxReceipt <-
    tryCatch
      (call (CallWaitForDestinationChainReceipt sourceHash (chain_id toChain)
               (waitForDestinationChainReceipt w sourceHash (chain_id toChain)))
            (waitForDestinationChainReceipt w sourceHash (chain_id toChain)))
      receiptFailed ;;
  owner <- call (CallGetAddress (getAddress w)) (getAddress w) ;;
  f <- get ;;
  let r := parseReceipt w owner (address (toToken (action (step f))))
             (txHash (deref crossProcess (step f))) destinationTxReceipt in
  parsedReceipt <- call (CallParseReceipt r) r ;;
  doUpdateProcess waitForTxProcess DONE
    (mkProcessPatch (Some (Some "Funds Received:"))
       (Some (Some (transactionHash destinationTxReceipt)))
       (Some (Some (blockExplorerUrl toChain ++ "tx/"
                    ++ transactionHash destinationTxReceipt)))
       None None None) ;;
  doUpdateExecution DONE
    (Some (mkSummary (parsed_fromAmount parsedReceipt) (parsed_toAmount parsedReceipt))) ;;
  f <- get ;;
  ret (initExecutionObject (step f)).

(** Lines 31-114: allowance, then the send phase with its [catch]. *)
Definition sendStage (w : World) (fromChain : Chain) : M (S := Frame) bool :=
  allowancePhase w fromChain ;;
  doFindOrCreateProcess crossProcess "Prepare Transaction" ;;
  tryCatch (sendPhase w fromChain) (sendPhaseFailed w fromChain).

Definition executeFrom (w : World) (fromChain toChain : Chain)
  : M (S := Frame) Execution :=
  continue <- sendStage w fromChain ;;
  if continue then receivingPhase w toChain
  else f <- get ;; ret (initExecutionObject (step f)).

Definition execute (w : World) (step0 : Step) : Result Execution * Frame :=
  let step1 := set_execution step0 (initExecutionObject step0) in
  let fromChain := getChainById w (fromChainId (action step1)) in
  let toChain := getChainById w (toChainId (action step1)) in
  executeFrom w fromChain toChain (mkFrame step1 []).

(** ** Observations on a step and on a run *)

Definition processOf (i : string) (s : Step) : option Process :=
  findProcess i (process (initExecutionObject s)).

Definition statusOf (s : Step) : Status :=
  execution_status (initExecutionObject s).

(** The transaction hash a Process carries, if any. *)
Definition carriedTxHash (p : option Process) : option string :=
  match p with
  | Some p => truthy_value (txHash p)
  | None => None
  end.

Definition is_send (ev : Event) : bool :=
  match ev with CallSendTransaction _ _ => true | _ => false end.

Definition is_allowance_check (ev : Event) : bool :=
  match ev with CallCheckAllowance _ => true | _ => false end.

Definition is_balance_check (ev : Event) : bool :=
  match ev with CallBalanceCheck _ => true | _ => false end.

Definition is_reconciliation (ev : Event) : bool :=
  match ev with
  | CallPersonalizeStep _ | CallGetStepTransaction _ => true
  | _ => false
  end.

(** A confirmation call: loading a transaction or waiting for it. *)
Definition is_confirmation (ev : Event) : bool :=
  match ev with
  | CallGetTransaction _ _ | CallWait _ _ => true
  | _ => false
  end.

(** A confirmation call on the transaction with hash [h]. *)
Definition confirms (h : string) (ev : Event) : bool :=
  match ev with
  | CallGetTransaction (Some h') _ => String.eqb h' h
  | CallWait tx _ => String.eqb (hash tx) h
  | _ => false
  end.

(** A ledger call that puts a Process in status [s]. *)
Definition sets_status (s : Status) (ev : Event) : bool :=
  match ev with
  | LedgerUpdateProcess _ s' _ => Status_eqb s' s
  | _ => false
  end.

(** The events the receiving phase can log. *)
Definition is_receiving_event (ev : Event) : bool :=
  match ev with
  | LedgerFindOrCreateProcess _
  | LedgerUpdateProcess _ DONE _
  | LedgerUpdateProcess _ FAILED _
  | LedgerUpdateExecution _
  | CallWaitForDestinationChainReceipt _ _ _
  | CallGetAddress _
  | CallParseReceipt _ => true
  | _ => false
  end.

Definition fromChainOf (w : World) (s0 : Step) : Chain :=
  getChainById w (fromChainId (action s0)).

Definition toChainOf (w : World) (s0 : Step) : Chain :=
  getChainById w (toChainId (action s0)).

(** The step once line 27 has bound its execution record. *)
Definition entryStep (s0 : Step) : Step :=
  set_execution s0 (initExecutionObject s0).

(** The send stage of the run of [execute w s0]. *)
Definition sendRun (w : World) (s0 : Step) : Result bool * Frame :=
  sendStage w (fromChainOf w s0) (mkFrame (entryStep s0) []).

(** The [crossProcess] the send phase starts from: the one of the step, or a
    fresh one. *)
Definition entryProcess (s0 : Step) : Process :=
  match processOf crossProcess s0 with
  | Some p => p
  | None => newProcess crossProcess (Some "Prepare Transaction") STARTED
  end.

(** The failure was recorded by the executor: Process [i] and the Execution
    are [FAILED], by the last two ledger calls of the trace. *)
Definition recordedFailure (i : string) (f : Frame) : Prop :=
  option_map status (processOf i (step f)) = Some FAILED
  /\ statusOf (step f) = FAILED
  /\ exists pre pa,
       trace f = (pre ++ [LedgerUpdateProcess i FAILED pa; LedgerUpdateExecution FAILED])%list.

(** The patch of line 117. *)
Definition startedPatch : ProcessPatch :=
  mkProcessPatch (Some (Some "Transfer started: ")) None None None None None.

(** The broadcast or the confirmation wait was answered with the error [e]. *)
Definition broadcastOrWaitFailed (e : Thrown) (ev : Event) : Prop :=
  (exists tx, ev = CallWait tx (inl e)) \/ (exists req, ev = CallSendTransaction req (inl e)).

(** The receiving phase failed without the executor recording it: the
    rejected call is the last event, and the Execution status is untouched. *)
Definition unrecordedFailure (s : Step) (rest : list Event) (f : Frame) : Prop :=
  statusOf (step f) = statusOf s
  /\ existsb (sets_status FAILED) rest = false
  /\ ((exists e, rest = [CallGetAddress (inl e)])
      \/ (exists a e, rest = [CallGetAddress (inr a); CallParseReceipt (inl e)])).

(** A rejected call outside both [try] blocks (lines 39 and 142-147). *)
Definition is_unguarded_rejection (ev : Event) : bool :=
  match ev with
  | CallCheckAllowance (inl _) | CallGetAddress (inl _) | CallParseReceipt (inl _) => true
  | _ => false
  end.

(** The summary fields of the step's Execution. *)
Definition summaryOf (s : Step) : Summary :=
  summary (initExecutionObject s).

(** [setShouldContinue] (lines 17-19): the manager's flag is the
    [shouldContinue] of its world. *)
Definition setShouldContinue (val : bool) (w : World) : World :=
  mkWorld val (getChainById w) (checkAllowance w) (getTransaction w) (balanceCheck w)
    (personalizeStep w) (getStepTransaction w) (sendTransaction w) (wait w)
    (parseWalletError w) (waitForDestinationChainReceipt w) (getAddress w)
    (parseReceipt w).

(** The collaborators [execute] awaits or calls, in the order of their call
    sites (lines 39, 64, 67, 70, 71, 85, 94, 128, 143, 142). *)
Inductive Collaborator :=
| AllowanceCheck
| TransactionLoader
| BalanceGuard
| Personalizer
| QuoteService
| SigningAgent
| Confirmation
| DestinationWaiter
| AddressReader
| ReceiptParser.

Definition Collaborator_eqb (a b : Collaborator) : bool :=
  match a, b with
  | AllowanceCheck, AllowanceCheck | TransactionLoader, TransactionLoader
  | BalanceGuard, BalanceGuard | Personalizer, Personalizer
  | QuoteService, QuoteService | SigningAgent, SigningAgent
  | Confirmation, Confirmation | DestinationWaiter, DestinationWaiter
  | AddressReader, AddressReader | ReceiptParser, ReceiptParser => true
  | _, _ => false
  end.

Definition callSites : list Collaborator :=
  [AllowanceCheck; TransactionLoader; BalanceGuard; Personalizer; QuoteService;
   SigningAgent; Confirmation; DestinationWaiter; AddressReader; ReceiptParser].

(** The collaborator an event is a call of; ledger calls are no calls of a
    collaborator. *)
Definition collaborator (ev : Event) : option Collaborator :=
  match ev with
  | CallCheckAllowance _ => Some AllowanceCheck
  | CallGetTransaction _ _ => Some TransactionLoader
  | CallBalanceCheck _ => Some BalanceGuard
  | CallPersonalizeStep _ => Some Personalizer
  | CallGetStepTransaction _ => Some QuoteService
  | CallSendTransaction _ _ => Some SigningAgent
  | CallWait _ _ => Some Confirmation
  | CallWaitForDestinationChainReceipt _ _ _ => Some DestinationWaiter
  | CallGetAddress _ => Some AddressReader
  | CallParseReceipt _ => Some ReceiptParser
  | LedgerFindOrCreateProcess _ | LedgerUpdateProcess _ _ _
  | LedgerUpdateExecution _ => None
  end.

(** The collaborators called in a trace, in the order of the calls. *)
Fixpoint calls (tr : list Event) : list Collaborator :=
  match tr with
  | [] => []
  | ev :: tr' =>
      match collaborator ev with
      | Some c => c :: calls tr'
      | None => calls tr'
      end
  end.

(** [l] picks elements of [sites], in their order, each at most once. *)
Fixpoint in_order (sites l : list Collaborator) : bool :=
  match sites with
  | [] => match l with [] => true | _ :: _ => false end
  | c :: sites' =>
      match l with
      | [] => true
      | x :: l' => if Collaborator_eqb x c then in_order sites' l' else in_order sites' l
      end
  end.

(** The Process patch of lines 150-155. *)
Definition receivedPatch (toChain : Chain) (receipt : TransactionReceipt) : ProcessPatch :=
  mkProcessPatch (Some (Some "Funds Received:"))
    (Some (Some (transactionHash receipt)))
    (Some (Some (blockExplorerUrl toChain ++ "tx/" ++ transactionHash receipt)))
    None None None.

(** The Process patch of lines 133-136. *)
Definition failedWaitingPatch (e : Thrown) : ProcessPatch :=
  mkProcessPatch None None None (Some (Some "Failed waiting")) None
    (Some (thrown_code e)).

(** The plan of a step: what [execute] reads of it and never assigns. *)
Definition samePlan (s s' : Step) : Prop :=
  action s' = action s
  /\ estimate s' = estimate s
  /\ transactionRequest s' = transactionRequest s.

(** The error a call of the first [try] block (lines 61-94) was rejected
    with. *)
Definition rejection (ev : Event) : option Thrown :=
  match ev with
  | CallGetTransaction _ (inl e) | CallBalanceCheck (inl e) | CallPersonalizeStep (inl e)
  | CallGetStepTransaction (inl e) | CallSendTransaction _ (inl e)
  | CallWait _ (inl e) => Some e
  | _ => None
  end.

(** A ledger call for a Process other than [crossProcess] and
    [waitForTxProcess]. *)
Definition is_foreign_write (ev : Event) : bool :=
  match ev with
  | LedgerFindOrCreateProcess i | LedgerUpdateProcess i _ _ =>
      negb (String.eqb i crossProcess || String.eqb i waitForTxProcess)
  | _ => false
  end.

(** A call of the receiving phase (lines 128, 142-147). *)
Definition is_receiving_call (ev : Event) : bool :=
  match ev with
  | CallWaitForDestinationChainReceipt _ _ _ | CallGetAddress _ | CallParseReceipt _ => true
  | _ => false
  end.

(** The [waitForTxProcess] the receiving phase starts from: the one of the
    step, or a fresh one. *)
Definition entryWaitProcess (s : Step) : Process :=
  match processOf waitForTxProcess s with
  | Some p => p
  | None => newProcess waitForTxProcess (Some "Wait for Receiving Chain") STARTED
  end.

End Multichain.

(** * Concrete worlds and steps *)

Module SolanaExamples.
Import Solana.

Definition solana : N := 1151111081099710.
Definition ethereum : N := 1.

Definition chains (c : N) : Chain :=
  if N.eqb c solana then mkChain c "https://explorer.solana.com/"
  else mkChain c "https://etherscan.io/".

(** An Error Classifier that hands error objects on as they are. *)
Definition classify (e : Thrown) (_ : Step) (_ : Process) : ErrorObject :=
  match e with
  | ThrowObject o => o
  | ThrowString m => mkError (Some (CodeLiFi UnknownError)) m None None
  | ThrowUndefined => mkError (Some (CodeLiFi UnknownError)) "Unknown error occurred." None None
  end.

Definition completed : FullStatusData :=
  mkFullStatusData "DONE" (Some "COMPLETED") None
    (mkTransactionInfo (Some "1000000") (Some "5000") (Some "0.01") (Some "1")
       (Some "SOL") (Some "5000"))
    (Some (mkExtendedTransactionInfo (Some "sigR") (Some "998000") (Some "USDC"))).

Definition insufficientFunds : Thrown :=
  TransactionError InsufficientFunds "The balance is too low.".

Definition statusUnavailable : Thrown := JsError "Status request failed.".

(** The quote service answers with a plan of its own, which has no execution
    record. *)
Definition quote (s : Step) : Step :=
  mkStep (id s) (action s) "estimate-2" (Some (mkTransactionRequest (Some "AQID"))) None.

Definition exampleWorld (interactive : bool)
  (hook : option (TransactionParameters -> Thrown + TransactionParameters))
  (balance : Thrown + unit) (received : Thrown + FullStatusData) : World :=
  mkWorld interactive hook chains (inr tt) "wallet"
    (fun _ _ => balance)
    (fun s => inr (quote s))
    (fun _ updated => inr updated)
    (fun d => inr (mkVersionedTransaction d))
    (fun _ _ => inr "sig1")
    (fun _ _ => inr (mkSignatureResult None))
    (fun _ _ _ => received)
    classify
    (fun _ link => link)
    (fun _ _ => None).

(** A hook that returns an object without a [data] key. *)
Definition hookWithoutData : TransactionParameters -> Thrown + TransactionParameters :=
  fun _ => inr (mkTransactionParameters None).

(** A hook that returns [{ data: undefined }]. *)
Definition hookWithUndefinedData : TransactionParameters -> Thrown + TransactionParameters :=
  fun _ => inr (mkTransactionParameters (Some None)).

Definition quietWorld : World := exampleWorld false None (inr tt) (inr completed).

Definition interactiveWorld : World := exampleWorld true None (inr tt) (inr completed).

(** Non-interactive, and the wallet cannot cover the transfer. *)
Definition brokeWorld : World :=
  exampleWorld false None (inl insufficientFunds) (inr completed).

Definition hookWithoutDataWorld : World :=
  exampleWorld true (Some hookWithoutData) (inr tt) (inr completed).

Definition hookWithUndefinedDataWorld : World :=
  exampleWorld true (Some hookWithUndefinedData) (inr tt) (inr completed).

(** The status waiter rejects. *)
Definition statusDownWorld : World :=
  exampleWorld true None (inr tt) (inl statusUnavailable).

Definition swapStep : Step :=
  mkStep "step-1" (mkAction solana solana) "estimate-1"
    (Some (mkTransactionRequest (Some "AQID"))) None.

Definition bridgeStep : Step :=
  mkStep "step-2" (mkAction solana ethereum) "estimate-1"
    (Some (mkTransactionRequest (Some "AQID"))) None.

(** A step whose plan has still to be fetched. *)
Definition bareStep : Step :=
  mkStep "step-3" (mkAction solana solana) "estimate-1" None None.

(** A step whose transaction request carries no payload. *)
Definition emptyStep : Step :=
  mkStep "step-4" (mkAction solana solana) "estimate-1"
    (Some (mkTransactionRequest None)) None.

Definition withProcess (s : Step) (st : Status) (p : Process) : Step :=
  mkStep (id s) (action s) (estimate s) (transactionRequest s)
    (Some (mkExecution st [p] noSummary)).

(** A swap that was broadcast, and is resumed. *)
Definition pendingSwapStep : Step :=
  withProcess swapStep PENDING
    (mkProcess SWAP PENDING (Some "sig0")
       (Some "https://explorer.solana.com/tx/sig0") None None None).

(** A bridge transfer whose sending side is done, resumed for the receiving
    side. *)
Definition sentBridgeStep : Step :=
  withProcess bridgeStep PENDING
    (mkProcess CROSS_CHAIN DONE (Some "sig0")
       (Some "https://explorer.solana.com/tx/sig0") None None None).

(** A swap whose Execution is [DONE]. *)
Definition finishedSwapStep : Step :=
  withProcess swapStep DONE
    (mkProcess SWAP DONE (Some "sigR")
       (Some "https://explorer.solana.com/tx/sigR") (Some "COMPLETED") None None).

(** The cluster confirms the signature with an error. *)
Definition failedConfirmationWorld : World :=
  mkWorld true None chains (inr tt) "wallet"
    (fun _ _ => inr tt)
    (fun s => inr (quote s))
    (fun _ updated => inr updated)
    (fun d => inr (mkVersionedTransaction d))
    (fun _ _ => inr "sig1")
    (fun _ _ => inr (mkSignatureResult (Some "InstructionError")))
    (fun _ _ _ => inr completed)
    classify
    (fun _ link => link)
    (fun _ _ => None).

(** The user declines to sign. *)
Definition userRejected : Thrown := JsError "User rejected the request.".

Definition rejectedSignatureWorld : World :=
  mkWorld true None chains (inr tt) "wallet"
    (fun _ _ => inr tt)
    (fun s => inr (quote s))
    (fun _ updated => inr updated)
    (fun d => inr (mkVersionedTransaction d))
    (fun _ _ => inl userRejected)
    (fun _ _ => inr (mkSignatureResult None))
    (fun _ _ _ => inr completed)
    classify
    (fun _ link => link)
    (fun _ _ => None).

(** A hook that returns a payload of its own. *)
Definition hookWithData : TransactionParameters -> Thrown + TransactionParameters :=
  fun _ => inr (mkTransactionParameters (Some (Some "BAUG"))).

Definition hookWithDataWorld : World :=
  exampleWorld true (Some hookWithData) (inr tt) (inr completed).

(** A swap whose Process is [DONE] and holds no transaction hash. *)
Definition doneWithoutHashStep : Step :=
  withProcess swapStep PENDING (mkProcess SWAP DONE None None None None None).

(** A swap whose send phase failed before anything was broadcast. *)
Definition failedSwapStep : Step :=
  withProcess swapStep FAILED
    (mkProcess SWAP FAILED None None None None
       (Some (mkProcessError "The balance is too low." None
                (Some (CodeLiFi InsufficientFunds))))).

(** A swap whose execution record holds the Processes of a transfer tried
    before as a bridge: both sides failed. *)
Definition staleSending : Process :=
  mkProcess CROSS_CHAIN FAILED (Some "sigOld")
    (Some "https://explorer.solana.com/tx/sigOld") None None
    (Some (mkProcessError "The transfer was dropped." None None)).

Definition staleReceiving : Process :=
  mkProcess RECEIVING_CHAIN FAILED None None (Some "NOT_FOUND") None None.

Definition retriedSwapStep : Step :=
  mkStep (id swapStep) (action swapStep) (estimate swapStep) (transactionRequest swapStep)
    (Some (mkExecution FAILED [staleSending; staleReceiving] noSummary)).

End SolanaExamples.

Module MultichainExamples.
Import Multichain.

Definition chains (c : N) : Chain := mkChain c "https://etherscan.io/".

Definition classify (e : Thrown) (_ : Step) (_ : Process) : ErrorObject :=
  match e with
  | ThrowObject o => o
  | ThrowString m => mkError (Some (CodeLiFi UnknownError)) m None None
  | ThrowUndefined => mkError (Some (CodeLiFi UnknownError)) "Unknown error occurred." None None
  end.

Definition usdc : Token := mkToken "0xA0b86991c6218b36c1d19D4a2e9Eb0cE3606eB48".
Definition native : Token := mkToken AddressZero.

Definition tokenStep : Step :=
  mkStep (mkAction 1 56 usdc "1000000" usdc) (mkEstimate "0xSpender") None None.

Definition nativeStep : Step :=
  mkStep (mkAction 1 56 native "1000000" usdc) (mkEstimate "0xSpender") None None.

(** A transfer that was broadcast, and is resumed. *)
Definition sentStep : Step :=
  mkStep (action tokenStep) (estimate tokenStep) None
    (Some (mkExecution PENDING
             [mkProcess crossProcess (Some "Prepare Transaction") PENDING (Some "0xabc")
                (Some "https://etherscan.io/tx/0xabc") None None None]
             (mkSummary None None))).

Definition quoted : Step :=
  mkStep (action tokenStep) (estimate tokenStep) (Some (mkTransactionRequest "0xdata")) None.

Definition unquoted : Step :=
  mkStep (action tokenStep) (estimate tokenStep) None None.

Definition insufficientFunds : Thrown :=
  TransactionError InsufficientFunds "The balance is too low.".

(** What [tx.wait()] rejects with when the transaction was repriced. *)
Definition replacedBy (h : string) : Thrown :=
  ThrowObject (mkError (Some (CodeName "TRANSACTION_REPLACED")) "transaction was replaced"
                 None (Some h)).

Definition parsed : ParsedReceipt := mkParsedReceipt (Some "1000000") (Some "998000").

Definition malformedReceipt : Thrown := JsError "No transfer found in the receipt.".

Definition exampleWorld (continue : bool) (balance : Thrown + unit) (quote : Step)
  (waited : Thrown + unit) (receipt : Thrown + ParsedReceipt) : World :=
  mkWorld continue chains
    (fun _ _ _ _ _ _ _ => inr tt)
    (fun h => inr (option_map mkTransactionResponse h))
    (fun _ => balance)
    (fun s => inr s)
    (fun _ => inr quote)
    (fun _ => inr (mkTransactionResponse "0xabc"))
    (fun _ => waited)
    classify
    (fun _ _ => inr (mkTransactionReceipt "0xdst"))
    (inr "0xOwner")
    (fun _ _ _ _ => receipt).

Definition quietWorld : World :=
  exampleWorld false (inr tt) quoted (inr tt) (inr parsed).

Definition interactiveWorld : World :=
  exampleWorld true (inr tt) quoted (inr tt) (inr parsed).

(** The wallet cannot cover the transfer. *)
Definition brokeWorld : World :=
  exampleWorld true (inl insufficientFunds) quoted (inr tt) (inr parsed).

(** The quote service answers without a transaction request. *)
Definition unquotedWorld : World :=
  exampleWorld true (inr tt) unquoted (inr tt) (inr parsed).

(** The broadcast transaction is repriced, and mined as [0xnew]. *)
Definition repricedWorld : World :=
  exampleWorld true (inr tt) quoted (inl (replacedBy "0xnew")) (inr parsed).

(** The destination receipt arrives, and cannot be parsed. *)
Definition malformedReceiptWorld : World :=
  exampleWorld true (inr tt) quoted (inr tt) (inl malformedReceipt).

(** The provider does not know the transaction of the step. *)
Definition unknownTransactionWorld : World :=
  mkWorld true chains
    (fun _ _ _ _ _ _ _ => inr tt)
    (fun _ => inr None)
    (fun _ => inr tt)
    (fun s => inr s)
    (fun _ => inr quoted)
    (fun _ => inr (mkTransactionResponse "0xabc"))
    (fun _ => inr tt)
    classify
    (fun _ _ => inr (mkTransactionReceipt "0xdst"))
    (inr "0xOwner")
    (fun _ _ _ _ => inr parsed).

Definition destinationTimeout : Thrown :=
  ThrowObject (mkError (Some (CodeName "TIMEOUT")) "No receipt on the destination chain."
                 None None).

(** The destination chain never shows the transfer. *)
Definition destinationDownWorld : World :=
  mkWorld true chains
    (fun _ _ _ _ _ _ _ => inr tt)
    (fun h => inr (option_map mkTransactionResponse h))
    (fun _ => inr tt)
    (fun s => inr s)
    (fun _ => inr quoted)
    (fun _ => inr (mkTransactionResponse "0xabc"))
    (fun _ => inr tt)
    classify
    (fun _ _ => inl destinationTimeout)
    (inr "0xOwner")
    (fun _ _ _ _ => inr parsed).

(** The user declines to sign. *)
Definition userRejected : Thrown :=
  ThrowObject (mkError (Some (CodeName "ACTION_REJECTED")) "user rejected transaction"
                 None None).

Definition rejectedSignatureWorld : World :=
  mkWorld true chains
    (fun _ _ _ _ _ _ _ => inr tt)
    (fun h => inr (option_map mkTransactionResponse h))
    (fun _ => inr tt)
    (fun s => inr s)
    (fun _ => inr quoted)
    (fun _ => inl userRejected)
    (fun _ => inr tt)
    classify
    (fun _ _ => inr (mkTransactionReceipt "0xdst"))
    (inr "0xOwner")
    (fun _ _ _ _ => inr parsed).

End MultichainExamples.

(** * Facts shared by both executors *)

Lemma Status_eqb_eq (a b : Status) : Status_eqb a b = true <-> a = b.
Proof. destruct a, b; simpl; split; congruence. Qed.

Lemma truthy_truthy_value x :
  truthy x = match truthy_value x with Some _ => true | None => false end.
Proof. destruct x as [x|]; [|reflexivity]. simpl. destruct (String.eqb x ""); reflexivity. Qed.

Lemma truthy_value_Some x h : truthy_value x = Some h -> x = Some h /\ h <> "".
Proof.
  destruct x as [x|]; simpl; [|discriminate].
  destruct (String.eqb_spec x ""); [discriminate|]. intros [= ->]. split; [reflexivity|assumption].
Qed.

Lemma truthy_value_nonempty h : h <> "" -> truthy_value (Some h) = Some h.
Proof. intros H. simpl. destruct (String.eqb_spec h ""); [contradiction|reflexivity]. Qed.

Lemma forallb_existsb {A} (p q : A -> bool) (l : list A) :
  forallb p l = true -> (forall x, p x = true -> q x = false) -> existsb q l = false.
Proof.
  intros Hp Hpq. induction l as [|x l IH]; [reflexivity|]. simpl in *.
  apply andb_true_iff in Hp. destruct Hp as [Hx Hl].
  rewrite (Hpq x Hx), (IH Hl). reflexivity.
Qed.

(** * The Solana executor: ledger lemmas and runs *)

Module SolanaFacts.
Import Solana.

Lemma ProcessType_eqb_eq a b : ProcessType_eqb a b = true <-> a = b.
Proof. destruct a, b; simpl; split; congruence. Qed.

Lemma ProcessType_eqb_refl a : ProcessType_eqb a a = true.
Proof. destruct a; reflexivity. Qed.

Lemma findProcess_type t l p : findProcess t l = Some p -> type p = t.
Proof.
  unfold findProcess. intros H. apply find_some in H. apply ProcessType_eqb_eq, H.
Qed.

Lemma findProcess_updateList t s pa l :
  findProcess t (updateList t (applyPatch s pa) l)
  = option_map (applyPatch s pa) (findProcess t l).
Proof.
  induction l as [|p r IH]; simpl; [reflexivity|].
  destruct (ProcessType_eqb (type p) t) eqn:E; simpl; rewrite E; [reflexivity|exact IH].
Qed.

Lemma findProcess_updateList_other t t' s pa l :
  t' <> t ->
  findProcess t' (updateList t (applyPatch s pa) l) = findProcess t' l.
Proof.
  intros Hne. induction l as [|p r IH]; simpl; [reflexivity|].
  destruct (ProcessType_eqb (type p) t) eqn:E; simpl.
  - apply ProcessType_eqb_eq in E. subst t.
    destruct (ProcessType_eqb (type p) t') eqn:E'; [|reflexivity].
    apply ProcessType_eqb_eq in E'. congruence.
  - rewrite IH. reflexivity.
Qed.

Lemma findProcess_app_new t l p :
  findProcess t l = None -> type p = t -> findProcess t (l ++ [p]) = Some p.
Proof.
  intros Hn Ht. induction l as [|q r IH]; simpl in *.
  - rewrite Ht, ProcessType_eqb_refl. reflexivity.
  - destruct (ProcessType_eqb (type q) t); [discriminate|auto].
Qed.

Lemma findProcess_app_other t t' l p :
  type p = t -> t' <> t -> findProcess t' (l ++ [p]) = findProcess t' l.
Proof.
  intros Ht Hne. induction l as [|q r IH]; simpl in *.
  - destruct (ProcessType_eqb (type p) t') eqn:E; [|reflexivity].
    apply ProcessType_eqb_eq in E. congruence.
  - destruct (ProcessType_eqb (type q) t'); [reflexivity|exact IH].
Qed.

(** *** The ledger operations, seen through [processOf] and [statusOf] *)

Lemma processOf_findOrCreateProcess s t o :
  processOf t (fst (findOrCreateProcess s t o)) = Some (snd (findOrCreateProcess s t o)).
Proof.
  unfold processOf, findOrCreateProcess.
  destruct (findProcess t (process (initExecutionObject s))) eqn:E; simpl; [exact E|].
  apply findProcess_app_new; [exact E|reflexivity].
Qed.

Lemma processOf_findOrCreateProcess_other s t t' o :
  t' <> t -> processOf t' (fst (findOrCreateProcess s t o)) = processOf t' s.
Proof.
  intros Hne. unfold processOf, findOrCreateProcess.
  destruct (findProcess t (process (initExecutionObject s))) eqn:E; simpl; [reflexivity|].
  apply findProcess_app_other with (t := t); [reflexivity|exact Hne].
Qed.

Lemma snd_findOrCreateProcess s t o :
  snd (findOrCreateProcess s t o)
  = match processOf t s with
    | Some p => p
    | None => newProcess t (match o with Some st => st | None => STARTED end)
    end.
Proof.
  unfold processOf, findOrCreateProcess.
  destruct (findProcess t (process (initExecutionObject s))); reflexivity.
Qed.

Lemma statusOf_findOrCreateProcess s t o :
  statusOf (fst (findOrCreateProcess s t o)) = statusOf s.
Proof.
  unfold statusOf, findOrCreateProcess.
  destruct (findProcess t (process (initExecutionObject s))); reflexivity.
Qed.

Lemma transactionRequest_findOrCreateProcess s t o :
  transactionRequest (fst (findOrCreateProcess s t o)) = transactionRequest s.
Proof.
  unfold findOrCreateProcess.
  destruct (findProcess t (process (initExecutionObject s))); reflexivity.
Qed.

Lemma processOf_updateProcess s t st pa :
  processOf t (fst (updateProcess s t st pa)) = option_map (applyPatch st pa) (processOf t s).
Proof. unfold processOf, updateProcess. simpl. apply findProcess_updateList. Qed.

Lemma processOf_updateProcess_other s t t' st pa :
  t' <> t -> processOf t' (fst (updateProcess s t st pa)) = processOf t' s.
Proof. intros H. unfold processOf, updateProcess. simpl. now apply findProcess_updateList_other. Qed.

Lemma snd_updateProcess s t st pa p :
  processOf t s = Some p -> snd (updateProcess s t st pa) = applyPatch st pa p.
Proof. unfold processOf, updateProcess. simpl. intros ->. reflexivity. Qed.

Lemma type_snd_updateProcess s t st pa : type (snd (updateProcess s t st pa)) = t.
Proof.
  unfold updateProcess. simpl.
  destruct (findProcess t (process (initExecutionObject s))) eqn:E; [|reflexivity].
  apply findProcess_type in E. exact E.
Qed.

Lemma statusOf_updateProcess s t st pa :
  statusOf (fst (updateProcess s t st pa)) = statusOf s.
Proof. reflexivity. Qed.

Lemma transactionRequest_updateProcess s t st pa :
  transactionRequest (fst (updateProcess s t st pa)) = transactionRequest s.
Proof. reflexivity. Qed.

Lemma processOf_updateExecution s t st pa :
  processOf t (updateExecution s st pa) = processOf t s.
Proof. reflexivity. Qed.

Lemma statusOf_updateExecution s st pa : statusOf (updateExecution s st pa) = st.
Proof. reflexivity. Qed.

Lemma transactionRequest_updateExecution s st pa :
  transactionRequest (updateExecution s st pa) = transactionRequest s.
Proof. reflexivity. Qed.

Lemma processOf_replaceStep t c s : processOf t (replaceStep c s) = processOf t s.
Proof. reflexivity. Qed.

Lemma statusOf_replaceStep c s : statusOf (replaceStep c s) = statusOf s.
Proof. reflexivity. Qed.

Lemma processOf_set_execution t s :
  processOf t (set_execution s (initExecutionObject s)) = processOf t s.
Proof. reflexivity. Qed.

Lemma snd_updateProcess_eq s t st pa :
  snd (updateProcess s t st pa)
  = applyPatch st pa (match processOf t s with Some p => p | None => newProcess t st end).
Proof. reflexivity. Qed.

Lemma type_snd_findOrCreateProcess s t o : type (snd (findOrCreateProcess s t o)) = t.
Proof.
  pose proof (processOf_findOrCreateProcess s t o) as H.
  unfold processOf in H. apply findProcess_type in H. exact H.
Qed.

Lemma txHash_snd_findOrCreateProcess s t o :
  txHash (snd (findOrCreateProcess s t o))
  = match processOf t s with Some p => txHash p | None => None end.
Proof. rewrite snd_findOrCreateProcess. destruct (processOf t s); reflexivity. Qed.

Lemma payload_updateProcess s t st pa : payload (fst (updateProcess s t st pa)) = payload s.
Proof. reflexivity. Qed.

Lemma payload_findOrCreateProcess s t o :
  payload (fst (findOrCreateProcess s t o)) = payload s.
Proof. unfold payload. rewrite transactionRequest_findOrCreateProcess. reflexivity. Qed.

Lemma payload_updateExecution s st pa : payload (updateExecution s st pa) = payload s.
Proof. reflexivity. Qed.

Lemma payload_replaceStep c s : payload (replaceStep c s) = payload c.
Proof. reflexivity. Qed.

Create Rewrite HintDb solana_ledger.
#[export] Hint Rewrite payload_updateProcess payload_findOrCreateProcess
  payload_updateExecution payload_replaceStep : solana_ledger.
#[export] Hint Rewrite type_snd_updateProcess processOf_findOrCreateProcess
  processOf_updateProcess type_snd_findOrCreateProcess
  statusOf_updateProcess statusOf_findOrCreateProcess
  transactionRequest_updateProcess transactionRequest_findOrCreateProcess
  processOf_updateExecution statusOf_updateExecution transactionRequest_updateExecution
  processOf_replaceStep statusOf_replaceStep : solana_ledger.
#[export] Hint Rewrite processOf_updateProcess_other processOf_findOrCreateProcess_other
  using discriminate : solana_ledger.

(** *** Symbolic execution *)

Ltac break_hyp H :=
  match type of H with
  | context [match ?x with _ => _ end] =>
      lazymatch x with
      | context [match _ with _ => _ end] => fail
      | _ => destruct x eqn:?
      end
  end.

Ltac ledger_cbn_in H :=
  cbn -[findOrCreateProcess updateProcess updateExecution processOf statusOf
        replaceStep errorTriple optionalChain orElse unprepared
        currentProcessType isBridgeExecution sendProcess In app] in H.

Ltac ledger_cbn :=
  cbn -[findOrCreateProcess updateProcess updateExecution processOf statusOf
        replaceStep errorTriple optionalChain orElse unprepared
        currentProcessType isBridgeExecution sendProcess In app].

Ltac unfold_exec H :=
  unfold sendStage, receivingPhase, receive, receiveFailed,
    sendPhase, sendPhaseFailed, prepareAndSend, customize, reconcile,
    doUpdateProcess, doFindOrCreateProcess, doUpdateExecution, setStep,
    call, log, await, tryCatch, bind, get, modify, ret, throw in H.

(** Follow a computation down every path; each goal is one path, with the
    result substituted for [r]. *)
Ltac run_paths_with r Hrun :=
  unfold_exec Hrun; ledger_cbn_in Hrun;
  repeat (break_hyp Hrun; ledger_cbn_in Hrun);
  subst r; cbn [fst snd trace step current app] in *.

(** The type of the local [process] never changes. *)
Ltac norm_types :=
  rewrite ?type_snd_updateProcess, ?type_snd_findOrCreateProcess in *;
  match goal with
  | Htype : type ?p = currentProcessType _ _ |- _ => rewrite ?Htype in *
  | _ => idtac
  end.

(** The payload of the step is untouched by the ledger. *)
Ltac norm_payload :=
  rewrite ?payload_updateExecution, ?payload_updateProcess, ?payload_replaceStep,
    ?payload_findOrCreateProcess in *.

Tactic Notation "run_paths" ident(r) :=
  match goal with
  | Hrun : r = _ |- _ => run_paths_with r Hrun
  end.

(** Name the result of the computation [c] and follow it. *)
Ltac run c :=
  let r := fresh "r" in
  let Hrun := fresh "Hrun" in
  remember c as r eqn:Hrun in *;
  run_paths_with r Hrun.

(** Split a trace with a known spine into a prefix and the events that follow. *)
Ltac split_trace_with tac :=
  first [ exists (@nil _); tac
        | eexists [_]; tac
        | eexists [_; _]; tac
        | eexists [_; _; _]; tac
        | eexists [_; _; _; _]; tac
        | eexists [_; _; _; _; _]; tac
        | eexists [_; _; _; _; _; _]; tac
        | eexists [_; _; _; _; _; _; _]; tac
        | eexists [_; _; _; _; _; _; _; _]; tac
        | eexists [_; _; _; _; _; _; _; _; _]; tac
        | eexists [_; _; _; _; _; _; _; _; _; _]; tac
        | eexists [_; _; _; _; _; _; _; _; _; _; _]; tac
        | eexists [_; _; _; _; _; _; _; _; _; _; _; _]; tac ].

Ltac split_trace := split_trace_with reflexivity.

Ltac in_trace H :=
  repeat (destruct H as [H|H]; [try discriminate H|]); try contradiction.

(** Read the ledger of a path through the facts of the entry state. *)
Ltac ledger_goal :=
  match goal with
  | Hsend : processOf _ ?s = Some ?p, Htype : type ?p = _ |- _ =>
      repeat (progress (autorewrite with solana_ledger;
                        rewrite ?Hsend; ledger_cbn; rewrite ?Htype))
  end.

Ltac ledger_hyp H :=
  match goal with
  | Hsend : processOf _ ?s = Some ?p, Htype : type ?p = _ |- _ =>
      repeat (progress (autorewrite with solana_ledger in H;
                        rewrite ?Hsend in H; ledger_cbn_in H; rewrite ?Htype in H))
  end.

(** *** The two stages of [executeStep] *)

Lemma executeStep_stages w s0 :
  executeStep w s0
  = match fst (sendRun w s0) with
    | Ok true => receivingPhase w (isBridgeExecution w s0) (toChainOf w s0)
                   (snd (sendRun w s0))
    | Ok false => (Ok (step (snd (sendRun w s0))), snd (sendRun w s0))
    | Throw e => (Throw e, snd (sendRun w s0))
    end.
Proof.
  unfold executeStep, sendRun, executeStepFrom, bind.
  change (sendStage w _ _ _)
    with (sendStage w (isBridgeExecution w s0) (fromChainOf w s0) (entryFrame w s0)).
  destruct (sendStage w (isBridgeExecution w s0) (fromChainOf w s0) (entryFrame w s0))
    as [[[|]|e] f1]; reflexivity.
Qed.

(** The state in which [process] is bound at line 50, read off the step at
    invocation. *)
Lemma entryFrame_facts w s0 :
  exists s2 p0,
    entryFrame w s0
    = mkFrame s2 p0 [LedgerFindOrCreateProcess (currentProcessType w s0) None]
    /\ processOf (currentProcessType w s0) s2 = Some p0
    /\ type p0 = currentProcessType w s0
    /\ truthy_value (txHash p0) = carriedTxHash (sendProcess w s0)
    /\ Status_eqb (status p0) DONE = alreadyDone (sendProcess w s0)
    /\ payload s2 = payload s0
    /\ transactionRequest s2 = transactionRequest s0
    /\ statusOf s2 = statusOf s0
    /\ (forall t', t' <> currentProcessType w s0 -> processOf t' s2 = processOf t' s0).
Proof.
  unfold entryFrame.
  set (t := currentProcessType w s0).
  set (r0 := findOrCreateProcess (set_execution s0 (initExecutionObject s0)) t None).
  exists (fst r0), (snd r0).
  assert (H0 : processOf t (fst r0) = Some (snd r0)) by apply processOf_findOrCreateProcess.
  assert (H1 : snd r0 = match sendProcess w s0 with
                        | Some p => p
                        | None => newProcess t STARTED
                        end).
  { unfold r0. rewrite snd_findOrCreateProcess. reflexivity. }
  repeat split.
  - exact H0.
  - unfold processOf in H0. apply findProcess_type in H0. exact H0.
  - rewrite H1. destruct (sendProcess w s0); reflexivity.
  - rewrite H1. destruct (sendProcess w s0); reflexivity.
  - unfold r0. rewrite payload_findOrCreateProcess. reflexivity.
  - unfold r0. rewrite transactionRequest_findOrCreateProcess. reflexivity.
  - unfold r0. rewrite statusOf_findOrCreateProcess. reflexivity.
  - intros t' Hne. unfold r0. rewrite processOf_findOrCreateProcess_other by exact Hne.
    reflexivity.
Qed.

(** Bind the entry state of the run of [w] on [s0] to [s2], [p0]. *)
Ltac enter w s0 :=
  destruct (entryFrame_facts w s0)
    as (s2 & p0 & Hentry & Hsend & Htype & Hhash & Hdone & Hpay & Htr & Hst & Hother);
  unfold sendRun in *; rewrite Hentry in *; clear Hentry.

(** The ledger operations of a path keep the local [process] in step with
    the ledger. *)
Lemma inSync_updateProcess t s0 s p st pa :
  inSync t s0 s p ->
  inSync t s0 (fst (updateProcess s (type p) st pa)) (snd (updateProcess s (type p) st pa)).
Proof.
  intros (Ht & Hp & Ho). rewrite Ht. repeat split.
  - apply type_snd_updateProcess.
  - rewrite processOf_updateProcess, snd_updateProcess_eq, Hp. reflexivity.
  - intros t' Hne. rewrite processOf_updateProcess_other by exact Hne. apply Ho, Hne.
Qed.

Lemma inSync_updateExecution t s0 s p st su :
  inSync t s0 s p -> inSync t s0 (updateExecution s st su) p.
Proof. intros H. exact H. Qed.

Lemma inSync_replaceStep t s0 s p c :
  inSync t s0 s p -> inSync t s0 (replaceStep c s) p.
Proof. intros H. exact H. Qed.

Lemma inSync_updateProcess_type t s0 s p st pa :
  inSync t s0 s p ->
  inSync t s0 (fst (updateProcess s t st pa)) (snd (updateProcess s t st pa)).
Proof.
  intros H. pose proof (inSync_updateProcess t s0 s p st pa H) as H'.
  destruct H as (<- & _). exact H'.
Qed.

Ltac in_sync :=
  repeat match goal with
         | |- inSync _ _ (updateExecution _ _ _) _ => apply inSync_updateExecution
         | |- inSync _ _ (replaceStep _ _) _ => apply inSync_replaceStep
         | |- inSync _ _ (fst (updateProcess _ _ _ _)) _ =>
             first [apply inSync_updateProcess | eapply inSync_updateProcess_type]
         end;
  try eassumption.

(** The local [process] of a path is the ledger's. *)
Ltac sync_goal w s0 :=
  match goal with
  | |- processOf _ ?S = Some ?P =>
      let H := fresh in
      assert (H : inSync (currentProcessType w s0) s0 S P) by in_sync;
      destruct H as (_ & H & _); exact H
  end.

(** What every run of the send stage leaves behind. *)
Lemma sendRun_invariant w s0 :
  inSync (currentProcessType w s0) s0
    (step (snd (sendRun w s0))) (current (snd (sendRun w s0)))
  /\ existsb is_receiving_wait (trace (snd (sendRun w s0))) = false
  /\ existsb creates_receiving (trace (snd (sendRun w s0))) = false
  /\ (forall e, fst (sendRun w s0) = Throw e ->
        status (current (snd (sendRun w s0))) = FAILED
        /\ error (current (snd (sendRun w s0))) <> None
        /\ statusOf (step (snd (sendRun w s0))) = FAILED
        /\ exists pre pa,
             trace (snd (sendRun w s0))
             = (pre ++ [LedgerUpdateProcess (currentProcessType w s0) FAILED pa;
                        LedgerUpdateExecution FAILED])%list).
Proof.
  enter w s0.
  assert (Hin : inSync (currentProcessType w s0) s0 s2 p0) by (repeat split; assumption).
  run (sendStage w (isBridgeExecution w s0) (fromChainOf w s0)
         (mkFrame s2 p0 [LedgerFindOrCreateProcess (currentProcessType w s0) None])).
  all: (split; [in_sync|]).
  all: split; [reflexivity|split;[unfold currentProcessType; destruct (isBridgeExecution w s0); reflexivity|]].
  all: intros e He; try discriminate He.
  all: rewrite snd_updateProcess_eq; cbn [status error applyPatch patch_error].
  all: (split; [reflexivity|split;[discriminate|split;[reflexivity|]]]).
  all: rewrite ?type_snd_updateProcess, ?Htype; split_trace_with ltac:(eexists; reflexivity).
Qed.

(** The ledger never touches the plan of the step. *)
Lemma findOrCreateProcess_plan s t o :
  id (fst (findOrCreateProcess s t o)) = id s
  /\ action (fst (findOrCreateProcess s t o)) = action s
  /\ estimate (fst (findOrCreateProcess s t o)) = estimate s
  /\ transactionRequest (fst (findOrCreateProcess s t o)) = transactionRequest s.
Proof.
  unfold findOrCreateProcess.
  destruct (findProcess t (process (initExecutionObject s))); repeat split.
Qed.

Lemma samePlan_payload s s' : samePlan s s' -> payload s = payload s'.
Proof. intros (_ & _ & _ & H). unfold payload. rewrite H. reflexivity. Qed.

(** *** The receiving phase (lines 189-251)

    From a frame whose local [process] is the ledger's Process of its type:
    without a transaction hash the phase fails at once; with one it calls the
    waiter, and ends [FAILED] or [DONE] on the Process it was called for and
    on the Execution. *)
Lemma receivingPhase_spec w b tc f :
  (b = false -> processOf (type (current f)) (step f) <> None) ->
  let r := receivingPhase w b tc f in
  let tR := receivingType b (current f) in
  (forall t', t' <> tR -> processOf t' (step (snd r)) = processOf t' (step f))
  /\ samePlan (step (snd r)) (step f)
  /\ exists body,
      trace (snd r) = (trace f ++ receivingOpening b ++ body)%list
      /\ ((truthy_value (txHash (current f)) = None
           /\ fst r = Throw (JsError "Transaction hash is undefined.")
           /\ (exists pa, body = [LedgerUpdateProcess tR FAILED pa;
                                  LedgerUpdateExecution FAILED])
           /\ recorded tR FAILED (snd r)
           /\ error (current (snd r)) <> None)
          \/ (exists h e pa,
               truthy_value (txHash (current f)) = Some h
               /\ body = [CallWaitForReceivingTransaction h tR (inl e);
                          LedgerUpdateProcess tR FAILED pa;
                          LedgerUpdateExecution FAILED]
               /\ fst r = Throw e
               /\ recorded tR FAILED (snd r)
               /\ error (current (snd r)) <> None)
          \/ (exists h d pa,
               truthy_value (txHash (current f)) = Some h
               /\ body = [CallWaitForReceivingTransaction h tR (inr d);
                          LedgerUpdateProcess tR DONE pa;
                          LedgerUpdateExecution DONE]
               /\ fst r = Ok (step (snd r))
               /\ recorded tR DONE (snd r))).
Proof.
  intros Hex r tR. subst r tR. destruct f as [s p tr]. cbn [current step trace] in *.
  assert (Hp : b = false -> exists q, processOf (type p) s = Some q /\ type q = type p).
  { intros Hb. destruct (processOf (type p) s) as [q|] eqn:E.
    - exists q. split; [reflexivity|]. unfold processOf in E.
      apply findProcess_type in E. exact E.
    - exfalso. apply (Hex Hb). reflexivity. }
  clear Hex. unfold receivingType, receivingOpening.
  run (receivingPhase w b tc (mkFrame s p tr)).
  all: rewrite <- ?app_assoc; cbn [app].
  all: rewrite ?type_snd_findOrCreateProcess in *.
  all: unfold recorded; cbn [current step trace].
  all: split;
    [ intros t' Hne;
      rewrite ?processOf_updateExecution, ?processOf_updateProcess_other,
        ?processOf_findOrCreateProcess_other by assumption;
      reflexivity | ].
  all: split;
    [ unfold samePlan; cbn -[findOrCreateProcess];
      repeat match goal with
             | |- context [findOrCreateProcess ?a ?b ?c] =>
                 destruct (findOrCreateProcess_plan a b c) as (-> & -> & -> & ->)
             end;
      repeat split; reflexivity | ].
  all: eexists; split; [reflexivity|].
  all: try (destruct (Hp eq_refl) as (q & Hq & Hqt)).
  all: rewrite ?processOf_updateExecution, ?processOf_updateProcess,
         ?processOf_findOrCreateProcess, ?snd_updateProcess_eq, ?statusOf_updateExecution.
  all: rewrite ?processOf_findOrCreateProcess, ?Hq; cbn [option_map].
  all: cbn [type status error applyPatch].
  all: first
    [ left; repeat split; try reflexivity; try (eexists; reflexivity);
      solve [apply type_snd_findOrCreateProcess | assumption | discriminate]
    | right; left; eexists _, _, _; repeat split; try reflexivity;
      solve [apply type_snd_findOrCreateProcess | assumption | discriminate]
    | right; right; eexists _, _, _; repeat split; try reflexivity;
      solve [apply type_snd_findOrCreateProcess | assumption] ].
Qed.

(** The run is the send stage, followed by the receiving phase when the send
    stage says so. *)
Lemma executeStep_of_sendRun w s0 :
  (fst (sendRun w s0) = Ok true
   /\ executeStep w s0
      = receivingPhase w (isBridgeExecution w s0) (toChainOf w s0) (snd (sendRun w s0)))
  \/ (fst (sendRun w s0) <> Ok true
      /\ snd (executeStep w s0) = snd (sendRun w s0)
      /\ fst (executeStep w s0)
         = match fst (sendRun w s0) with
           | Ok _ => Ok (step (snd (sendRun w s0)))
           | Throw e => Throw e
           end).
Proof.
  rewrite executeStep_stages.
  destruct (fst (sendRun w s0)) as [[|]|e].
  - left. split; reflexivity.
  - right. repeat split. discriminate.
  - right. repeat split. discriminate.
Qed.

(** The send stage hands the receiving phase a frame it can work on. *)
Lemma sendRun_receiving_ready w s0 :
  isBridgeExecution w s0 = false ->
  processOf (type (current (snd (sendRun w s0)))) (step (snd (sendRun w s0))) <> None.
Proof.
  intros _. destruct (sendRun_invariant w s0) as ((Ht & Hp & _) & _).
  rewrite Ht, Hp. discriminate.
Qed.

(** The trace of the run extends the trace of the send stage by
    receiving-phase events only. *)
Lemma executeStep_trace w s0 :
  exists tr2,
    trace (snd (executeStep w s0)) = (trace (snd (sendRun w s0)) ++ tr2)%list
    /\ forallb is_receiving_event tr2 = true
    /\ (fst (sendRun w s0) <> Ok true -> tr2 = []).
Proof.
  destruct (executeStep_of_sendRun w s0) as [[Hok Hrun]|(Hne & Hf & _)].
  - rewrite Hrun.
    destruct (receivingPhase_spec w (isBridgeExecution w s0) (toChainOf w s0)
                (snd (sendRun w s0)) (sendRun_receiving_ready w s0))
      as (_ & _ & body & Htr & Hbody).
    exists (receivingOpening (isBridgeExecution w s0) ++ body)%list.
    split; [exact Htr|]. split; [|congruence].
    unfold receivingOpening, receivingType in *.
    destruct Hbody as [(_ & _ & (pa & ->) & _ & _)|[(h & e & pa & _ & -> & _)|(h & d & pa & _ & -> & _)]];
      destruct (isBridgeExecution w s0); reflexivity.
  - exists []. rewrite Hf, app_nil_r. repeat split.
Qed.

(** *** Non-interactive runs stop at [ACTION_REQUIRED] *)
Lemma sol_halt_stage w s0 :
  allowUserInteraction w = false ->
  carriedTxHash (sendProcess w s0) = None ->
  alreadyDone (sendProcess w s0) = false ->
  fst (sendRun w s0) <> Ok true
  /\ existsb is_send (trace (snd (sendRun w s0))) = false
  /\ existsb (sets_status PENDING) (trace (snd (sendRun w s0))) = false
  /\ (forall o,
        In (CallCheckBalance o (inr tt)) (trace (snd (sendRun w s0))) ->
        truthy (payload (step (snd (sendRun w s0)))) = true ->
        fst (sendRun w s0) = Ok false
        /\ status (current (snd (sendRun w s0))) = ACTION_REQUIRED
        /\ exists pre,
             trace (snd (sendRun w s0))
             = (pre ++ [LedgerUpdateProcess (currentProcessType w s0) ACTION_REQUIRED
                          noPatch])%list).
Proof.
  intros Hi Hh Hd. enter w s0. rewrite Hh in Hhash. rewrite Hd in Hdone.
  remember (sendStage w (isBridgeExecution w s0) (fromChainOf w s0)
         (mkFrame s2 p0 [LedgerFindOrCreateProcess (currentProcessType w s0) None])) as r eqn:Hrun.
  unfold_exec Hrun. ledger_cbn_in Hrun. rewrite Hdone in Hrun. ledger_cbn_in Hrun.
  destruct (getSolanaConnection w) as [ce|[]]; ledger_cbn_in Hrun; rewrite ?Hhash in Hrun.
  all: run_paths r.
  all: try (rewrite Hi in *; discriminate).
  all: norm_types.
  all: split; [discriminate|split; [reflexivity|split;[reflexivity|]]].
  all: intros o H Hp; in_trace H.
  all: rewrite truthy_truthy_value in Hp; autorewrite with solana_ledger in *.
  all: try (rewrite Heqo0 in Hp; discriminate Hp).
  all: try (unfold payload in Hp; rewrite Heqo in Hp; discriminate Hp).
  all: rewrite ?snd_updateProcess_eq; cbn [status applyPatch].
  all: split; [reflexivity|split;[reflexivity|]].
  all: split_trace.
Qed.

Lemma sol_halt w s0 :
  allowUserInteraction w = false ->
  carriedTxHash (sendProcess w s0) = None ->
  alreadyDone (sendProcess w s0) = false ->
  existsb is_send (trace (snd (executeStep w s0))) = false
  /\ existsb (sets_status PENDING) (trace (snd (executeStep w s0))) = false
  /\ (forall o,
        In (CallCheckBalance o (inr tt)) (trace (snd (executeStep w s0))) ->
        truthy (payload (step (snd (executeStep w s0)))) = true ->
        fst (executeStep w s0) = Ok (step (snd (executeStep w s0)))
        /\ option_map status
             (processOf (currentProcessType w s0) (step (snd (executeStep w s0))))
           = Some ACTION_REQUIRED
        /\ exists pre,
             trace (snd (executeStep w s0))
             = (pre ++ [LedgerUpdateProcess (currentProcessType w s0) ACTION_REQUIRED
                          noPatch])%list).
Proof.
  intros Hi Hh Hd.
  destruct (sol_halt_stage w s0 Hi Hh Hd) as (Hne & Hs & Hp & Hstop).
  destruct (executeStep_of_sendRun w s0) as [[Hok _]|(_ & Hf & Ho)]; [contradiction|].
  destruct (sendRun_invariant w s0) as ((_ & Hsync & _) & _).
  rewrite Hf, Ho. split; [exact Hs|]. split; [exact Hp|].
  intros o Hin Hpay. destruct (Hstop o Hin Hpay) as (Hok & Hst & Htr).
  rewrite Hok, Hsync. cbn [option_map]. rewrite Hst. repeat split. exact Htr.
Qed.

Lemma is_receiving_event_not_send ev :
  is_receiving_event ev = true ->
  is_send ev = false /\ is_balance_check ev = false /\ is_reconciliation ev = false
  /\ is_confirmation ev = false.
Proof. destruct ev; try discriminate; repeat split. Qed.

(** *** Runs on a Process that carries a transaction hash *)
Lemma sol_resume_stage w s0 h :
  carriedTxHash (sendProcess w s0) = Some h ->
  existsb is_balance_check (trace (snd (sendRun w s0))) = false
  /\ existsb is_reconciliation (trace (snd (sendRun w s0))) = false
  /\ existsb is_send (trace (snd (sendRun w s0))) = false
  /\ (alreadyDone (sendProcess w s0) = false ->
      exists c rest,
        trace (snd (sendRun w s0))
        = LedgerFindOrCreateProcess (currentProcessType w s0) None
          :: CallGetSolanaConnection c :: rest
        /\ (c = inr tt -> exists res rest', rest = CallConfirmTransaction h res :: rest'))
  /\ (alreadyDone (sendProcess w s0) = true ->
      fst (sendRun w s0) = Ok true
      /\ trace (snd (sendRun w s0))
         = [LedgerFindOrCreateProcess (currentProcessType w s0) None]
      /\ truthy_value (txHash (current (snd (sendRun w s0)))) = Some h
      /\ type (current (snd (sendRun w s0))) = currentProcessType w s0).
Proof.
  intros Hh. enter w s0. rewrite Hh in Hhash.
  remember (sendStage w (isBridgeExecution w s0) (fromChainOf w s0)
         (mkFrame s2 p0 [LedgerFindOrCreateProcess (currentProcessType w s0) None])) as r eqn:Hrun.
  unfold_exec Hrun. ledger_cbn_in Hrun.
  destruct (alreadyDone (sendProcess w s0)); rewrite Hdone in Hrun; ledger_cbn_in Hrun.
  2: destruct (getSolanaConnection w) as [ce|[]]; ledger_cbn_in Hrun; rewrite ?Hhash in Hrun.
  all: run_paths r.
  all: norm_types.
  all: split; [reflexivity|split;[reflexivity|split;[reflexivity|]]].
  all: split; intros Hx; try discriminate Hx.
  all: try (eexists _, _; split; [reflexivity|];
            intros Hc; first [discriminate Hc | eexists _, _; reflexivity]).
  all: repeat split; assumption.
Qed.

Lemma sol_resume w s0 h :
  carriedTxHash (sendProcess w s0) = Some h ->
  existsb is_balance_check (trace (snd (executeStep w s0))) = false
  /\ existsb is_reconciliation (trace (snd (executeStep w s0))) = false
  /\ existsb is_send (trace (snd (executeStep w s0))) = false
  /\ (alreadyDone (sendProcess w s0) = false ->
      exists c rest,
        trace (snd (executeStep w s0))
        = LedgerFindOrCreateProcess (currentProcessType w s0) None
          :: CallGetSolanaConnection c :: rest
        /\ (c = inr tt -> exists res rest', rest = CallConfirmTransaction h res :: rest'))
  /\ (alreadyDone (sendProcess w s0) = true ->
      existsb is_confirmation (trace (snd (executeStep w s0))) = false
      /\ exists res rest,
          trace (snd (executeStep w s0))
          = (LedgerFindOrCreateProcess (currentProcessType w s0) None
             :: receivingOpening (isBridgeExecution w s0)
             ++ CallWaitForReceivingTransaction h
                  (if isBridgeExecution w s0 then RECEIVING_CHAIN
                   else currentProcessType w s0) res
             :: rest)%list).
Proof.
  intros Hh.
  destruct (sol_resume_stage w s0 h Hh) as (Hb & Hr & Hs & Hnd & Hd).
  assert (Hclass : forall q,
            (forall ev, is_receiving_event ev = true -> q ev = false) ->
            existsb q (trace (snd (sendRun w s0))) = false ->
            existsb q (trace (snd (executeStep w s0))) = false).
  { intros q Hq Hs1. destruct (executeStep_trace w s0) as (tr2 & Htr & Hev & _).
    rewrite Htr, existsb_app, Hs1. apply (forallb_existsb _ _ _ Hev), Hq. }
  split; [|split; [|split; [|split]]].
  - apply Hclass; [|exact Hb]. intros ev H. apply is_receiving_event_not_send, H.
  - apply Hclass; [|exact Hr]. intros ev H. apply is_receiving_event_not_send, H.
  - apply Hclass; [|exact Hs]. intros ev H. apply is_receiving_event_not_send, H.
  - intros Hx. destruct (Hnd Hx) as (c & rest & Htr1 & Hnext).
    destruct (executeStep_trace w s0) as (tr2 & Htr & _).
    rewrite Htr, Htr1. exists c, (rest ++ tr2)%list. split; [reflexivity|].
    intros Hc. destruct (Hnext Hc) as (res & rest' & ->).
    exists res, (rest' ++ tr2)%list. reflexivity.
  - intros Hx. destruct (Hd Hx) as (Hok & Htr1 & Hhash & Hty).
    destruct (executeStep_of_sendRun w s0) as [[_ Hrun]|[Hne _]]; [|contradiction].
    destruct (receivingPhase_spec w (isBridgeExecution w s0) (toChainOf w s0)
                (snd (sendRun w s0)) (sendRun_receiving_ready w s0))
      as (_ & _ & body & Htr & Hbody).
    rewrite <- Hrun in Htr, Hbody. rewrite Htr, Htr1.
    unfold receivingType in Hbody. rewrite Hty in Hbody.
    destruct Hbody as [(Hn & _)|[(h' & e & pa & Hh' & -> & _)|(h' & d & pa & Hh' & -> & _)]];
      [congruence| |];
      (assert (h' = h) by congruence; subst h'; split;
       [ unfold receivingOpening; destruct (isBridgeExecution w s0); reflexivity
       | eexists _, _; reflexivity ]).
Qed.

(** *** What follows a confirmation that reports no error *)
Lemma sol_confirmed_stage w s0 h sr :
  In (CallConfirmTransaction h (inr sr)) (trace (snd (sendRun w s0))) ->
  truthy (err sr) = false ->
  h <> "" ->
  fst (sendRun w s0) = Ok true
  /\ truthy_value (txHash (current (snd (sendRun w s0)))) = Some h
  /\ (isBridgeExecution w s0 = true -> status (current (snd (sendRun w s0))) = DONE)
  /\ exists pre,
       trace (snd (sendRun w s0))
       = (pre ++ CallConfirmTransaction h (inr sr)
           :: (if isBridgeExecution w s0
               then [LedgerUpdateProcess CROSS_CHAIN DONE noPatch]
               else []))%list
       /\ existsb (sets_status DONE) pre = false.
Proof.
  intros H Herr Hne. enter w s0.
  run (sendStage w (isBridgeExecution w s0) (fromChainOf w s0)
         (mkFrame s2 p0 [LedgerFindOrCreateProcess (currentProcessType w s0) None])).
  all: in_trace H.
  all: injection H as Hsig Hres; subst.
  all: try match goal with
           | H1 : truthy_value (err ?x) = Some _, H2 : truthy (err ?x) = false |- _ =>
               rewrite truthy_truthy_value, H1 in H2; discriminate H2
           end.
  all: norm_types.
  all: rewrite ?snd_updateProcess_eq; cbn [txHash status applyPatch assign patch_txHash noPatch].
  all: autorewrite with solana_ledger; rewrite ?Hsend; cbn [option_map txHash applyPatch assign patch_txHash noPatch].
  all: rewrite ?(truthy_value_nonempty _ Hne).
  all: unfold currentProcessType;
    match goal with Hb : isBridgeExecution _ _ = _ |- _ => rewrite Hb end.
  all: (split; [reflexivity|split;[first [reflexivity|assumption]|split; [intros Hb; first [reflexivity|discriminate Hb]|]]]).
  all: split_trace_with ltac:(split; reflexivity).
Qed.

Lemma sol_confirmed w s0 h sr :
  In (CallConfirmTransaction h (inr sr)) (trace (snd (executeStep w s0))) ->
  truthy (err sr) = false ->
  h <> "" ->
  exists pre res post,
    trace (snd (executeStep w s0))
    = (pre ++ CallConfirmTransaction h (inr sr)
        :: (if isBridgeExecution w s0
            then [LedgerUpdateProcess CROSS_CHAIN DONE noPatch;
                  LedgerFindOrCreateProcess RECEIVING_CHAIN (Some PENDING)]
            else [])
        ++ CallWaitForReceivingTransaction h
             (if isBridgeExecution w s0 then RECEIVING_CHAIN else SWAP) res
        :: post)%list
    /\ existsb (sets_status DONE) pre = false
    /\ match res with
       | inr _ =>
           fst (executeStep w s0) = Ok (step (snd (executeStep w s0)))
           /\ option_map status
                (processOf (if isBridgeExecution w s0 then RECEIVING_CHAIN else SWAP)
                   (step (snd (executeStep w s0)))) = Some DONE
           /\ statusOf (step (snd (executeStep w s0))) = DONE
       | inl e =>
           fst (executeStep w s0) = Throw e
           /\ option_map status
                (processOf (if isBridgeExecution w s0 then RECEIVING_CHAIN else SWAP)
                   (step (snd (executeStep w s0)))) = Some FAILED
           /\ statusOf (step (snd (executeStep w s0))) = FAILED
       end
    /\ (if isBridgeExecution w s0
        then option_map status (processOf CROSS_CHAIN (step (snd (executeStep w s0))))
             = Some DONE
        else existsb creates_receiving (trace (snd (executeStep w s0))) = false).
Proof.
  intros Hin Herr Hne.
  assert (Hin1 : In (CallConfirmTransaction h (inr sr)) (trace (snd (sendRun w s0)))).
  { destruct (executeStep_trace w s0) as (tr2 & Htr & Hev & _).
    rewrite Htr in Hin. apply in_app_or in Hin. destruct Hin as [Hin|Hin]; [exact Hin|].
    rewrite forallb_forall in Hev. specialize (Hev _ Hin). discriminate. }
  destruct (sol_confirmed_stage w s0 h sr Hin1 Herr Hne) as (Hok & Hhash & Hdone & pre & Htr1 & Hpre).
  destruct (sendRun_invariant w s0) as ((Hty & Hsync & Hoth) & _ & Hnocreate & _).
  destruct (executeStep_of_sendRun w s0) as [[_ Hrun]|[Hx _]]; [|contradiction].
  destruct (receivingPhase_spec w (isBridgeExecution w s0) (toChainOf w s0)
              (snd (sendRun w s0)) (sendRun_receiving_ready w s0))
    as (Hframe & _ & body & Htr & Hbody).
  rewrite <- Hrun in Htr, Hbody, Hframe.
  unfold receivingType, receivingOpening, recorded, currentProcessType in *.
  rewrite Htr, Htr1.
  destruct (isBridgeExecution w s0) eqn:Hb.
  - try rewrite Hty in *.
    assert (Hcross : option_map status
              (processOf CROSS_CHAIN (step (snd (executeStep w s0)))) = Some DONE).
    { rewrite Hframe by discriminate. rewrite Hsync. cbn [option_map]. rewrite Hdone; reflexivity. }
    destruct Hbody as [(Hn & _)|[(h' & e & pa & Hh' & -> & Hthrow & (_ & Hp & Hs & Hst) & _)
                               |(h' & d & pa & Hh' & -> & Hret & (_ & Hp & Hs & Hst))]];
      [congruence| |];
      assert (h' = h) by congruence; subst h';
      exists pre; eexists _, _; rewrite <- !app_assoc; cbn [app];
      (split; [reflexivity|]); (split; [exact Hpre|]);
      rewrite Hp; cbn [option_map]; rewrite Hs; repeat split; assumption.
  - try rewrite Hty in *.
    assert (Hpre' : existsb creates_receiving pre = false).
    { rewrite Htr1, existsb_app in Hnocreate. apply orb_false_elim in Hnocreate.
      apply Hnocreate. }
    destruct Hbody as [(Hn & _)|[(h' & e & pa & Hh' & -> & Hthrow & (_ & Hp & Hs & Hst) & _)
                               |(h' & d & pa & Hh' & -> & Hret & (_ & Hp & Hs & Hst))]];
      [congruence| |];
      assert (h' = h) by congruence; subst h';
      exists pre; eexists _, _; rewrite <- !app_assoc; cbn [app];
      (split; [reflexivity|]); (split; [exact Hpre|]);
      rewrite Hp; cbn [option_map]; rewrite Hs; repeat split; try assumption;
      rewrite existsb_app, Hpre'; reflexivity.
Qed.

(** *** A payload that is missing *)
Lemma sol_unprepared_stage w s0 o :
  In (CallCheckBalance o (inr tt)) (trace (snd (sendRun w s0))) ->
  (transactionRequest s0 <> None
   \/ exists c, In (CallStepComparison (inr c)) (trace (snd (sendRun w s0)))) ->
  truthy (payload (step (snd (sendRun w s0)))) = false ->
  failedUnprepared w (sendRun w s0)
  /\ existsb (sets_status ACTION_REQUIRED) (trace (snd (sendRun w s0))) = false.
Proof.
  intros H Hrec Hp. enter w s0. unfold failedUnprepared.
  assert (Hin : inSync (currentProcessType w s0) s0 s2 p0) by (repeat split; assumption).
  run (sendStage w (isBridgeExecution w s0) (fromChainOf w s0)
         (mkFrame s2 p0 [LedgerFindOrCreateProcess (currentProcessType w s0) None])).
  all: in_trace H.
  all: norm_types.
  all: rewrite truthy_truthy_value in Hp; norm_payload.
  all: try match goal with
           | H1 : truthy_value (payload ?s) = Some _ |- _ => rewrite H1 in Hp; discriminate Hp
           end.
  all: try (destruct Hrec as [Hrec|[c Hrec]];
            [rewrite <- Htr in Hrec; contradiction | in_trace Hrec]).
  all: (split; [|reflexivity]).
  all: eexists _, _; split; [reflexivity|split; [sync_goal w s0|]].
  all: rewrite ?snd_updateProcess_eq; cbn [status error applyPatch patch_error].
  all: repeat split; reflexivity.
Qed.

Lemma sol_hook_unprepared_stage w s0 c v :
  In (CallHook (inr c)) (trace (snd (sendRun w s0))) ->
  tp_data c = Some v ->
  truthy v = false ->
  failedUnprepared w (sendRun w s0).
Proof.
  intros H Hc Hv. enter w s0. unfold failedUnprepared.
  assert (Hin : inSync (currentProcessType w s0) s0 s2 p0) by (repeat split; assumption).
  run (sendStage w (isBridgeExecution w s0) (fromChainOf w s0)
         (mkFrame s2 p0 [LedgerFindOrCreateProcess (currentProcessType w s0) None])).
  all: in_trace H.
  all: injection H as H; subst.
  all: norm_types.
  all: try (rewrite Hc in *; cbn [spread prop_get] in *; rewrite truthy_truthy_value in Hv;
            match goal with
            | H1 : truthy_value _ = Some _ |- _ => rewrite H1 in Hv; discriminate Hv
            end).
  all: eexists _, _; split; [reflexivity|split; [sync_goal w s0|]].
  all: rewrite ?snd_updateProcess_eq; cbn [status error applyPatch patch_error].
  all: repeat split; reflexivity.
Qed.

Lemma sol_hook_omits_payload_stage w s0 c :
  In (CallHook (inr c)) (trace (snd (sendRun w s0))) ->
  tp_data c = None ->
  exists d,
    truthy_value (payload (step (snd (sendRun w s0)))) = Some d
    /\ In (CallDeserialize d) (trace (snd (sendRun w s0))).
Proof.
  intros H Hc. enter w s0.
  run (sendStage w (isBridgeExecution w s0) (fromChainOf w s0)
         (mkFrame s2 p0 [LedgerFindOrCreateProcess (currentProcessType w s0) None])).
  all: in_trace H.
  all: injection H as H; subst.
  all: norm_types.
  all: rewrite Hc in *; cbn [spread prop_get] in *.
  all: norm_payload.
  all: match goal with
       | H1 : truthy_value (Some ?a) = None |- _ =>
           exfalso;
           match goal with
           | H2 : truthy_value _ = Some a |- _ =>
               apply truthy_value_Some in H2; destruct H2 as [_ H2];
               rewrite (truthy_value_nonempty _ H2) in H1; discriminate H1
           end
       | H1 : truthy_value (Some ?a) = Some ?b |- _ =>
           match goal with
           | H2 : truthy_value _ = Some a |- _ =>
               pose proof H2 as H3; apply truthy_value_Some in H3; destruct H3 as [_ H3];
               rewrite (truthy_value_nonempty _ H3) in H1; injection H1 as <-
           end
       end.
  all: eexists; split; [eassumption|].
  all: cbn [In]; auto 20.
Qed.

(** *** From the send stage to the run

    Calls of the send phase found in the trace of the run were made in the
    send stage. *)
Lemma In_sendRun_trace w s0 ev :
  is_receiving_event ev = false ->
  In ev (trace (snd (executeStep w s0))) ->
  In ev (trace (snd (sendRun w s0))).
Proof.
  intros Hev Hin. destruct (executeStep_trace w s0) as (tr2 & Htr & Hall & _).
  rewrite Htr in Hin. apply in_app_or in Hin. destruct Hin as [Hin|Hin]; [exact Hin|].
  rewrite forallb_forall in Hall. rewrite (Hall _ Hin) in Hev. discriminate.
Qed.

Lemma executeStep_of_failed_sendRun w s0 e :
  fst (sendRun w s0) = Throw e -> executeStep w s0 = (Throw e, snd (sendRun w s0)).
Proof. intros H. rewrite executeStep_stages, H. reflexivity. Qed.

Lemma payload_executeStep w s0 :
  payload (step (snd (executeStep w s0))) = payload (step (snd (sendRun w s0))).
Proof.
  destruct (executeStep_of_sendRun w s0) as [[_ Hrun]|(_ & Hf & _)].
  - rewrite Hrun. apply samePlan_payload.
    apply (receivingPhase_spec w (isBridgeExecution w s0) (toChainOf w s0)
             (snd (sendRun w s0)) (sendRun_receiving_ready w s0)).
  - rewrite Hf. reflexivity.
Qed.

(** *** A balance check that rejects *)
Lemma sol_balance_failure_stage w s0 o e :
  In (CallCheckBalance o (inl e)) (trace (snd (sendRun w s0))) ->
  exists s' p' pre,
    fst (sendRun w s0) = Throw (ThrowObject (parseError w e s' p'))
    /\ status (current (snd (sendRun w s0))) = FAILED
    /\ error (current (snd (sendRun w s0))) = Some (errorTriple (parseError w e s' p'))
    /\ statusOf (step (snd (sendRun w s0))) = FAILED
    /\ existsb is_send (trace (snd (sendRun w s0))) = false
    /\ List.length (filter is_balance_check (trace (snd (sendRun w s0)))) = 1%nat
    /\ trace (snd (sendRun w s0))
       = (pre ++ [CallCheckBalance o (inl e);
                  LedgerUpdateProcess (currentProcessType w s0) FAILED
                    (mkProcessPatch None None None None
                       (Some (errorTriple (parseError w e s' p'))));
                  LedgerUpdateExecution FAILED])%list.
Proof.
  intros H. enter w s0.
  run (sendStage w (isBridgeExecution w s0) (fromChainOf w s0)
         (mkFrame s2 p0 [LedgerFindOrCreateProcess (currentProcessType w s0) None])).
  all: in_trace H.
  all: injection H as <- <-.
  all: norm_types.
  all: eexists _, _, [_; _; _]; rewrite ?snd_updateProcess_eq;
    cbn [status error applyPatch patch_error].
  all: repeat split; reflexivity.
Qed.

Lemma sol_balance_failure w s0 o e :
  In (CallCheckBalance o (inl e)) (trace (snd (executeStep w s0))) ->
  exists s' p' p pre,
    fst (executeStep w s0) = Throw (ThrowObject (parseError w e s' p'))
    /\ processOf (currentProcessType w s0) (step (snd (executeStep w s0))) = Some p
    /\ status p = FAILED
    /\ error p = Some (errorTriple (parseError w e s' p'))
    /\ statusOf (step (snd (executeStep w s0))) = FAILED
    /\ existsb is_send (trace (snd (executeStep w s0))) = false
    /\ List.length (filter is_balance_check (trace (snd (executeStep w s0)))) = 1%nat
    /\ trace (snd (executeStep w s0))
       = (pre ++ [CallCheckBalance o (inl e);
                  LedgerUpdateProcess (currentProcessType w s0) FAILED
                    (mkProcessPatch None None None None
                       (Some (errorTriple (parseError w e s' p'))));
                  LedgerUpdateExecution FAILED])%list.
Proof.
  intros H. apply In_sendRun_trace in H; [|reflexivity].
  destruct (sol_balance_failure_stage w s0 o e H)
    as (s' & p' & pre & Hout & Hst & Herr & Hex & Hns & Hone & Htr).
  destruct (sendRun_invariant w s0) as ((_ & Hsync & _) & _).
  rewrite (executeStep_of_failed_sendRun w s0 _ Hout). cbn [fst snd].
  exists s', p', (current (snd (sendRun w s0))), pre. repeat split; assumption.
Qed.

(** Every failure [executeStep] propagates has been recorded first. *)
Lemma sol_failure_recorded w s0 e :
  fst (executeStep w s0) = Throw e ->
  exists t pre pa,
    recorded t FAILED (snd (executeStep w s0))
    /\ error (current (snd (executeStep w s0))) <> None
    /\ trace (snd (executeStep w s0))
       = (pre ++ [LedgerUpdateProcess t FAILED pa; LedgerUpdateExecution FAILED])%list.
Proof.
  intros H.
  destruct (sendRun_invariant w s0) as ((Hty & Hsync & _) & _ & _ & Hfail).
  destruct (executeStep_of_sendRun w s0) as [[Hok Hrun]|(Hne & Hf & Ho)].
  - destruct (receivingPhase_spec w (isBridgeExecution w s0) (toChainOf w s0)
                (snd (sendRun w s0)) (sendRun_receiving_ready w s0))
      as (_ & _ & body & Htr & Hbody).
    rewrite <- Hrun in Htr, Hbody.
    destruct Hbody as [(_ & _ & (pa & ->) & Hrec & Herr)
                      |[(h & e' & pa & _ & -> & _ & Hrec & Herr)
                       |(h & d & pa & _ & _ & Hret & _)]].
    + eexists _, _, pa. split; [exact Hrec|]. split; [exact Herr|].
      rewrite Htr, app_assoc. reflexivity.
    + eexists _, _, pa. split; [exact Hrec|]. split; [exact Herr|].
      rewrite Htr. rewrite app_assoc.
      change [CallWaitForReceivingTransaction h
                (receivingType (isBridgeExecution w s0) (current (snd (sendRun w s0))))
                (inl e'); LedgerUpdateProcess _ FAILED pa; LedgerUpdateExecution FAILED]
        with ([CallWaitForReceivingTransaction h
                (receivingType (isBridgeExecution w s0) (current (snd (sendRun w s0))))
                (inl e')] ++ [LedgerUpdateProcess
                (receivingType (isBridgeExecution w s0) (current (snd (sendRun w s0))))
                FAILED pa; LedgerUpdateExecution FAILED])%list.
      rewrite app_assoc. reflexivity.
    + rewrite H in Hret. discriminate.
  - rewrite Ho in H. destruct (fst (sendRun w s0)) as [b|e'] eqn:Hout; [discriminate|].
    destruct (Hfail e' eq_refl) as (Hs & Herr & Hst & pre & pa & Htr).
    rewrite Hf. exists (currentProcessType w s0), pre, pa.
    repeat split; assumption.
Qed.

(** *** The missing payload, for the whole run *)
Lemma failedUnprepared_executeStep w s0 :
  failedUnprepared w (sendRun w s0) -> failedUnprepared w (executeStep w s0).
Proof.
  intros (s' & p' & Hout & H). exists s', p'.
  rewrite (executeStep_of_failed_sendRun w s0 _ Hout). cbn [fst snd].
  split; [reflexivity|exact H].
Qed.

Lemma sol_unprepared w s0 o :
  In (CallCheckBalance o (inr tt)) (trace (snd (executeStep w s0))) ->
  (transactionRequest s0 <> None
   \/ exists c, In (CallStepComparison (inr c)) (trace (snd (executeStep w s0)))) ->
  truthy (payload (step (snd (executeStep w s0)))) = false ->
  failedUnprepared w (executeStep w s0)
  /\ existsb (sets_status ACTION_REQUIRED) (trace (snd (executeStep w s0))) = false.
Proof.
  intros H Hrec Hp.
  apply In_sendRun_trace in H; [|reflexivity].
  rewrite payload_executeStep in Hp.
  assert (Hrec' : transactionRequest s0 <> None
                  \/ exists c, In (CallStepComparison (inr c)) (trace (snd (sendRun w s0)))).
  { destruct Hrec as [Hrec|[c Hrec]]; [left; exact Hrec|right; exists c].
    apply In_sendRun_trace in Hrec; [exact Hrec|reflexivity]. }
  destruct (sol_unprepared_stage w s0 o H Hrec' Hp) as [Hf Ha].
  split; [apply failedUnprepared_executeStep, Hf|].
  destruct Hf as (s' & p' & Hout & _).
  rewrite (executeStep_of_failed_sendRun w s0 _ Hout). exact Ha.
Qed.

Lemma sol_hook_unprepared w s0 c v :
  In (CallHook (inr c)) (trace (snd (executeStep w s0))) ->
  tp_data c = Some v ->
  truthy v = false ->
  failedUnprepared w (executeStep w s0).
Proof.
  intros H Hc Hv. apply In_sendRun_trace in H; [|reflexivity].
  apply failedUnprepared_executeStep, (sol_hook_unprepared_stage w s0 c v H Hc Hv).
Qed.

Lemma sol_hook_omits_payload w s0 c :
  In (CallHook (inr c)) (trace (snd (executeStep w s0))) ->
  tp_data c = None ->
  exists d,
    truthy_value (payload (step (snd (executeStep w s0)))) = Some d
    /\ In (CallDeserialize d) (trace (snd (executeStep w s0))).
Proof.
  intros H Hc. apply In_sendRun_trace in H; [|reflexivity].
  destruct (sol_hook_omits_payload_stage w s0 c H Hc) as (d & Hd & Hin).
  exists d. rewrite payload_executeStep. split; [exact Hd|].
  destruct (executeStep_trace w s0) as (tr2 & -> & _). apply in_or_app. left. exact Hin.
Qed.

(** Lines 72-85 keep [step.execution] and the local [process]. *)
Lemma reconcile_keeps_execution w f :
  execution (step (snd (reconcile w f))) = execution (step f)
  /\ current (snd (reconcile w f)) = current f.
Proof.
  destruct f as [s p tr].
  run (reconcile w (mkFrame s p tr)); split; reflexivity.
Qed.

(** The step after a reconciliation that answered is the compared step with
    the execution record of the step it replaces. *)
Lemma reconcile_replaces w f u c :
  transactionRequest (step f) = None ->
  getStepTransaction w (step f) = inr u ->
  stepComparison w (step f) u = inr c ->
  fst (reconcile w f) = Ok tt
  /\ step (snd (reconcile w f))
     = mkStep (id c) (action c) (estimate c) (transactionRequest c) (execution (step f)).
Proof.
  intros Hn Hu Hc. destruct f as [s p tr]. cbn [step] in *.
  unfold reconcile, call, log, await, setStep, bind, get, modify, ret, throw.
  cbn [step]. rewrite Hn. cbn. rewrite Hu. cbn. rewrite Hc. cbn. split; reflexivity.
Qed.

(** A re-invocation on a step whose send-phase Process is already [DONE]. *)
Lemma sol_rerun_done w s0 :
  alreadyDone (sendProcess w s0) = true ->
  existsb is_balance_check (trace (snd (executeStep w s0))) = false
  /\ existsb is_reconciliation (trace (snd (executeStep w s0))) = false
  /\ existsb is_send (trace (snd (executeStep w s0))) = false
  /\ existsb is_confirmation (trace (snd (executeStep w s0))) = false
  /\ exists pre st,
       trace (snd (executeStep w s0)) = (pre ++ [LedgerUpdateExecution st])%list
       /\ statusOf (step (snd (executeStep w s0))) = st
       /\ ((st = DONE /\ fst (executeStep w s0) = Ok (step (snd (executeStep w s0))))
           \/ (st = FAILED /\ exists e, fst (executeStep w s0) = Throw e)).
Proof.
  intros Hd.
  assert (Hstage : fst (sendRun w s0) = Ok true
                   /\ trace (snd (sendRun w s0))
                      = [LedgerFindOrCreateProcess (currentProcessType w s0) None]).
  { enter w s0. rewrite Hd in Hdone.
    remember (sendStage w (isBridgeExecution w s0) (fromChainOf w s0)
         (mkFrame s2 p0 [LedgerFindOrCreateProcess (currentProcessType w s0) None]))
      as r eqn:Hrun.
    unfold_exec Hrun. ledger_cbn_in Hrun. rewrite Hdone in Hrun. ledger_cbn_in Hrun.
    subst r. split; reflexivity. }
  destruct Hstage as [Hok Htr1].
  destruct (executeStep_of_sendRun w s0) as [[_ Hrun]|[Hne _]]; [|contradiction].
  destruct (receivingPhase_spec w (isBridgeExecution w s0) (toChainOf w s0)
              (snd (sendRun w s0)) (sendRun_receiving_ready w s0))
    as (_ & _ & body & Htr & Hbody).
  rewrite <- Hrun in Htr, Hbody. rewrite Htr, Htr1. unfold receivingOpening.
  destruct Hbody as [(_ & Hout & (pa & ->) & (_ & _ & _ & Hst) & _)
                    |[(h & e & pa & _ & -> & Hout & (_ & _ & _ & Hst) & _)
                     |(h & d & pa & _ & -> & Hout & (_ & _ & _ & Hst))]];
    destruct (isBridgeExecution w s0); cbn [app existsb orb is_balance_check
      is_reconciliation is_send is_confirmation];
    (repeat (split; [reflexivity|]));
    split_trace_with ltac:(eexists; split; [reflexivity|split; [exact Hst|]]);
    first [ left; split; [reflexivity|exact Hout]
          | right; split; [reflexivity|eexists; exact Hout] ].
Qed.

End SolanaFacts.

(** * The EVM bridge executor: ledger lemmas and runs *)

Module MultichainFacts.
Import Multichain.

(** *** The ledger, seen through [processOf], [deref] and [statusOf] *)

Lemma findProcess_id i l p : findProcess i l = Some p -> id p = i.
Proof.
  unfold findProcess. intros H. apply find_some in H. apply String.eqb_eq, H.
Qed.

Lemma evm_findProcess_updateList i s pa l :
  findProcess i (updateList i (applyPatch s pa) l)
  = option_map (applyPatch s pa) (findProcess i l).
Proof.
  induction l as [|p r IH]; simpl; [reflexivity|].
  destruct (String.eqb (id p) i) eqn:E; simpl; rewrite E; [reflexivity|exact IH].
Qed.

Lemma evm_findProcess_updateList_other i j s pa l :
  j <> i ->
  findProcess j (updateList i (applyPatch s pa) l) = findProcess j l.
Proof.
  intros Hne. induction l as [|p r IH]; simpl; [reflexivity|].
  destruct (String.eqb_spec (id p) i) as [E|E]; simpl.
  - destruct (String.eqb_spec (id p) j) as [E'|E']; [congruence|reflexivity].
  - rewrite IH. reflexivity.
Qed.

Lemma evm_findProcess_app_new i l p :
  findProcess i l = None -> id p = i -> findProcess i (l ++ [p]) = Some p.
Proof.
  intros Hn Hi. induction l as [|q r IH]; simpl in *.
  - rewrite Hi, String.eqb_refl. reflexivity.
  - destruct (String.eqb (id q) i); [discriminate|auto].
Qed.

Lemma evm_findProcess_app_other i j l p :
  id p = i -> j <> i -> findProcess j (l ++ [p]) = findProcess j l.
Proof.
  intros Hi Hne. induction l as [|q r IH]; simpl in *.
  - destruct (String.eqb_spec (id p) j); [congruence|reflexivity].
  - destruct (String.eqb (id q) j); [reflexivity|exact IH].
Qed.

Lemma evm_processOf_findOrCreateProcess i s msg :
  processOf i (fst (findOrCreateProcess i s msg))
  = Some (match processOf i s with
          | Some p => p
          | None => newProcess i (Some msg) STARTED
          end).
Proof.
  unfold processOf, findOrCreateProcess.
  destruct (findProcess i (process (initExecutionObject s))) eqn:E; simpl; [exact E|].
  apply evm_findProcess_app_new; [exact E|reflexivity].
Qed.

Lemma evm_processOf_findOrCreateProcess_other i j s msg :
  j <> i -> processOf j (fst (findOrCreateProcess i s msg)) = processOf j s.
Proof.
  intros Hne. unfold processOf, findOrCreateProcess.
  destruct (findProcess i (process (initExecutionObject s))) eqn:E; simpl; [reflexivity|].
  apply evm_findProcess_app_other with (i := i); [reflexivity|exact Hne].
Qed.

Lemma evm_statusOf_findOrCreateProcess i s msg :
  statusOf (fst (findOrCreateProcess i s msg)) = statusOf s.
Proof.
  unfold statusOf, findOrCreateProcess.
  destruct (findProcess i (process (initExecutionObject s))); reflexivity.
Qed.

Lemma action_findOrCreateProcess i s msg :
  action (fst (findOrCreateProcess i s msg)) = action s.
Proof.
  unfold findOrCreateProcess.
  destruct (findProcess i (process (initExecutionObject s))); reflexivity.
Qed.

Lemma evm_processOf_updateProcess s i st pa :
  processOf i (updateProcess s i st pa) = option_map (applyPatch st pa) (processOf i s).
Proof. unfold processOf, updateProcess. simpl. apply evm_findProcess_updateList. Qed.

Lemma evm_processOf_updateProcess_other s i j st pa :
  j <> i -> processOf j (updateProcess s i st pa) = processOf j s.
Proof. intros H. unfold processOf, updateProcess. simpl. now apply evm_findProcess_updateList_other. Qed.

Lemma evm_statusOf_updateProcess s i st pa : statusOf (updateProcess s i st pa) = statusOf s.
Proof. reflexivity. Qed.

Lemma evm_processOf_updateExecution s i st pa :
  processOf i (updateExecution s st pa) = processOf i s.
Proof. reflexivity. Qed.

Lemma evm_statusOf_updateExecution s st pa : statusOf (updateExecution s st pa) = st.
Proof. reflexivity. Qed.

Lemma processOf_entryStep i s0 : processOf i (entryStep s0) = processOf i s0.
Proof. reflexivity. Qed.

Lemma deref_processOf i s :
  deref i s = match processOf i s with
              | Some p => p
              | None => newProcess i None STARTED
              end.
Proof. reflexivity. Qed.

Lemma crossProcess_neq_waitForTxProcess : crossProcess <> waitForTxProcess.
Proof. discriminate. Qed.

Lemma waitForTxProcess_neq_crossProcess : waitForTxProcess <> crossProcess.
Proof. discriminate. Qed.

Create Rewrite HintDb evm_ledger.
#[export] Hint Rewrite deref_processOf evm_processOf_findOrCreateProcess evm_processOf_updateProcess
  evm_processOf_updateExecution evm_statusOf_updateExecution evm_statusOf_updateProcess
  evm_statusOf_findOrCreateProcess processOf_entryStep action_findOrCreateProcess : evm_ledger.
#[export] Hint Rewrite evm_processOf_updateProcess_other evm_processOf_findOrCreateProcess_other
  using (first [exact crossProcess_neq_waitForTxProcess
               | exact waitForTxProcess_neq_crossProcess]) : evm_ledger.

(** *** Symbolic execution *)

Ltac break_hyp H :=
  match type of H with
  | context [match ?x with _ => _ end] =>
      lazymatch x with
      | context [match _ with _ => _ end] => fail
      | _ => destruct x eqn:?
      end
  end.

Ltac ledger_cbn_in H :=
  cbn -[findOrCreateProcess updateProcess updateExecution processOf statusOf deref
        errorPatch hashPatch approvalStillNeeded entryStep entryProcess
        crossProcess waitForTxProcess AddressZero String.eqb In app
        isUndefined replaced thrown_code] in H.

Ltac ledger_cbn :=
  cbn -[findOrCreateProcess updateProcess updateExecution processOf statusOf deref
        errorPatch hashPatch approvalStillNeeded entryStep entryProcess
        crossProcess waitForTxProcess AddressZero String.eqb In app
        isUndefined replaced thrown_code].

Ltac unfold_exec H :=
  unfold sendStage, receivingPhase, receiptFailed, sendPhaseFailed, readCode,
    sendPhase, prepareAndSend, throwErrorMessage, waitFor, allowancePhase,
    doUpdateProcess, doFindOrCreateProcess, doUpdateExecution,
    call, log, await, tryCatch, bind, get, modify, ret, throw in H.

(** Follow a computation down every path; each goal is one path, with the
    result substituted for [r]. *)
Ltac run_paths_with r Hrun :=
  unfold_exec Hrun; ledger_cbn_in Hrun;
  repeat (break_hyp Hrun; ledger_cbn_in Hrun);
  subst r; cbn [fst snd trace step app] in *.

Ltac run c :=
  let r := fresh "r" in
  let Hrun := fresh "Hrun" in
  remember c as r eqn:Hrun in *;
  run_paths_with r Hrun.

Ltac split_trace_with tac :=
  first [ exists (@nil _); tac
        | eexists [_]; tac
        | eexists [_; _]; tac
        | eexists [_; _; _]; tac
        | eexists [_; _; _; _]; tac
        | eexists [_; _; _; _; _]; tac
        | eexists [_; _; _; _; _; _]; tac
        | eexists [_; _; _; _; _; _; _]; tac
        | eexists [_; _; _; _; _; _; _; _]; tac
        | eexists [_; _; _; _; _; _; _; _; _]; tac
        | eexists [_; _; _; _; _; _; _; _; _; _]; tac ].

Ltac split_trace := split_trace_with reflexivity.

Ltac in_trace H :=
  repeat (destruct H as [H|H]; [try discriminate H|]); try contradiction.

(** *** The two stages of [execute] *)
Lemma execute_stages w s0 :
  execute w s0
  = match fst (sendRun w s0) with
    | Ok true => receivingPhase w (toChainOf w s0) (snd (sendRun w s0))
    | Ok false => (Ok (initExecutionObject (step (snd (sendRun w s0)))), snd (sendRun w s0))
    | Throw e => (Throw e, snd (sendRun w s0))
    end.
Proof.
  unfold execute, sendRun, executeFrom, bind.
  change (sendStage w _ _) with (sendStage w (fromChainOf w s0) (mkFrame (entryStep s0) [])).
  destruct (sendStage w (fromChainOf w s0) (mkFrame (entryStep s0) [])) as [[[|]|e] f1];
    reflexivity.
Qed.

(** The [crossProcess] reference, read in the entry state. *)
Lemma deref_entry s0 :
  deref crossProcess
    (fst (findOrCreateProcess crossProcess (entryStep s0) "Prepare Transaction"))
  = entryProcess s0.
Proof. rewrite deref_processOf, evm_processOf_findOrCreateProcess. reflexivity. Qed.

Lemma txHash_deref_started s msg :
  txHash (deref crossProcess
            (fst (findOrCreateProcess waitForTxProcess
                    (updateProcess s crossProcess DONE
                       (mkProcessPatch (Some (Some "Transfer started: "))
                          None None None None None)) msg)))
  = txHash (deref crossProcess s).
Proof.
  rewrite !deref_processOf, evm_processOf_findOrCreateProcess_other,
    evm_processOf_updateProcess by discriminate.
  destruct (processOf crossProcess s); reflexivity.
Qed.

Lemma carriedTxHash_entry s0 :
  truthy_value (txHash (entryProcess s0)) = carriedTxHash (processOf crossProcess s0).
Proof. unfold entryProcess. destruct (processOf crossProcess s0); reflexivity. Qed.

Lemma approvalStillNeeded_entry s0 :
  approvalStillNeeded (entryStep s0)
  = match carriedTxHash (processOf crossProcess s0) with Some _ => false | None => true end.
Proof.
  unfold approvalStillNeeded. fold (processOf crossProcess (entryStep s0)).
  rewrite processOf_entryStep. unfold carriedTxHash.
  destruct (processOf crossProcess s0) as [p|]; [|reflexivity].
  destruct (txHash p) as [h|]; [|reflexivity]. simpl.
  destruct (String.eqb h ""); reflexivity.
Qed.

(** Facts about the entry state, for the paths of the send stage. *)
Ltac entry_facts s0 :=
  rewrite ?(deref_entry s0) in *;
  rewrite ?(truthy_truthy_value (txHash (entryProcess s0))) in *;
  rewrite ?(carriedTxHash_entry s0) in *;
  rewrite ?(approvalStillNeeded_entry s0) in *.

(** *** The receiving phase (lines 116-165)

    It marks [crossProcess] [DONE], opens [waitForTxProcess] and waits for the
    destination receipt with the hash [crossProcess] holds; a rejected wait is
    recorded, a rejected [getAddress] or [parseReceipt] is not. *)
Lemma evm_receivingPhase_spec w tc f :
  exists res rest,
    trace (snd (receivingPhase w tc f))
    = (trace f
       ++ [LedgerUpdateProcess crossProcess DONE startedPatch;
           LedgerFindOrCreateProcess waitForTxProcess;
           CallWaitForDestinationChainReceipt (txHash (deref crossProcess (step f)))
             (chain_id tc) res]
       ++ rest)%list
    /\ forallb is_receiving_event rest = true
    /\ processOf crossProcess (step (snd (receivingPhase w tc f)))
       = option_map (applyPatch DONE startedPatch) (processOf crossProcess (step f))
    /\ match res with
       | inl e =>
           if isUndefined e
           then rest = [] /\ fst (receivingPhase w tc f) = Throw undefinedCodeRead
           else fst (receivingPhase w tc f) = Throw e
                /\ recordedFailure waitForTxProcess (snd (receivingPhase w tc f))
       | inr receipt =>
           (exists e, fst (receivingPhase w tc f) = Throw e
                      /\ unrecordedFailure (step f) rest (snd (receivingPhase w tc f)))
           \/ (fst (receivingPhase w tc f)
               = Ok (initExecutionObject (step (snd (receivingPhase w tc f))))
               /\ statusOf (step (snd (receivingPhase w tc f))) = DONE
               /\ option_map status
                    (processOf waitForTxProcess (step (snd (receivingPhase w tc f))))
                  = Some DONE)
       end.
Proof.
  destruct f as [s tr]. cbn [step trace].
  run (receivingPhase w tc (mkFrame s tr)).
  all: rewrite <- ?app_assoc; cbn [app].
  all: unfold startedPatch, recordedFailure, unrecordedFailure; cbn [step trace].
  all: rewrite ?txHash_deref_started in *.
  all: eexists _, _; split; [reflexivity|].
  all: split; [reflexivity|].
  all: split;
    [ rewrite ?evm_processOf_updateExecution, ?evm_processOf_updateProcess_other,
        ?evm_processOf_findOrCreateProcess_other, ?evm_processOf_updateProcess by discriminate;
      reflexivity | ].
  all: cbn [isUndefined]; rewrite ?Heqb.
  all: try match goal with H : isUndefined _ = _ |- _ => rewrite H end.
  all: autorewrite with evm_ledger; cbn [option_map status applyPatch].
  all: try solve [split; reflexivity].
  all: try solve [right; repeat split; reflexivity].
  all: try solve [left; eexists; split; [reflexivity|]; split; [reflexivity|split;[reflexivity|]];
   first [left; eexists; reflexivity | right; eexists _, _; reflexivity]].
  split; [reflexivity|split; [reflexivity|split;[reflexivity|]]].
  eexists (tr ++ [_; _; _])%list, _. rewrite <- app_assoc. reflexivity.
Qed.

(** *** From the send stage to the run *)
Lemma execute_of_sendRun w s0 :
  (fst (sendRun w s0) = Ok true
   /\ execute w s0 = receivingPhase w (toChainOf w s0) (snd (sendRun w s0)))
  \/ (fst (sendRun w s0) <> Ok true
      /\ snd (execute w s0) = snd (sendRun w s0)
      /\ fst (execute w s0)
         = match fst (sendRun w s0) with
           | Ok _ => Ok (initExecutionObject (step (snd (sendRun w s0))))
           | Throw e => Throw e
           end).
Proof.
  rewrite execute_stages.
  destruct (fst (sendRun w s0)) as [[|]|e].
  - left. split; reflexivity.
  - right. repeat split. discriminate.
  - right. repeat split. discriminate.
Qed.

(** The trace of the run extends the trace of the send stage by
    receiving-phase events only. *)
Lemma execute_trace w s0 :
  exists tr2,
    trace (snd (execute w s0)) = (trace (snd (sendRun w s0)) ++ tr2)%list
    /\ forallb is_receiving_event tr2 = true
    /\ (fst (sendRun w s0) <> Ok true -> tr2 = []).
Proof.
  destruct (execute_of_sendRun w s0) as [[Hok Hrun]|(Hne & Hf & _)].
  - rewrite Hrun.
    destruct (evm_receivingPhase_spec w (toChainOf w s0) (snd (sendRun w s0)))
      as (res & rest & Htr & Hrest & _).
    eexists. split; [exact Htr|]. split; [|congruence].
    cbn [app forallb is_receiving_event]. exact Hrest.
  - exists []. rewrite Hf, app_nil_r. repeat split.
Qed.

Lemma evm_In_sendRun_trace w s0 ev :
  is_receiving_event ev = false ->
  In ev (trace (snd (execute w s0))) ->
  In ev (trace (snd (sendRun w s0))).
Proof.
  intros Hev Hin. destruct (execute_trace w s0) as (tr2 & Htr & Hall & _).
  rewrite Htr in Hin. apply in_app_or in Hin. destruct Hin as [Hin|Hin]; [exact Hin|].
  rewrite forallb_forall in Hall. rewrite (Hall _ Hin) in Hev. discriminate.
Qed.

Lemma execute_class w s0 q :
  (forall ev, is_receiving_event ev = true -> q ev = false) ->
  existsb q (trace (snd (sendRun w s0))) = false ->
  existsb q (trace (snd (execute w s0))) = false.
Proof.
  intros Hq Hs1. destruct (execute_trace w s0) as (tr2 & Htr & Hev & _).
  rewrite Htr, existsb_app, Hs1. apply (forallb_existsb _ _ _ Hev), Hq.
Qed.

Lemma is_receiving_event_classes ev :
  is_receiving_event ev = true ->
  is_send ev = false /\ is_balance_check ev = false /\ is_reconciliation ev = false
  /\ is_confirmation ev = false /\ is_allowance_check ev = false
  /\ sets_status PENDING ev = false /\ sets_status ACTION_REQUIRED ev = false.
Proof.
  destruct ev as [| i s pa | | | | | | | | | | |]; try discriminate; try (repeat split; fail).
  destruct s; try discriminate; repeat split.
Qed.

Lemma execute_of_failed_sendRun w s0 e :
  fst (sendRun w s0) = Throw e -> execute w s0 = (Throw e, snd (sendRun w s0)).
Proof. intros H. rewrite execute_stages, H. reflexivity. Qed.

(** *** Runs on a [crossProcess] that carries a transaction hash *)
Lemma evm_resume_stage w s0 h :
  carriedTxHash (processOf crossProcess s0) = Some h ->
  existsb is_allowance_check (trace (snd (sendRun w s0))) = false
  /\ existsb is_balance_check (trace (snd (sendRun w s0))) = false
  /\ existsb is_reconciliation (trace (snd (sendRun w s0))) = false
  /\ existsb is_send (trace (snd (sendRun w s0))) = false
  /\ exists res rest,
       trace (snd (sendRun w s0))
       = LedgerFindOrCreateProcess crossProcess :: CallGetTransaction (Some h) res :: rest
       /\ forall tx, res = inr (Some tx) -> exists r' rest', rest = CallWait tx r' :: rest'.
Proof.
  intros Hh. unfold sendRun.
  assert (Hx : txHash (entryProcess s0) = Some h).
  { rewrite <- carriedTxHash_entry in Hh. apply truthy_value_Some in Hh. apply Hh. }
  run (sendStage w (fromChainOf w s0) (mkFrame (entryStep s0) [])).
  all: entry_facts s0; rewrite ?Hh in *; try discriminate.
  all: rewrite ?Hx.
  all: repeat (split; [reflexivity|]).
  all: eexists _, _; split; [reflexivity|].
  all: intros tx Htx; try discriminate Htx.
  all: injection Htx as <-; eexists _, _; reflexivity.
Qed.

Lemma evm_resume w s0 h :
  carriedTxHash (processOf crossProcess s0) = Some h ->
  existsb is_allowance_check (trace (snd (execute w s0))) = false
  /\ existsb is_balance_check (trace (snd (execute w s0))) = false
  /\ existsb is_reconciliation (trace (snd (execute w s0))) = false
  /\ existsb is_send (trace (snd (execute w s0))) = false
  /\ exists res rest,
       trace (snd (execute w s0))
       = LedgerFindOrCreateProcess crossProcess :: CallGetTransaction (Some h) res :: rest
       /\ forall tx, res = inr (Some tx) -> exists r' rest', rest = CallWait tx r' :: rest'.
Proof.
  intros Hh.
  destruct (evm_resume_stage w s0 h Hh) as (Ha & Hb & Hr & Hs & res & rest & Htr1 & Hwait).
  repeat split; try (apply execute_class; [intros ev H; apply is_receiving_event_classes, H|assumption]).
  destruct (execute_trace w s0) as (tr2 & Htr & _).
  rewrite Htr, Htr1. exists res. eexists. split; [reflexivity|].
  intros tx Htx. destruct (Hwait tx Htx) as (r' & rest' & ->). eexists _, _. reflexivity.
Qed.

(** *** Runs that may not continue stop at [ACTION_REQUIRED] *)
Lemma evm_halt_stage w s0 :
  shouldContinue w = false ->
  carriedTxHash (processOf crossProcess s0) = None ->
  existsb is_send (trace (snd (sendRun w s0))) = false
  /\ (forall q req,
        In (CallGetStepTransaction (inr q)) (trace (snd (sendRun w s0))) ->
        transactionRequest q = Some req ->
        fst (sendRun w s0) = Ok false
        /\ option_map status (processOf crossProcess (step (snd (sendRun w s0))))
           = Some ACTION_REQUIRED
        /\ existsb (sets_status PENDING) (trace (snd (sendRun w s0))) = false
        /\ exists pre,
             trace (snd (sendRun w s0))
             = (pre ++ [LedgerUpdateProcess crossProcess ACTION_REQUIRED noPatch])%list).
Proof.
  intros Hc Hh. unfold sendRun.
  run (sendStage w (fromChainOf w s0) (mkFrame (entryStep s0) [])).
  all: entry_facts s0; rewrite ?Hh, ?Hc in *; try discriminate.
  all: (split; [reflexivity|]).
  all: intros q req H Hq; in_trace H.
  all: injection H as <-.
  all: try congruence.
  all: autorewrite with evm_ledger.
  all: (split; [reflexivity|split;[reflexivity|split;[reflexivity|split_trace]]]).
Qed.

Lemma evm_halt w s0 :
  shouldContinue w = false ->
  carriedTxHash (processOf crossProcess s0) = None ->
  existsb is_send (trace (snd (execute w s0))) = false
  /\ (forall q req,
        In (CallGetStepTransaction (inr q)) (trace (snd (execute w s0))) ->
        transactionRequest q = Some req ->
        fst (execute w s0) = Ok (initExecutionObject (step (snd (execute w s0))))
        /\ option_map status (processOf crossProcess (step (snd (execute w s0))))
           = Some ACTION_REQUIRED
        /\ existsb (sets_status PENDING) (trace (snd (execute w s0))) = false
        /\ exists pre,
             trace (snd (execute w s0))
             = (pre ++ [LedgerUpdateProcess crossProcess ACTION_REQUIRED noPatch])%list).
Proof.
  intros Hc Hh. destruct (evm_halt_stage w s0 Hc Hh) as (Hs & Hstop).
  split.
  - apply execute_class; [intros ev H; apply is_receiving_event_classes, H|exact Hs].
  - intros q req Hin Hq. apply evm_In_sendRun_trace in Hin; [|reflexivity].
    destruct (Hstop q req Hin Hq) as (Hout & Hst & Hp & Htr).
    destruct (execute_of_sendRun w s0) as [[Hok _]|(_ & Hf & Ho)]; [congruence|].
    rewrite Hf, Ho, Hout. repeat split; assumption.
Qed.

(** *** A replaced transaction *)
Lemma replaced_defined e h : replaced e = Some h -> isUndefined e = false.
Proof. destruct e; [reflexivity|reflexivity|discriminate]. Qed.

Lemma evm_replaced_stage w s0 e h' ev :
  In ev (trace (snd (sendRun w s0))) ->
  broadcastOrWaitFailed e ev ->
  replaced e = Some h' ->
  fst (sendRun w s0) = Ok true
  /\ existsb (sets_status FAILED) (trace (snd (sendRun w s0))) = false
  /\ option_map txHash (processOf crossProcess (step (snd (sendRun w s0))))
     = Some (Some h')
  /\ option_map status (processOf crossProcess (step (snd (sendRun w s0))))
     = Some PENDING
  /\ exists pre,
       trace (snd (sendRun w s0))
       = (pre ++ [ev; LedgerUpdateProcess crossProcess PENDING
                        (hashPatch (fromChainOf w s0) h')])%list.
Proof.
  intros H Hev Hrep. pose proof (replaced_defined e h' Hrep) as Hdef. unfold sendRun in *.
  run (sendStage w (fromChainOf w s0) (mkFrame (entryStep s0) [])).
  all: destruct Hev as [[tx ->]|[req ->]]; in_trace H.
  all: injection H as -> ->.
  all: try congruence.
  all: match goal with H1 : replaced _ = Some _ |- _ => rewrite Hrep in H1; injection H1 as <- end.
  all: autorewrite with evm_ledger; cbn [option_map txHash status applyPatch hashPatch assign patch_txHash].
  all: (split; [reflexivity|split;[reflexivity|split;[reflexivity|split;[reflexivity|split_trace]]]]).
Qed.

Lemma evm_replaced w s0 e h' ev :
  In ev (trace (snd (execute w s0))) ->
  broadcastOrWaitFailed e ev ->
  replaced e = Some h' ->
  option_map status (processOf crossProcess (step (snd (execute w s0)))) = Some DONE
  /\ option_map txHash (processOf crossProcess (step (snd (execute w s0))))
     = Some (Some h')
  /\ exists pre res rest,
       trace (snd (execute w s0))
       = (pre ++ [ev;
                  LedgerUpdateProcess crossProcess PENDING (hashPatch (fromChainOf w s0) h');
                  LedgerUpdateProcess crossProcess DONE startedPatch;
                  LedgerFindOrCreateProcess waitForTxProcess;
                  CallWaitForDestinationChainReceipt (Some h')
                    (chain_id (toChainOf w s0)) res]
          ++ rest)%list
       /\ existsb (sets_status FAILED) pre = false
       /\ existsb is_confirmation rest = false.
Proof.
  intros H Hev Hrep.
  assert (Hnr : is_receiving_event ev = false)
    by (destruct Hev as [[tx ->]|[req ->]]; reflexivity).
  apply evm_In_sendRun_trace in H; [|exact Hnr].
  destruct (evm_replaced_stage w s0 e h' ev H Hev Hrep)
    as (Hok & Hnf & Hhash & Hst & pre & Htr1).
  destruct (execute_of_sendRun w s0) as [[_ Hrun]|[Hne _]]; [|contradiction].
  destruct (evm_receivingPhase_spec w (toChainOf w s0) (snd (sendRun w s0)))
    as (res & rest & Htr & Hrest & Hcross & _).
  rewrite <- Hrun in Htr, Hcross.
  assert (Hd : txHash (deref crossProcess (step (snd (sendRun w s0)))) = Some h').
  { rewrite deref_processOf.
    destruct (processOf crossProcess (step (snd (sendRun w s0)))); [|discriminate].
    injection Hhash as ->. reflexivity. }
  rewrite Hcross.
  destruct (processOf crossProcess (step (snd (sendRun w s0)))) as [p|]; [|discriminate].
  cbn [option_map] in *. injection Hhash as Hhash.
  split; [reflexivity|]. split; [cbn; rewrite Hhash; reflexivity|].
  exists pre, res, rest. rewrite Htr, Htr1, Hd, <- !app_assoc. split; [reflexivity|].
  split.
  { rewrite Htr1, existsb_app in Hnf. apply orb_false_iff in Hnf. apply Hnf. }
  apply (forallb_existsb _ _ _ Hrest). intros x Hx. apply is_receiving_event_classes, Hx.
Qed.

(** *** A quote without transaction request

    [crossProcess.errorMessage], read after the update of line 75. *)
Lemma errorMessage_deref_unprepared s0 :
  errorMessage
    (deref crossProcess
       (updateProcess
          (fst (findOrCreateProcess crossProcess (entryStep s0) "Prepare Transaction"))
          crossProcess FAILED
          (mkProcessPatch None None None (Some (Some "Unable to prepare Transaction"))
             None None)))
  = Some "Unable to prepare Transaction".
Proof.
  rewrite deref_processOf, evm_processOf_updateProcess, evm_processOf_findOrCreateProcess.
  reflexivity.
Qed.

Lemma evm_unprepared_stage w s0 q :
  In (CallGetStepTransaction (inr q)) (trace (snd (sendRun w s0))) ->
  transactionRequest q = None ->
  (exists s' p',
     fst (sendRun w s0)
     = Throw (ThrowObject
                (parseWalletError w (ThrowString "Unable to prepare Transaction") s' p')))
  /\ recordedFailure crossProcess (snd (sendRun w s0))
  /\ existsb is_send (trace (snd (sendRun w s0))) = false
  /\ existsb (sets_status ACTION_REQUIRED) (trace (snd (sendRun w s0))) = false.
Proof.
  intros H Hq. unfold sendRun in *.
  run (sendStage w (fromChainOf w s0) (mkFrame (entryStep s0) [])).
  all: in_trace H.
  all: injection H as <-.
  all: try congruence.
  all: rewrite errorMessage_deref_unprepared in *.
  all: try discriminate.
  all: match goal with H1 : Some _ = Some _ |- _ => injection H1 as <- end.
  all: try discriminate.
  all: unfold recordedFailure; cbn [step trace]; autorewrite with evm_ledger;
    cbn [option_map status applyPatch].
  all: (split; [eexists _, _; reflexivity|]).
  all: (split; [|split; reflexivity]).
  all: (split; [reflexivity|split;[reflexivity|split_trace_with ltac:(eexists; reflexivity)]]).
Qed.

(** *** A balance check that rejects *)
Lemma evm_balance_failure_stage w s0 e :
  In (CallBalanceCheck (inl e)) (trace (snd (sendRun w s0))) ->
  isUndefined e = false ->
  replaced e = None ->
  exists s' p' pre,
    fst (sendRun w s0) = Throw (ThrowObject (parseWalletError w e s' p'))
    /\ processOf crossProcess (step (snd (sendRun w s0)))
       = Some (applyPatch FAILED (errorPatch (parseWalletError w e s' p')) (entryProcess s0))
    /\ statusOf (step (snd (sendRun w s0))) = FAILED
    /\ existsb is_send (trace (snd (sendRun w s0))) = false
    /\ List.length (filter is_balance_check (trace (snd (sendRun w s0)))) = 1%nat
    /\ trace (snd (sendRun w s0))
       = (pre ++ [CallBalanceCheck (inl e);
                  LedgerUpdateProcess crossProcess FAILED
                    (errorPatch (parseWalletError w e s' p'));
                  LedgerUpdateExecution FAILED])%list.
Proof.
  intros H Hu Hr. unfold sendRun in *.
  run (sendStage w (fromChainOf w s0) (mkFrame (entryStep s0) [])).
  all: in_trace H.
  all: injection H as <-.
  all: try congruence.
  all: eexists _, _; autorewrite with evm_ledger; cbn [option_map].
  all: split_trace_with ltac:(repeat split; reflexivity).
Qed.

(** *** The allowance check *)
Lemma evm_allowance_stage w s0 :
  existsb is_allowance_check (trace (snd (sendRun w s0)))
  = negb (String.eqb (address (fromToken (action s0))) AddressZero)
    && match carriedTxHash (processOf crossProcess s0) with
       | Some _ => false
       | None => true
       end
  /\ (existsb is_allowance_check (trace (snd (sendRun w s0))) = true ->
      exists rest,
        trace (snd (sendRun w s0))
        = CallCheckAllowance
            (checkAllowance w (entryStep s0) (fromChainOf w s0) (fromToken (action s0))
               (fromAmount_ (action s0)) (approvalAddress (estimate s0)) true
               (shouldContinue w))
          :: rest).
Proof.
  unfold sendRun.
  run (sendStage w (fromChainOf w s0) (mkFrame (entryStep s0) [])).
  all: change (action (entryStep s0)) with (action s0) in *.
  all: rewrite ?(approvalStillNeeded_entry s0) in *.
  all: destruct (carriedTxHash (processOf crossProcess s0)); try discriminate.
  all: destruct (String.eqb (address (fromToken (action s0))) AddressZero); try discriminate.
  all: (split; [reflexivity|intros Hx; try discriminate Hx]).
  all: match goal with H : checkAllowance _ _ _ _ _ _ _ _ = _ |- _ => rewrite <- H end.
  all: eexists; reflexivity.
Qed.

(** *** The same, for the whole run *)
Lemma evm_unprepared w s0 q :
  In (CallGetStepTransaction (inr q)) (trace (snd (execute w s0))) ->
  transactionRequest q = None ->
  (exists s' p',
     fst (execute w s0)
     = Throw (ThrowObject
                (parseWalletError w (ThrowString "Unable to prepare Transaction") s' p')))
  /\ recordedFailure crossProcess (snd (execute w s0))
  /\ existsb is_send (trace (snd (execute w s0))) = false
  /\ existsb (sets_status ACTION_REQUIRED) (trace (snd (execute w s0))) = false.
Proof.
  intros H Hq. apply evm_In_sendRun_trace in H; [|reflexivity].
  destruct (evm_unprepared_stage w s0 q H Hq) as ((s' & p' & Hout) & Hrec & Hs & Ha).
  rewrite (execute_of_failed_sendRun w s0 _ Hout). cbn [fst snd].
  split; [exists s', p'; reflexivity|]. split; [exact Hrec|]. split; assumption.
Qed.

Lemma evm_balance_failure w s0 e :
  In (CallBalanceCheck (inl e)) (trace (snd (execute w s0))) ->
  isUndefined e = false ->
  replaced e = None ->
  exists s' p' pre,
    fst (execute w s0) = Throw (ThrowObject (parseWalletError w e s' p'))
    /\ processOf crossProcess (step (snd (execute w s0)))
       = Some (applyPatch FAILED (errorPatch (parseWalletError w e s' p')) (entryProcess s0))
    /\ statusOf (step (snd (execute w s0))) = FAILED
    /\ existsb is_send (trace (snd (execute w s0))) = false
    /\ List.length (filter is_balance_check (trace (snd (execute w s0)))) = 1%nat
    /\ trace (snd (execute w s0))
       = (pre ++ [CallBalanceCheck (inl e);
                  LedgerUpdateProcess crossProcess FAILED
                    (errorPatch (parseWalletError w e s' p'));
                  LedgerUpdateExecution FAILED])%list.
Proof.
  intros H Hu Hr. apply evm_In_sendRun_trace in H; [|reflexivity].
  destruct (evm_balance_failure_stage w s0 e H Hu Hr) as (s' & p' & pre & Hout & Hrest).
  rewrite (execute_of_failed_sendRun w s0 _ Hout). cbn [fst snd].
  exists s', p', pre. split; [reflexivity|exact Hrest].
Qed.

Lemma evm_allowance w s0 :
  existsb is_allowance_check (trace (snd (execute w s0)))
  = negb (String.eqb (address (fromToken (action s0))) AddressZero)
    && match carriedTxHash (processOf crossProcess s0) with
       | Some _ => false
       | None => true
       end
  /\ (existsb is_allowance_check (trace (snd (execute w s0))) = true ->
      exists rest,
        trace (snd (execute w s0))
        = CallCheckAllowance
            (checkAllowance w (entryStep s0) (fromChainOf w s0) (fromToken (action s0))
               (fromAmount_ (action s0)) (approvalAddress (estimate s0)) true
               (shouldContinue w))
          :: rest).
Proof.
  destruct (evm_allowance_stage w s0) as [Hb Hhead].
  destruct (execute_trace w s0) as (tr2 & Htr & Hev & _).
  assert (H2 : existsb is_allowance_check tr2 = false).
  { apply (forallb_existsb _ _ _ Hev). intros x Hx. apply is_receiving_event_classes, Hx. }
  rewrite Htr, existsb_app, H2, orb_false_r. split; [exact Hb|].
  intros Hx. destruct (Hhead Hx) as (rest & ->). eexists. reflexivity.
Qed.

(** *** Failures that are propagated *)
Lemma evm_failure_stage w s0 e :
  fst (sendRun w s0) = Throw e ->
  recordedFailure crossProcess (snd (sendRun w s0))
  \/ (exists e0, trace (snd (sendRun w s0)) = [CallCheckAllowance (inl e0)])
  \/ e = undefinedCodeRead.
Proof.
  unfold sendRun.
  run (sendStage w (fromChainOf w s0) (mkFrame (entryStep s0) [])).
  all: intros He; try discriminate He.
  all: try (right; right; injection He as <-; reflexivity).
  all: try (right; left; eexists; reflexivity).
  all: left; unfold recordedFailure; cbn [step trace]; autorewrite with evm_ledger;
    cbn [option_map status applyPatch].
  all: (split; [reflexivity|split;[reflexivity|split_trace_with ltac:(eexists; reflexivity)]]).
Qed.

(** Which failures of [execute] are recorded before they are propagated. *)
Lemma evm_failure_recorded_or_unguarded w s0 e :
  fst (execute w s0) = Throw e ->
  recordedFailure crossProcess (snd (execute w s0))
  \/ recordedFailure waitForTxProcess (snd (execute w s0))
  \/ (exists pre ev,
        trace (snd (execute w s0)) = (pre ++ [ev])%list
        /\ is_unguarded_rejection ev = true)
  \/ e = undefinedCodeRead.
Proof.
  intros H.
  destruct (execute_of_sendRun w s0) as [[Hok Hrun]|(Hne & Hf & Ho)].
  - destruct (evm_receivingPhase_spec w (toChainOf w s0) (snd (sendRun w s0)))
      as (res & rest & Htr & _ & _ & Hres).
    rewrite <- Hrun in Htr, Hres.
    destruct res as [e'|receipt].
    + destruct (isUndefined e').
      * right. right. right. destruct Hres as [_ Hres]. congruence.
      * right. left. apply Hres.
    + destruct Hres as [(e' & _ & _ & _ & Hrest)|(Hret & _)]; [|congruence].
      right. right. left. rewrite Htr.
      destruct Hrest as [(e0 & ->)|(a & e0 & ->)]; cbn [app].
      * eexists (_ ++ [_; _; _])%list, _. rewrite <- app_assoc. cbn [app].
        split; reflexivity.
      * eexists (_ ++ [_; _; _; _])%list, _. rewrite <- app_assoc. cbn [app].
        split; reflexivity.
  - rewrite Ho in H. destruct (fst (sendRun w s0)) as [b|e'] eqn:Hout; [discriminate|].
    injection H as ->. rewrite Hf.
    destruct (evm_failure_stage w s0 e Hout) as [Hr|[(e0 & Htr)|Hu]].
    + left. exact Hr.
    + right. right. left. exists [], (CallCheckAllowance (inl e0)). rewrite Htr. split; reflexivity.
    + right. right. right. exact Hu.
Qed.

End MultichainFacts.

(** * The Solana executor: more about its runs *)

Module SolanaMore.
Import Solana SolanaFacts.

(** *** The order of the calls *)

Lemma calls_app tr tr' : calls (tr ++ tr') = (calls tr ++ calls tr')%list.
Proof.
  induction tr as [|ev tr IH]; [reflexivity|]. cbn [app calls].
  destruct (collaborator ev); rewrite IH; reflexivity.
Qed.

(** The send stage calls its collaborators in the order of their call sites,
    and leaves room for the status waiter. *)
Lemma sol_calls_stage w s0 :
  in_order callSites (calls (trace (snd (sendRun w s0))) ++ [StatusWaiter]) = true
  /\ in_order callSites (calls (trace (snd (sendRun w s0)))) = true.
Proof.
  enter w s0.
  run (sendStage w (isBridgeExecution w s0) (fromChainOf w s0)
         (mkFrame s2 p0 [LedgerFindOrCreateProcess (currentProcessType w s0) None])).
  all: split; reflexivity.
Qed.

Lemma sol_calls w s0 :
  in_order callSites (calls (trace (snd (executeStep w s0)))) = true.
Proof.
  destruct (sol_calls_stage w s0) as [Hw Hs].
  destruct (executeStep_of_sendRun w s0) as [[_ Hrun]|(_ & Hf & _)].
  - destruct (receivingPhase_spec w (isBridgeExecution w s0) (toChainOf w s0)
                (snd (sendRun w s0)) (sendRun_receiving_ready w s0))
      as (_ & _ & body & Htr & Hbody).
    rewrite <- Hrun in Htr. rewrite Htr, !calls_app.
    assert (Ho : calls (receivingOpening (isBridgeExecution w s0)) = [])
      by (unfold receivingOpening; destruct (isBridgeExecution w s0); reflexivity).
    rewrite Ho. cbn [app].
    destruct Hbody as [(_ & _ & (pa & ->) & _)
                      |[(h & e & pa & _ & -> & _)|(h & d & pa & _ & -> & _)]];
      cbn [calls collaborator]; [rewrite app_nil_r; exact Hs|exact Hw|exact Hw].
  - rewrite Hf. exact Hs.
Qed.

(** *** Normal returns *)

(** The send stage ends without going on only at the early return of line
    101. *)
Lemma sol_early_return_stage w s0 :
  fst (sendRun w s0) = Ok false ->
  allowUserInteraction w = false
  /\ status (current (snd (sendRun w s0))) = ACTION_REQUIRED
  /\ exists pre,
       trace (snd (sendRun w s0))
       = (pre ++ [LedgerUpdateProcess (currentProcessType w s0) ACTION_REQUIRED
                    noPatch])%list.
Proof.
  enter w s0.
  run (sendStage w (isBridgeExecution w s0) (fromChainOf w s0)
         (mkFrame s2 p0 [LedgerFindOrCreateProcess (currentProcessType w s0) None])).
  all: intros H; try discriminate H.
  all: norm_types.
  all: rewrite ?snd_updateProcess_eq; cbn [status applyPatch].
  all: match goal with
       | Hn : negb (allowUserInteraction _) = true |- _ =>
           apply negb_true_iff in Hn
       end.
  all: split; [assumption|split; [reflexivity|split_trace]].
Qed.

Lemma sol_returns w s0 s :
  fst (executeStep w s0) = Ok s ->
  s = step (snd (executeStep w s0))
  /\ ((allowUserInteraction w = false
       /\ option_map status
            (processOf (currentProcessType w s0) (step (snd (executeStep w s0))))
          = Some ACTION_REQUIRED
       /\ exists pre,
            trace (snd (executeStep w s0))
            = (pre ++ [LedgerUpdateProcess (currentProcessType w s0) ACTION_REQUIRED
                         noPatch])%list)
      \/ (statusOf (step (snd (executeStep w s0))) = DONE
          /\ exists pre,
               trace (snd (executeStep w s0))
               = (pre ++ [LedgerUpdateExecution DONE])%list)).
Proof.
  intros H.
  destruct (sendRun_invariant w s0) as ((Hty & Hsync & _) & _).
  destruct (executeStep_of_sendRun w s0) as [[Hok Hrun]|(Hne & Hf & Ho)].
  - destruct (receivingPhase_spec w (isBridgeExecution w s0) (toChainOf w s0)
                (snd (sendRun w s0)) (sendRun_receiving_ready w s0))
      as (_ & _ & body & Htr & Hbody).
    rewrite <- Hrun in Htr, Hbody.
    destruct Hbody as [(_ & Hthrow & _)
                      |[(h & e & pa & _ & _ & Hthrow & _)
                       |(h & d & pa & _ & -> & Hret & (_ & _ & _ & Hst))]];
      [congruence|congruence|].
    split; [congruence|]. right. split; [exact Hst|].
    rewrite Htr.
    exists (trace (snd (sendRun w s0)) ++ receivingOpening (isBridgeExecution w s0)
            ++ [CallWaitForReceivingTransaction h
                  (receivingType (isBridgeExecution w s0) (current (snd (sendRun w s0))))
                  (inr d);
                LedgerUpdateProcess
                  (receivingType (isBridgeExecution w s0) (current (snd (sendRun w s0))))
                  DONE pa])%list.
    rewrite <- !app_assoc. reflexivity.
  - rewrite Ho in H. destruct (fst (sendRun w s0)) as [[|]|e] eqn:Hout;
      [contradiction|
      |discriminate].
    injection H as <-. rewrite Hf. split; [reflexivity|]. left.
    destruct (sol_early_return_stage w s0 Hout) as (Hq & Hst & Htr).
    split; [exact Hq|]. split; [|exact Htr].
    rewrite Hsync. cbn [option_map]. rewrite Hst. reflexivity.
Qed.

(** *** A confirmation that reports an error (lines 160-165) *)

Lemma sol_confirmation_error_stage w s0 h sr m :
  In (CallConfirmTransaction h (inr sr)) (trace (snd (sendRun w s0))) ->
  truthy_value (err sr) = Some m ->
  exists s' p' pre,
    fst (sendRun w s0)
    = Throw (ThrowObject
               (parseError w
                  (TransactionError TransactionFailed ("Transaction failed: " ++ m))
                  s' p'))
    /\ status (current (snd (sendRun w s0))) = FAILED
    /\ error (current (snd (sendRun w s0)))
       = Some (errorTriple
                 (parseError w
                    (TransactionError TransactionFailed ("Transaction failed: " ++ m))
                    s' p'))
    /\ statusOf (step (snd (sendRun w s0))) = FAILED
    /\ existsb (sets_status DONE) (trace (snd (sendRun w s0))) = false
    /\ trace (snd (sendRun w s0))
       = (pre ++ [CallConfirmTransaction h (inr sr);
                  LedgerUpdateProcess (currentProcessType w s0) FAILED
                    (mkProcessPatch None None None None
                       (Some (errorTriple
                                (parseError w
                                   (TransactionError TransactionFailed
                                      ("Transaction failed: " ++ m)) s' p'))));
                  LedgerUpdateExecution FAILED])%list.
Proof.
  intros H Hm. enter w s0.
  run (sendStage w (isBridgeExecution w s0) (fromChainOf w s0)
         (mkFrame s2 p0 [LedgerFindOrCreateProcess (currentProcessType w s0) None])).
  all: in_trace H.
  all: injection H as Hsig Hres; subst.
  all: try congruence.
  all: match goal with
       | H1 : truthy_value (err ?x) = Some _ |- _ =>
           rewrite Hm in H1; injection H1 as <-
       end.
  all: norm_types.
  all: eexists _, _; rewrite ?snd_updateProcess_eq;
    cbn [status error applyPatch patch_error].
  all: split_trace_with
         ltac:(split; [reflexivity|split; [reflexivity|split; [reflexivity|
               split; [reflexivity|split; reflexivity]]]]).
Qed.

(** *** The broadcast (lines 100-158) *)

Lemma sol_send_stage w s0 tx o r :
  In (CallSendTransaction tx o r) (trace (snd (sendRun w s0))) ->
  allowUserInteraction w = true
  /\ o = mkSendOptions 5 true
  /\ exists d pre post,
       deserialize w d = inr tx
       /\ trace (snd (sendRun w s0))
          = (pre ++ CallDeserialize d :: CallSendTransaction tx o r :: post)%list
       /\ In (CallCheckBalance (publicKey w) (inr tt)) pre
       /\ existsb (sets_status ACTION_REQUIRED) pre = true
       /\ existsb (sets_status PENDING) pre = false
       /\ existsb is_send pre = false
       /\ existsb is_send post = false
       /\ forall sig, r = inr sig ->
            exists res post',
              post = LedgerUpdateProcess (currentProcessType w s0) PENDING
                       (sentPatch (fromChainOf w s0) sig)
                     :: CallConfirmTransaction sig res :: post'.
Proof.
  intros H. enter w s0.
  run (sendStage w (isBridgeExecution w s0) (fromChainOf w s0)
         (mkFrame s2 p0 [LedgerFindOrCreateProcess (currentProcessType w s0) None])).
  all: in_trace H.
  all: injection H as -> -> <-.
  all: norm_types.
  all: repeat match goal with u : unit |- _ => destruct u end.
  all: match goal with
       | Hn : negb (allowUserInteraction _) = false |- _ => apply negb_false_iff in Hn
       end.
  all: split; [assumption|split; [reflexivity|]].
  all: eexists.
  all: split_trace_with
         ltac:(eexists; split; [eassumption|split; [reflexivity|
               split; [cbn [In]; auto 10|split; [reflexivity|split; [reflexivity|
               split; [reflexivity|split; [reflexivity|]]]]]]]).
  all: intros sig Hs; first [discriminate Hs | injection Hs as <-].
  all: eexists _, _; reflexivity.
Qed.

(** *** The customization hook (lines 108-126) *)

Lemma sol_hook_stage w s0 r :
  In (CallHook r) (trace (snd (sendRun w s0))) ->
  allowUserInteraction w = true
  /\ exists hook d0,
       updateTransactionRequestHook w = Some hook
       /\ truthy_value (payload (step (snd (sendRun w s0)))) = Some d0
       /\ r = hook (mkTransactionParameters (Some (Some d0)))
       /\ forall c d,
            r = inr c -> tp_data c = Some (Some d) -> d <> "" ->
            In (CallDeserialize d) (trace (snd (sendRun w s0))).
Proof.
  intros H. enter w s0.
  run (sendStage w (isBridgeExecution w s0) (fromChainOf w s0)
         (mkFrame s2 p0 [LedgerFindOrCreateProcess (currentProcessType w s0) None])).
  all: in_trace H.
  all: injection H as <-.
  all: norm_types.
  all: norm_payload.
  all: match goal with
       | Hn : negb (allowUserInteraction _) = false |- _ => apply negb_false_iff in Hn
       end.
  all: split; [assumption|].
  all: eexists _, _; split; [reflexivity|split; [eassumption|
         split; [symmetry; eassumption|]]].
  all: intros c d Hc Hd Hne; first [discriminate Hc | injection Hc as <-].
  all: rewrite Hd in *; cbn [spread prop_get] in *.
  all: rewrite (truthy_value_nonempty _ Hne) in *.
  all: try discriminate.
  all: match goal with
       | H1 : Some _ = Some _ |- _ => injection H1 as <-
       end.
  all: cbn [In]; auto 20.
Qed.

(** *** The plan of the step (lines 72-85) *)

Lemma samePlan_trans a b c : samePlan a b -> samePlan b c -> samePlan a c.
Proof.
  intros (H1 & H2 & H3 & H4) (G1 & G2 & G3 & G4).
  repeat split; congruence.
Qed.

Lemma samePlan_entryFrame w s0 : samePlan (step (entryFrame w s0)) s0.
Proof.
  unfold entryFrame. cbn [step].
  destruct (findOrCreateProcess_plan (set_execution s0 (initExecutionObject s0))
              (currentProcessType w s0) None) as (H1 & H2 & H3 & H4).
  repeat split; assumption.
Qed.

(** A step that comes with a transaction request keeps its plan, and the
    quote service is not asked. *)
Lemma sol_plan_stage w s0 :
  transactionRequest s0 <> None ->
  samePlan (step (snd (sendRun w s0))) (step (entryFrame w s0))
  /\ existsb is_reconciliation (trace (snd (sendRun w s0))) = false.
Proof.
  intros Hreq. enter w s0. cbn [step].
  run (sendStage w (isBridgeExecution w s0) (fromChainOf w s0)
         (mkFrame s2 p0 [LedgerFindOrCreateProcess (currentProcessType w s0) None])).
  all: try match goal with
           | H1 : transactionRequest _ = None |- _ =>
               autorewrite with solana_ledger in H1; rewrite Htr in H1; contradiction
           end.
  all: split; [|reflexivity].
  all: unfold samePlan; cbn; repeat split; reflexivity.
Qed.

Lemma sol_plan w s0 :
  transactionRequest s0 <> None ->
  samePlan (step (snd (executeStep w s0))) s0
  /\ existsb is_reconciliation (trace (snd (executeStep w s0))) = false.
Proof.
  intros Hreq. destruct (sol_plan_stage w s0 Hreq) as [Hplan Hrec].
  assert (Hs : samePlan (step (snd (sendRun w s0))) s0)
    by (apply (samePlan_trans _ _ _ Hplan), samePlan_entryFrame).
  destruct (executeStep_trace w s0) as (tr2 & Htr & Hev & _).
  split.
  - destruct (executeStep_of_sendRun w s0) as [[_ Hrun]|(_ & Hf & _)].
    + rewrite Hrun. apply (fun H => samePlan_trans _ _ _ H Hs).
      apply (receivingPhase_spec w (isBridgeExecution w s0) (toChainOf w s0)
               (snd (sendRun w s0)) (sendRun_receiving_ready w s0)).
    + rewrite Hf. exact Hs.
  - rewrite Htr, existsb_app, Hrec. apply (forallb_existsb _ _ _ Hev).
    intros ev H. apply is_receiving_event_not_send, H.
Qed.

(** The Processes of the other phases are left as they were; on a
    single-chain step the [RECEIVING_CHAIN] Process is one of them. *)
Lemma sol_frame w s0 t' :
  t' <> currentProcessType w s0 ->
  (isBridgeExecution w s0 = true -> t' <> RECEIVING_CHAIN) ->
  processOf t' (step (snd (executeStep w s0))) = processOf t' s0.
Proof.
  intros Hc Hr.
  destruct (sendRun_invariant w s0) as ((Hty & _ & Hoth) & _).
  destruct (executeStep_of_sendRun w s0) as [[_ Hrun]|(_ & Hf & _)].
  - destruct (receivingPhase_spec w (isBridgeExecution w s0) (toChainOf w s0)
                (snd (sendRun w s0)) (sendRun_receiving_ready w s0))
      as (Hframe & _).
    rewrite <- Hrun in Hframe. rewrite Hframe; [apply Hoth, Hc|].
    unfold receivingType. rewrite Hty.
    destruct (isBridgeExecution w s0); [apply Hr; reflexivity|exact Hc].
  - rewrite Hf. apply Hoth, Hc.
Qed.

Lemma ProcessType_eqb_neq t t' : t' <> t -> ProcessType_eqb t t' = false.
Proof.
  intros Hne. destruct (ProcessType_eqb t t') eqn:E; [|reflexivity].
  apply ProcessType_eqb_eq in E. congruence.
Qed.

(** The send stage makes no ledger call for the Process of another phase. *)
Lemma sol_own_writes_stage w s0 t' :
  t' <> currentProcessType w s0 ->
  existsb (ledger_call_for t') (trace (snd (sendRun w s0))) = false.
Proof.
  intros Hc. pose proof (ProcessType_eqb_neq _ _ Hc) as He.
  enter w s0.
  run (sendStage w (isBridgeExecution w s0) (fromChainOf w s0)
         (mkFrame s2 p0 [LedgerFindOrCreateProcess (currentProcessType w s0) None])).
  all: norm_types.
  all: cbn [existsb ledger_call_for orb]; rewrite ?He; reflexivity.
Qed.

Lemma sol_own_writes w s0 t' :
  t' <> currentProcessType w s0 ->
  (isBridgeExecution w s0 = true -> t' <> RECEIVING_CHAIN) ->
  existsb (ledger_call_for t') (trace (snd (executeStep w s0))) = false.
Proof.
  intros Hc Hr. pose proof (ProcessType_eqb_neq _ _ Hc) as He.
  pose proof (sol_own_writes_stage w s0 t' Hc) as Hs.
  destruct (sendRun_invariant w s0) as ((Hty & _) & _).
  destruct (executeStep_of_sendRun w s0) as [[_ Hrun]|(_ & Hf & _)].
  - destruct (receivingPhase_spec w (isBridgeExecution w s0) (toChainOf w s0)
                (snd (sendRun w s0)) (sendRun_receiving_ready w s0))
      as (_ & _ & body & Htr & Hbody).
    rewrite <- Hrun in Htr, Hbody. rewrite Htr, !existsb_app, Hs.
    unfold receivingOpening, receivingType in *. rewrite Hty in Hbody.
    destruct Hbody as [(_ & _ & (pa & ->) & _)
                      |[(h & e & pa & _ & -> & _)|(h & d & pa & _ & -> & _)]];
      destruct (isBridgeExecution w s0) eqn:Hb;
      cbn [existsb ledger_call_for orb]; rewrite ?He; try reflexivity;
      rewrite (ProcessType_eqb_neq _ _ (Hr eq_refl)); reflexivity.
  - rewrite Hf. exact Hs.
Qed.

(** *** What the receiving phase writes (lines 210-247) *)

Lemma receivingPhase_done w b tc f s :
  fst (receivingPhase w b tc f) = Ok s ->
  exists h d pa,
    trace (snd (receivingPhase w b tc f))
    = (trace f ++ receivingOpening b
       ++ [CallWaitForReceivingTransaction h (receivingType b (current f)) (inr d);
           LedgerUpdateProcess (receivingType b (current f)) DONE pa;
           LedgerUpdateExecution DONE])%list
    /\ txHash (current (snd (receivingPhase w b tc f)))
       = optionalChain (receiving d) eti_txHash
    /\ txLink (current (snd (receivingPhase w b tc f)))
       = Some (blockExplorerUrl tc ++ "tx/"
               ++ interpolate (optionalChain (receiving d) eti_txHash))
    /\ substatus (current (snd (receivingPhase w b tc f))) = sr_substatus d
    /\ substatusMessage (current (snd (receivingPhase w b tc f)))
       = orElse (sr_substatusMessage d)
           (getSubstatusMessage w (sr_status d) (sr_substatus d))
    /\ summaryOf (step (snd (receivingPhase w b tc f)))
       = mkSummary (ti_amount (sending d))
           (optionalChain (receiving d) eti_amount)
           (optionalChain (receiving d) eti_token)
           (ti_gasAmount (sending d)) (ti_gasAmountUSD (sending d))
           (ti_gasPrice (sending d)) (ti_gasToken (sending d))
           (ti_gasUsed (sending d)).
Proof.
  destruct f as [s1 p tr]. cbn [current step trace].
  unfold receivingType, receivingOpening.
  run (receivingPhase w b tc (mkFrame s1 p tr)).
  all: intros H; try discriminate H.
  all: rewrite <- ?app_assoc; cbn [app].
  all: rewrite ?type_snd_findOrCreateProcess in *.
  all: rewrite ?snd_updateProcess_eq.
  all: eexists _, _, _; split; [reflexivity|].
  all: repeat split; reflexivity.
Qed.

Lemma receivingPhase_failed w b tc f e :
  fst (receivingPhase w b tc f) = Throw e ->
  exists s' l',
    error (current (snd (receivingPhase w b tc f)))
    = Some (mkProcessError "Failed while waiting for receiving chain."
              (getTransactionFailedMessage w s' l')
              (Some (CodeLiFi TransactionFailed))).
Proof.
  destruct f as [s1 p tr]. cbn [current step trace].
  run (receivingPhase w b tc (mkFrame s1 p tr)).
  all: intros H; try discriminate H.
  all: rewrite ?snd_updateProcess_eq; cbn [error applyPatch patch_error].
  all: eexists _, _; reflexivity.
Qed.

(** A call of the status waiter found in the trace of the run is the one
    call of the receiving phase. *)
Lemma sol_waiter_call w s0 h t r :
  In (CallWaitForReceivingTransaction h t r) (trace (snd (executeStep w s0))) ->
  executeStep w s0
  = receivingPhase w (isBridgeExecution w s0) (toChainOf w s0) (snd (sendRun w s0))
  /\ t = receivingType (isBridgeExecution w s0) (current (snd (sendRun w s0)))
  /\ recorded t (match r with inr _ => DONE | inl _ => FAILED end)
       (snd (executeStep w s0))
  /\ match r with
     | inr _ => fst (executeStep w s0) = Ok (step (snd (executeStep w s0)))
     | inl e => fst (executeStep w s0) = Throw e
     end
  /\ exists pa,
       trace (snd (executeStep w s0))
       = (trace (snd (sendRun w s0)) ++ receivingOpening (isBridgeExecution w s0)
          ++ [CallWaitForReceivingTransaction h t r;
              LedgerUpdateProcess t (match r with inr _ => DONE | inl _ => FAILED end) pa;
              LedgerUpdateExecution (match r with inr _ => DONE | inl _ => FAILED end)])%list.
Proof.
  intros H.
  destruct (sendRun_invariant w s0) as (_ & Hnw & _).
  destruct (executeStep_of_sendRun w s0) as [[_ Hrun]|(_ & Hf & _)].
  - split; [exact Hrun|].
    destruct (receivingPhase_spec w (isBridgeExecution w s0) (toChainOf w s0)
                (snd (sendRun w s0)) (sendRun_receiving_ready w s0))
      as (_ & _ & body & Htr & Hbody).
    rewrite <- Hrun in Htr, Hbody. rewrite Htr in H.
    apply in_app_or in H. destruct H as [H|H].
    { exfalso. rewrite <- not_true_iff_false in Hnw. apply Hnw.
      apply existsb_exists. eexists. split; [exact H|reflexivity]. }
    apply in_app_or in H. destruct H as [H|H].
    { unfold receivingOpening in H. destruct (isBridgeExecution w s0);
        [destruct H as [H|[]]; discriminate H|destruct H]. }
    destruct Hbody as [(_ & _ & (pa & ->) & _)
                      |[(h' & e & pa & _ & -> & Hthrow & Hrec & _)
                       |(h' & d & pa & _ & -> & Hret & Hrec)]].
    + in_trace H.
    + in_trace H. injection H as -> <- <-.
      split; [reflexivity|]. split; [exact Hrec|]. split; [exact Hthrow|].
      exists pa. exact Htr.
    + in_trace H. injection H as -> <- <-.
      split; [reflexivity|]. split; [exact Hrec|]. split; [exact Hret|].
      exists pa. exact Htr.
  - exfalso. rewrite Hf in H.
    rewrite <- not_true_iff_false in Hnw. apply Hnw.
    apply existsb_exists. eexists. split; [exact H|reflexivity].
Qed.

Lemma sol_waiter_resolved w s0 h t d :
  In (CallWaitForReceivingTransaction h t (inr d)) (trace (snd (executeStep w s0))) ->
  fst (executeStep w s0) = Ok (step (snd (executeStep w s0)))
  /\ statusOf (step (snd (executeStep w s0))) = DONE
  /\ summaryOf (step (snd (executeStep w s0)))
     = mkSummary (ti_amount (sending d))
         (optionalChain (receiving d) eti_amount)
         (optionalChain (receiving d) eti_token)
         (ti_gasAmount (sending d)) (ti_gasAmountUSD (sending d))
         (ti_gasPrice (sending d)) (ti_gasToken (sending d))
         (ti_gasUsed (sending d))
  /\ exists p,
       processOf t (step (snd (executeStep w s0))) = Some p
       /\ status p = DONE
       /\ txHash p = optionalChain (receiving d) eti_txHash
       /\ txLink p
          = Some (blockExplorerUrl (toChainOf w s0) ++ "tx/"
                  ++ interpolate (optionalChain (receiving d) eti_txHash))
       /\ substatus p = sr_substatus d
       /\ substatusMessage p
          = orElse (sr_substatusMessage d)
              (getSubstatusMessage w (sr_status d) (sr_substatus d)).
Proof.
  intros H.
  destruct (sol_waiter_call w s0 h t (inr d) H)
    as (Hrun & Ht & (_ & Hp & Hs & Hst) & Hret & pa & Htr).
  destruct (receivingPhase_done w (isBridgeExecution w s0) (toChainOf w s0)
              (snd (sendRun w s0)) (step (snd (executeStep w s0))))
    as (h' & d' & pa' & Htr' & Hhash & Hlink & Hsub & Hmsg & Hsum).
  { rewrite <- Hrun. exact Hret. }
  rewrite <- Hrun in Htr', Hhash, Hlink, Hsub, Hmsg, Hsum.
  rewrite Htr in Htr'. apply app_inv_head in Htr'. apply app_inv_head in Htr'.
  injection Htr' as _ _ <- _.
  split; [exact Hret|]. split; [exact Hst|]. split; [exact Hsum|].
  exists (current (snd (executeStep w s0))).
  repeat split; assumption.
Qed.

Lemma sol_waiter_rejected w s0 h t e :
  In (CallWaitForReceivingTransaction h t (inl e)) (trace (snd (executeStep w s0))) ->
  fst (executeStep w s0) = Throw e
  /\ statusOf (step (snd (executeStep w s0))) = FAILED
  /\ exists p s' l',
       processOf t (step (snd (executeStep w s0))) = Some p
       /\ status p = FAILED
       /\ error p
          = Some (mkProcessError "Failed while waiting for receiving chain."
                    (getTransactionFailedMessage w s' l')
                    (Some (CodeLiFi TransactionFailed))).
Proof.
  intros H.
  destruct (sol_waiter_call w s0 h t (inl e) H)
    as (Hrun & Ht & (_ & Hp & Hs & Hst) & Hthrow & _).
  destruct (receivingPhase_failed w (isBridgeExecution w s0) (toChainOf w s0)
              (snd (sendRun w s0)) e) as (s' & l' & Herr).
  { rewrite <- Hrun. exact Hthrow. }
  rewrite <- Hrun in Herr.
  split; [exact Hthrow|]. split; [exact Hst|].
  exists (current (snd (executeStep w s0))), s', l'.
  repeat split; assumption.
Qed.

(** A Process that is [DONE] and carries no transaction hash (lines 190,
    200-202). *)
Lemma sol_missing_hash w s0 :
  alreadyDone (sendProcess w s0) = true ->
  carriedTxHash (sendProcess w s0) = None ->
  fst (executeStep w s0) = Throw (JsError "Transaction hash is undefined.")
  /\ calls (trace (snd (executeStep w s0))) = []
  /\ statusOf (step (snd (executeStep w s0))) = FAILED
  /\ exists p s' l',
       processOf (if isBridgeExecution w s0 then RECEIVING_CHAIN
                  else currentProcessType w s0)
         (step (snd (executeStep w s0))) = Some p
       /\ status p = FAILED
       /\ error p
          = Some (mkProcessError "Failed while waiting for receiving chain."
                    (getTransactionFailedMessage w s' l')
                    (Some (CodeLiFi TransactionFailed))).
Proof.
  intros Hd Hh.
  assert (Hstage : fst (sendRun w s0) = Ok true
                   /\ trace (snd (sendRun w s0))
                      = [LedgerFindOrCreateProcess (currentProcessType w s0) None]
                   /\ truthy_value (txHash (current (snd (sendRun w s0)))) = None
                   /\ type (current (snd (sendRun w s0))) = currentProcessType w s0).
  { enter w s0. rewrite Hd in Hdone. rewrite Hh in Hhash.
    remember (sendStage w (isBridgeExecution w s0) (fromChainOf w s0)
         (mkFrame s2 p0 [LedgerFindOrCreateProcess (currentProcessType w s0) None]))
      as r eqn:Hrun.
    unfold_exec Hrun. ledger_cbn_in Hrun. rewrite Hdone in Hrun. ledger_cbn_in Hrun.
    subst r. repeat split; assumption. }
  destruct Hstage as (Hok & Htr1 & Hnone & Hty).
  destruct (executeStep_of_sendRun w s0) as [[_ Hrun]|[Hne _]]; [|contradiction].
  destruct (receivingPhase_spec w (isBridgeExecution w s0) (toChainOf w s0)
              (snd (sendRun w s0)) (sendRun_receiving_ready w s0))
    as (_ & _ & body & Htr & Hbody).
  rewrite <- Hrun in Htr, Hbody.
  destruct Hbody as [(_ & Hthrow & (pa & ->) & (_ & Hp & Hs & Hst) & _)
                    |[(h & e & pa & Hsome & _)|(h & d & pa & Hsome & _)]];
    [|congruence|congruence].
  destruct (receivingPhase_failed w (isBridgeExecution w s0) (toChainOf w s0)
              (snd (sendRun w s0)) _ (eq_trans (f_equal fst (eq_sym Hrun)) Hthrow))
    as (s' & l' & Herr).
  rewrite <- Hrun in Herr.
  split; [exact Hthrow|]. split.
  { rewrite Htr, Htr1. unfold receivingOpening.
    destruct (isBridgeExecution w s0); reflexivity. }
  split; [exact Hst|].
  exists (current (snd (executeStep w s0))), s', l'.
  unfold receivingType in Hp. rewrite Hty in Hp.
  repeat split; assumption.
Qed.

(** *** The same, for the whole run *)

Lemma sol_send w s0 tx o r :
  In (CallSendTransaction tx o r) (trace (snd (executeStep w s0))) ->
  allowUserInteraction w = true
  /\ o = mkSendOptions 5 true
  /\ exists d pre post,
       deserialize w d = inr tx
       /\ trace (snd (executeStep w s0))
          = (pre ++ CallDeserialize d :: CallSendTransaction tx o r :: post)%list
       /\ In (CallCheckBalance (publicKey w) (inr tt)) pre
       /\ existsb (sets_status ACTION_REQUIRED) pre = true
       /\ existsb (sets_status PENDING) pre = false
       /\ existsb is_send pre = false
       /\ existsb is_send post = false
       /\ forall sig, r = inr sig ->
            exists res post',
              post = LedgerUpdateProcess (currentProcessType w s0) PENDING
                       (sentPatch (fromChainOf w s0) sig)
                     :: CallConfirmTransaction sig res :: post'.
Proof.
  intros H. apply In_sendRun_trace in H; [|reflexivity].
  destruct (sol_send_stage w s0 tx o r H)
    as (Hi & Ho & d & pre & post & Hd & Htr1 & Hb & Ha & Hp & Hs1 & Hs2 & Hnext).
  destruct (executeStep_trace w s0) as (tr2 & Htr & Hev & _).
  split; [exact Hi|]. split; [exact Ho|].
  exists d, pre, (post ++ tr2)%list.
  split; [exact Hd|]. split.
  { rewrite Htr, Htr1, <- app_assoc. reflexivity. }
  split; [exact Hb|]. split; [exact Ha|]. split; [exact Hp|]. split; [exact Hs1|].
  split.
  { rewrite existsb_app, Hs2. apply (forallb_existsb _ _ _ Hev).
    intros ev Hx. apply is_receiving_event_not_send, Hx. }
  intros sig Hsig. destruct (Hnext sig Hsig) as (res & post' & ->).
  exists res, (post' ++ tr2)%list. reflexivity.
Qed.

Lemma sol_hook w s0 r :
  In (CallHook r) (trace (snd (executeStep w s0))) ->
  allowUserInteraction w = true
  /\ exists hook d0,
       updateTransactionRequestHook w = Some hook
       /\ truthy_value (payload (step (snd (executeStep w s0)))) = Some d0
       /\ r = hook (mkTransactionParameters (Some (Some d0)))
       /\ forall c d,
            r = inr c -> tp_data c = Some (Some d) -> d <> "" ->
            In (CallDeserialize d) (trace (snd (executeStep w s0))).
Proof.
  intros H. apply In_sendRun_trace in H; [|reflexivity].
  destruct (sol_hook_stage w s0 r H) as (Hi & hook & d0 & Hh & Hp & Hr & Hd).
  destruct (executeStep_trace w s0) as (tr2 & Htr & _).
  split; [exact Hi|]. exists hook, d0.
  split; [exact Hh|]. split; [rewrite payload_executeStep; exact Hp|].
  split; [exact Hr|].
  intros c d Hc Hdata Hne. rewrite Htr. apply in_or_app. left.
  exact (Hd c d Hc Hdata Hne).
Qed.

Lemma sol_confirmation_error w s0 h sr m :
  In (CallConfirmTransaction h (inr sr)) (trace (snd (executeStep w s0))) ->
  truthy_value (err sr) = Some m ->
  exists s' p' p pre,
    fst (executeStep w s0)
    = Throw (ThrowObject
               (parseError w
                  (TransactionError TransactionFailed ("Transaction failed: " ++ m))
                  s' p'))
    /\ processOf (currentProcessType w s0) (step (snd (executeStep w s0))) = Some p
    /\ status p = FAILED
    /\ error p
       = Some (errorTriple
                 (parseError w
                    (TransactionError TransactionFailed ("Transaction failed: " ++ m))
                    s' p'))
    /\ statusOf (step (snd (executeStep w s0))) = FAILED
    /\ existsb (sets_status DONE) (trace (snd (executeStep w s0))) = false
    /\ existsb is_receiving_wait (trace (snd (executeStep w s0))) = false
    /\ trace (snd (executeStep w s0))
       = (pre ++ [CallConfirmTransaction h (inr sr);
                  LedgerUpdateProcess (currentProcessType w s0) FAILED
                    (mkProcessPatch None None None None
                       (Some (errorTriple
                                (parseError w
                                   (TransactionError TransactionFailed
                                      ("Transaction failed: " ++ m)) s' p'))));
                  LedgerUpdateExecution FAILED])%list.
Proof.
  intros H Hm. apply In_sendRun_trace in H; [|reflexivity].
  destruct (sol_confirmation_error_stage w s0 h sr m H Hm)
    as (s' & p' & pre & Hout & Hst & Herr & Hex & Hnd & Htr).
  destruct (sendRun_invariant w s0) as ((_ & Hsync & _) & Hnw & _).
  rewrite (executeStep_of_failed_sendRun w s0 _ Hout). cbn [fst snd].
  exists s', p', (current (snd (sendRun w s0))), pre. repeat split; assumption.
Qed.

(** *** A rejected call of the first [try] block (lines 56-186) *)

Lemma rejection_not_receiving w ev e :
  rejection w ev = Some e -> is_receiving_event ev = false.
Proof. destruct ev; try discriminate; reflexivity. Qed.

Lemma sol_rejection_stage w s0 ev e :
  In ev (trace (snd (sendRun w s0))) ->
  rejection w ev = Some e ->
  exists s' p' pre,
    fst (sendRun w s0) = Throw (ThrowObject (parseError w e s' p'))
    /\ status (current (snd (sendRun w s0))) = FAILED
    /\ error (current (snd (sendRun w s0))) = Some (errorTriple (parseError w e s' p'))
    /\ statusOf (step (snd (sendRun w s0))) = FAILED
    /\ trace (snd (sendRun w s0))
       = (pre ++ [ev;
                  LedgerUpdateProcess (currentProcessType w s0) FAILED
                    (mkProcessPatch None None None None
                       (Some (errorTriple (parseError w e s' p'))));
                  LedgerUpdateExecution FAILED])%list.
Proof.
  intros H Hr. enter w s0.
  run (sendStage w (isBridgeExecution w s0) (fromChainOf w s0)
         (mkFrame s2 p0 [LedgerFindOrCreateProcess (currentProcessType w s0) None])).
  all: in_trace H.
  all: subst ev; cbn [rejection] in Hr; try discriminate Hr.
  all: repeat match goal with
              | Hd : deserialize _ _ = _ |- _ => rewrite Hd in Hr
              end; try discriminate Hr.
  all: injection Hr as <-.
  all: norm_types.
  all: eexists _, _; rewrite ?snd_updateProcess_eq;
    cbn [status error applyPatch patch_error].
  all: split_trace_with
         ltac:(split; [reflexivity|split; [reflexivity|split; [reflexivity|
               split; reflexivity]]]).
Qed.

Lemma sol_rejection w s0 ev e :
  In ev (trace (snd (executeStep w s0))) ->
  rejection w ev = Some e ->
  exists s' p' p pre,
    fst (executeStep w s0) = Throw (ThrowObject (parseError w e s' p'))
    /\ processOf (currentProcessType w s0) (step (snd (executeStep w s0))) = Some p
    /\ status p = FAILED
    /\ error p = Some (errorTriple (parseError w e s' p'))
    /\ statusOf (step (snd (executeStep w s0))) = FAILED
    /\ trace (snd (executeStep w s0))
       = (pre ++ [ev;
                  LedgerUpdateProcess (currentProcessType w s0) FAILED
                    (mkProcessPatch None None None None
                       (Some (errorTriple (parseError w e s' p'))));
                  LedgerUpdateExecution FAILED])%list.
Proof.
  intros H Hr. apply In_sendRun_trace in H; [|exact (rejection_not_receiving w ev e Hr)].
  destruct (sol_rejection_stage w s0 ev e H Hr)
    as (s' & p' & pre & Hout & Hst & Herr & Hex & Htr).
  destruct (sendRun_invariant w s0) as ((_ & Hsync & _) & _).
  rewrite (executeStep_of_failed_sendRun w s0 _ Hout). cbn [fst snd].
  exists s', p', (current (snd (sendRun w s0))), pre. repeat split; assumption.
Qed.

(** *** Invocations on a step that was executed before *)

(** Whatever the step it is invoked on, [executeStep] ends with a ledger
    write. *)
Lemma sol_last_write w s0 :
  (fst (executeStep w s0) = Ok (step (snd (executeStep w s0)))
   /\ allowUserInteraction w = false
   /\ option_map status
        (processOf (currentProcessType w s0) (step (snd (executeStep w s0))))
      = Some ACTION_REQUIRED
   /\ exists pre,
        trace (snd (executeStep w s0))
        = (pre ++ [LedgerUpdateProcess (currentProcessType w s0) ACTION_REQUIRED
                     noPatch])%list)
  \/ (fst (executeStep w s0) = Ok (step (snd (executeStep w s0)))
      /\ statusOf (step (snd (executeStep w s0))) = DONE
      /\ exists pre,
           trace (snd (executeStep w s0)) = (pre ++ [LedgerUpdateExecution DONE])%list)
  \/ (exists e t pre pa,
        fst (executeStep w s0) = Throw e
        /\ recorded t FAILED (snd (executeStep w s0))
        /\ trace (snd (executeStep w s0))
           = (pre ++ [LedgerUpdateProcess t FAILED pa;
                      LedgerUpdateExecution FAILED])%list).
Proof.
  destruct (fst (executeStep w s0)) as [s|e] eqn:Hout.
  - destruct (sol_returns w s0 s Hout) as [Hs [(Hi & Hst & Hpre)|(Hst & Hpre)]].
    + left. split; [rewrite Hs; reflexivity|]. split; [exact Hi|].
      split; [exact Hst|exact Hpre].
    + right. left. split; [rewrite Hs; reflexivity|]. split; [exact Hst|exact Hpre].
  - right. right.
    destruct (sol_failure_recorded w s0 e Hout) as (t & pre & pa & Hrec & _ & Htr).
    exists e, t, pre, pa. split; [reflexivity|]. split; assumption.
Qed.

(** On a Process that is not [DONE] the send phase is entered again (lines
    55-69): the connection is obtained, and a Process without a transaction
    hash is put back to [STARTED] before the balance check. *)
Lemma sol_reentry_stage w s0 :
  alreadyDone (sendProcess w s0) = false ->
  exists c rest,
    trace (snd (sendRun w s0))
    = LedgerFindOrCreateProcess (currentProcessType w s0) None
      :: CallGetSolanaConnection c :: rest
    /\ (c = inr tt ->
        carriedTxHash (sendProcess w s0) = None ->
        exists b rest',
          rest = LedgerUpdateProcess (currentProcessType w s0) STARTED noPatch
                 :: CallCheckBalance (publicKey w) b :: rest').
Proof.
  intros Hd. enter w s0. rewrite Hd in Hdone.
  run (sendStage w (isBridgeExecution w s0) (fromChainOf w s0)
         (mkFrame s2 p0 [LedgerFindOrCreateProcess (currentProcessType w s0) None])).
  all: try match goal with
           | Hn : negb (Status_eqb _ _) = false |- _ =>
               rewrite Hdone in Hn; discriminate Hn
           end.
  all: norm_types.
  all: eexists _, _; split; [reflexivity|].
  all: intros Hc Hh; try discriminate Hc.
  all: rewrite Hh in Hhash; try congruence.
  all: eexists _, _; reflexivity.
Qed.

Lemma sol_reentry w s0 :
  alreadyDone (sendProcess w s0) = false ->
  exists c rest,
    trace (snd (executeStep w s0))
    = LedgerFindOrCreateProcess (currentProcessType w s0) None
      :: CallGetSolanaConnection c :: rest
    /\ (c = inr tt ->
        carriedTxHash (sendProcess w s0) = None ->
        exists b rest',
          rest = LedgerUpdateProcess (currentProcessType w s0) STARTED noPatch
                 :: CallCheckBalance (publicKey w) b :: rest').
Proof.
  intros Hd. destruct (sol_reentry_stage w s0 Hd) as (c & rest & Htr1 & Hnext).
  destruct (executeStep_trace w s0) as (tr2 & Htr & _).
  rewrite Htr, Htr1. exists c, (rest ++ tr2)%list. split; [reflexivity|].
  intros Hc Hh. destruct (Hnext Hc Hh) as (b & rest' & ->).
  exists b, (rest' ++ tr2)%list. reflexivity.
Qed.

(** On a Process that is [DONE] and carries a transaction hash the receiving
    phase runs again, and rewrites its Process and the Execution (lines
    189-248). *)
Lemma sol_rerun_with_hash w s0 h :
  alreadyDone (sendProcess w s0) = true ->
  carriedTxHash (sendProcess w s0) = Some h ->
  exists res pa,
    trace (snd (executeStep w s0))
    = (LedgerFindOrCreateProcess (currentProcessType w s0) None
       :: receivingOpening (isBridgeExecution w s0)
       ++ [CallWaitForReceivingTransaction h
             (if isBridgeExecution w s0 then RECEIVING_CHAIN
              else currentProcessType w s0) res;
           LedgerUpdateProcess
             (if isBridgeExecution w s0 then RECEIVING_CHAIN
              else currentProcessType w s0)
             (match res with inr _ => DONE | inl _ => FAILED end) pa;
           LedgerUpdateExecution (match res with inr _ => DONE | inl _ => FAILED end)])%list
    /\ match res with
       | inr d =>
           fst (executeStep w s0) = Ok (step (snd (executeStep w s0)))
           /\ statusOf (step (snd (executeStep w s0))) = DONE
           /\ summaryOf (step (snd (executeStep w s0)))
              = mkSummary (ti_amount (sending d))
                  (optionalChain (receiving d) eti_amount)
                  (optionalChain (receiving d) eti_token)
                  (ti_gasAmount (sending d)) (ti_gasAmountUSD (sending d))
                  (ti_gasPrice (sending d)) (ti_gasToken (sending d))
                  (ti_gasUsed (sending d))
           /\ exists p,
                processOf (if isBridgeExecution w s0 then RECEIVING_CHAIN
                           else currentProcessType w s0)
                  (step (snd (executeStep w s0))) = Some p
                /\ status p = DONE
                /\ txHash p = optionalChain (receiving d) eti_txHash
                /\ txLink p
                   = Some (blockExplorerUrl (toChainOf w s0) ++ "tx/"
                           ++ interpolate (optionalChain (receiving d) eti_txHash))
                /\ substatus p = sr_substatus d
                /\ substatusMessage p
                   = orElse (sr_substatusMessage d)
                       (getSubstatusMessage w (sr_status d) (sr_substatus d))
       | inl e =>
           fst (executeStep w s0) = Throw e
           /\ statusOf (step (snd (executeStep w s0))) = FAILED
           /\ exists p s' l',
                processOf (if isBridgeExecution w s0 then RECEIVING_CHAIN
                           else currentProcessType w s0)
                  (step (snd (executeStep w s0))) = Some p
                /\ status p = FAILED
                /\ error p
                   = Some (mkProcessError "Failed while waiting for receiving chain."
                             (getTransactionFailedMessage w s' l')
                             (Some (CodeLiFi TransactionFailed)))
       end.
Proof.
  intros Hd Hh.
  destruct (sol_resume_stage w s0 h Hh) as (_ & _ & _ & _ & Hstage).
  destruct (Hstage Hd) as (_ & Htr1 & _ & _).
  destruct (sol_resume w s0 h Hh) as (_ & _ & _ & _ & Hrun).
  destruct (Hrun Hd) as (_ & res & rest & Htr).
  assert (Hin : In (CallWaitForReceivingTransaction h
                      (if isBridgeExecution w s0 then RECEIVING_CHAIN
                       else currentProcessType w s0) res)
                   (trace (snd (executeStep w s0)))).
  { rewrite Htr. right. apply in_or_app. right. left. reflexivity. }
  destruct (sol_waiter_call w s0 h _ res Hin) as (_ & _ & _ & _ & pa & Htr').
  exists res, pa. split.
  { rewrite Htr', Htr1. reflexivity. }
  destruct res as [e|d].
  - exact (sol_waiter_rejected w s0 h _ e Hin).
  - exact (sol_waiter_resolved w s0 h _ d Hin).
Qed.

End SolanaMore.

(** * The EVM bridge executor: more about its runs *)

Module MultichainMore.
Import Multichain MultichainFacts.

(** *** The order of the calls *)

Lemma evm_calls_app tr tr' : calls (tr ++ tr') = (calls tr ++ calls tr')%list.
Proof.
  induction tr as [|ev tr IH]; [reflexivity|]. cbn [app calls].
  destruct (collaborator ev); rewrite IH; reflexivity.
Qed.

(** The send stage calls its collaborators in the order of their call sites,
    and leaves room for those of the receiving phase. *)
Lemma evm_calls_stage w s0 :
  in_order callSites (calls (trace (snd (sendRun w s0)))) = true
  /\ in_order callSites
       (calls (trace (snd (sendRun w s0))) ++ [DestinationWaiter]) = true
  /\ in_order callSites
       (calls (trace (snd (sendRun w s0))) ++ [DestinationWaiter; AddressReader]) = true
  /\ in_order callSites
       (calls (trace (snd (sendRun w s0)))
        ++ [DestinationWaiter; AddressReader; ReceiptParser]) = true.
Proof.
  unfold sendRun.
  run (sendStage w (fromChainOf w s0) (mkFrame (entryStep s0) [])).
  all: repeat split; reflexivity.
Qed.

Lemma evm_receiving_calls w tc f :
  exists l,
    calls (trace (snd (receivingPhase w tc f))) = (calls (trace f) ++ l)%list
    /\ (l = [DestinationWaiter] \/ l = [DestinationWaiter; AddressReader]
        \/ l = [DestinationWaiter; AddressReader; ReceiptParser]).
Proof.
  destruct f as [s tr]. cbn [step trace].
  run (receivingPhase w tc (mkFrame s tr)).
  all: rewrite !evm_calls_app; cbn [calls collaborator];
    rewrite <- ?app_assoc, ?app_nil_r; cbn [app].
  all: eexists; split; [reflexivity|]; auto.
Qed.

Lemma evm_calls w s0 :
  in_order callSites (calls (trace (snd (execute w s0)))) = true.
Proof.
  destruct (evm_calls_stage w s0) as (H0 & H1 & H2 & H3).
  destruct (execute_of_sendRun w s0) as [[_ Hrun]|(_ & Hf & _)].
  - destruct (evm_receiving_calls w (toChainOf w s0) (snd (sendRun w s0)))
      as (l & Hl & Hcase).
    rewrite Hrun, Hl. destruct Hcase as [->|[->| ->]]; assumption.
  - rewrite Hf. exact H0.
Qed.

(** *** Normal returns *)

(** The send stage ends without going on only at the early return of line
    83. *)
Lemma evm_early_return_stage w s0 :
  fst (sendRun w s0) = Ok false ->
  shouldContinue w = false
  /\ option_map status (processOf crossProcess (step (snd (sendRun w s0))))
     = Some ACTION_REQUIRED
  /\ exists pre,
       trace (snd (sendRun w s0))
       = (pre ++ [LedgerUpdateProcess crossProcess ACTION_REQUIRED noPatch])%list.
Proof.
  unfold sendRun.
  run (sendStage w (fromChainOf w s0) (mkFrame (entryStep s0) [])).
  all: intros H; try discriminate H.
  all: match goal with
       | Hn : negb (shouldContinue _) = true |- _ => apply negb_true_iff in Hn
       end.
  all: autorewrite with evm_ledger.
  all: split; [assumption|split; [reflexivity|split_trace]].
Qed.

(** Past the allowance check, the step has its [crossProcess]. *)
Lemma evm_entered w s0 b :
  fst (sendRun w s0) = Ok b ->
  exists p, processOf crossProcess (step (snd (sendRun w s0))) = Some p.
Proof.
  unfold sendRun.
  run (sendStage w (fromChainOf w s0) (mkFrame (entryStep s0) [])).
  all: intros H; try discriminate H.
  all: autorewrite with evm_ledger; cbn [option_map].
  all: eexists; reflexivity.
Qed.

Lemma evm_returns w s0 ex :
  fst (execute w s0) = Ok ex ->
  ex = initExecutionObject (step (snd (execute w s0)))
  /\ ((shouldContinue w = false
       /\ option_map status (processOf crossProcess (step (snd (execute w s0))))
          = Some ACTION_REQUIRED
       /\ exists pre,
            trace (snd (execute w s0))
            = (pre ++ [LedgerUpdateProcess crossProcess ACTION_REQUIRED noPatch])%list)
      \/ (statusOf (step (snd (execute w s0))) = DONE
          /\ option_map status (processOf crossProcess (step (snd (execute w s0))))
             = Some DONE
          /\ option_map status
               (processOf waitForTxProcess (step (snd (execute w s0))))
             = Some DONE)).
Proof.
  intros H.
  destruct (execute_of_sendRun w s0) as [[Hok Hrun]|(Hne & Hf & Ho)].
  - destruct (evm_receivingPhase_spec w (toChainOf w s0) (snd (sendRun w s0)))
      as (res & rest & Htr & _ & Hcross & Hres).
    rewrite <- Hrun in Htr, Hcross, Hres.
    destruct res as [e|receipt].
    + destruct (isUndefined e); destruct Hres as [Hres Hres']; congruence.
    + destruct Hres as [(e & Hthrow & _)|(Hret & Hst & Hw)]; [congruence|].
      split; [congruence|]. right. split; [exact Hst|]. split; [|exact Hw].
      rewrite Hcross.
      destruct (evm_entered w s0 true Hok) as (p & Hp). rewrite Hp. reflexivity.
  - rewrite Ho in H. destruct (fst (sendRun w s0)) as [[|]|e] eqn:Hout;
      [contradiction| |discriminate].
    injection H as <-. rewrite Hf. split; [reflexivity|]. left.
    exact (evm_early_return_stage w s0 Hout).
Qed.

(** *** A manager that may not continue (lines 17-19, 83) *)

Lemma evm_stopped_stage w s0 :
  shouldContinue w = false ->
  existsb is_send (trace (snd (sendRun w s0))) = false.
Proof.
  intros Hc. unfold sendRun.
  run (sendStage w (fromChainOf w s0) (mkFrame (entryStep s0) [])).
  all: rewrite ?Hc in *; try discriminate.
  all: reflexivity.
Qed.

Lemma evm_stopped w s0 :
  shouldContinue w = false ->
  existsb is_send (trace (snd (execute w s0))) = false.
Proof.
  intros Hc. apply execute_class; [|exact (evm_stopped_stage w s0 Hc)].
  intros ev H. apply is_receiving_event_classes, H.
Qed.

(** *** A transaction the provider does not know (lines 62-64, 94) *)

Lemma evm_null_transaction_stage w s0 h :
  In (CallGetTransaction h (inr None)) (trace (snd (sendRun w s0))) ->
  (exists s' p',
     fst (sendRun w s0)
     = Throw (ThrowObject
                (parseWalletError w
                   (JsError "Cannot read properties of null (reading 'wait')") s' p')))
  /\ recordedFailure crossProcess (snd (sendRun w s0))
  /\ calls (trace (snd (sendRun w s0))) = [TransactionLoader].
Proof.
  intros H. unfold sendRun in *.
  run (sendStage w (fromChainOf w s0) (mkFrame (entryStep s0) [])).
  all: in_trace H.
  all: injection H as <-.
  all: try match goal with
           | H1 : _ = inr None |- _ => rewrite H1 in *; try discriminate
           end.
  all: try match goal with
           | H1 : isUndefined (JsError _) = true |- _ => discriminate H1
           | H1 : replaced (JsError _) = Some _ |- _ => discriminate H1
           end.
  all: entry_facts s0.
  all: try match goal with
           | H1 : match ?x with Some _ => false | None => true end = true,
             H2 : match ?x with Some _ => true | None => false end = true |- _ =>
               destruct x; discriminate
           end.
  all: unfold recordedFailure; cbn [step trace]; autorewrite with evm_ledger;
    cbn [option_map status applyPatch].
  all: split; [eexists _, _; reflexivity|].
  all: split; [|reflexivity].
  all: split; [reflexivity|split; [reflexivity|split_trace_with ltac:(eexists; reflexivity)]].
Qed.

Lemma evm_null_transaction w s0 h :
  In (CallGetTransaction h (inr None)) (trace (snd (execute w s0))) ->
  (exists s' p',
     fst (execute w s0)
     = Throw (ThrowObject
                (parseWalletError w
                   (JsError "Cannot read properties of null (reading 'wait')") s' p')))
  /\ recordedFailure crossProcess (snd (execute w s0))
  /\ calls (trace (snd (execute w s0))) = [TransactionLoader].
Proof.
  intros H. apply evm_In_sendRun_trace in H; [|reflexivity].
  destruct (evm_null_transaction_stage w s0 h H) as ((s' & p' & Hout) & Hrec & Hcalls).
  rewrite (execute_of_failed_sendRun w s0 _ Hout). cbn [fst snd].
  split; [exists s', p'; reflexivity|]. split; [exact Hrec|exact Hcalls].
Qed.

(** *** The broadcast (lines 66-94) *)

Lemma evm_send_stage w s0 req r :
  In (CallSendTransaction req r) (trace (snd (sendRun w s0))) ->
  shouldContinue w = true
  /\ exists q pre post,
       transactionRequest q = Some req
       /\ trace (snd (sendRun w s0))
          = (pre ++ [CallGetStepTransaction (inr q);
                     LedgerUpdateProcess crossProcess ACTION_REQUIRED noPatch;
                     CallSendTransaction req r] ++ post)%list
       /\ In (CallBalanceCheck (inr tt)) pre
       /\ existsb is_send pre = false
       /\ existsb is_send post = false
       /\ forall tx, r = inr tx ->
            exists r' post',
              post = LedgerUpdateProcess crossProcess PENDING
                       (hashPatch (fromChainOf w s0) (hash tx))
                     :: CallWait tx r' :: post'.
Proof.
  intros H. unfold sendRun in *.
  run (sendStage w (fromChainOf w s0) (mkFrame (entryStep s0) [])).
  all: in_trace H.
  all: injection H as -> <-.
  all: repeat match goal with u : unit |- _ => destruct u end.
  all: match goal with
       | Hn : negb (shouldContinue _) = false |- _ => apply negb_false_iff in Hn
       end.
  all: split; [assumption|].
  all: eexists.
  all: split_trace_with
         ltac:(eexists; split; [eassumption|split; [reflexivity|
               split; [cbn [In]; auto 10|split; [reflexivity|split; [reflexivity|]]]]]).
  all: intros tx Hs; first [discriminate Hs | injection Hs as <-].
  all: eexists _, _; reflexivity.
Qed.

Lemma evm_send w s0 req r :
  In (CallSendTransaction req r) (trace (snd (execute w s0))) ->
  shouldContinue w = true
  /\ exists q pre post,
       transactionRequest q = Some req
       /\ trace (snd (execute w s0))
          = (pre ++ [CallGetStepTransaction (inr q);
                     LedgerUpdateProcess crossProcess ACTION_REQUIRED noPatch;
                     CallSendTransaction req r] ++ post)%list
       /\ In (CallBalanceCheck (inr tt)) pre
       /\ existsb is_send pre = false
       /\ existsb is_send post = false
       /\ forall tx, r = inr tx ->
            exists r' post',
              post = LedgerUpdateProcess crossProcess PENDING
                       (hashPatch (fromChainOf w s0) (hash tx))
                     :: CallWait tx r' :: post'.
Proof.
  intros H. apply evm_In_sendRun_trace in H; [|reflexivity].
  destruct (evm_send_stage w s0 req r H)
    as (Hc & q & pre & post & Hq & Htr1 & Hb & Hs1 & Hs2 & Hnext).
  destruct (execute_trace w s0) as (tr2 & Htr & Hev & _).
  split; [exact Hc|]. exists q, pre, (post ++ tr2)%list.
  split; [exact Hq|]. split.
  { rewrite Htr, Htr1, <- !app_assoc. reflexivity. }
  split; [exact Hb|]. split; [exact Hs1|]. split.
  { rewrite existsb_app, Hs2. apply (forallb_existsb _ _ _ Hev).
    intros ev Hx. apply is_receiving_event_classes, Hx. }
  intros tx Htx. destruct (Hnext tx Htx) as (r' & post' & ->).
  exists r', (post' ++ tr2)%list. reflexivity.
Qed.

(** *** What the receiving phase writes (lines 116-165) *)

Lemma evm_stage_calls w s0 :
  existsb is_receiving_call (trace (snd (sendRun w s0))) = false.
Proof.
  unfold sendRun.
  run (sendStage w (fromChainOf w s0) (mkFrame (entryStep s0) [])).
  all: reflexivity.
Qed.

(** The outcomes of the receiving phase, by the call that ends it. *)
Lemma evm_receivingPhase_cases w tc f :
  exists tail,
    trace (snd (receivingPhase w tc f))
    = (trace f ++ [LedgerUpdateProcess crossProcess DONE startedPatch;
                   LedgerFindOrCreateProcess waitForTxProcess] ++ tail)%list
    /\ ((exists e,
           isUndefined e = true
           /\ tail = [CallWaitForDestinationChainReceipt
                        (txHash (deref crossProcess (step f))) (chain_id tc) (inl e)]
           /\ fst (receivingPhase w tc f) = Throw undefinedCodeRead)
        \/ (exists e,
              isUndefined e = false
              /\ tail = [CallWaitForDestinationChainReceipt
                           (txHash (deref crossProcess (step f))) (chain_id tc) (inl e);
                         LedgerUpdateProcess waitForTxProcess FAILED
                           (failedWaitingPatch e);
                         LedgerUpdateExecution FAILED]
              /\ fst (receivingPhase w tc f) = Throw e
              /\ processOf waitForTxProcess (step (snd (receivingPhase w tc f)))
                 = Some (applyPatch FAILED (failedWaitingPatch e)
                           (entryWaitProcess (step f)))
              /\ statusOf (step (snd (receivingPhase w tc f))) = FAILED)
        \/ (exists receipt e,
              tail = [CallWaitForDestinationChainReceipt
                        (txHash (deref crossProcess (step f))) (chain_id tc)
                        (inr receipt);
                      CallGetAddress (inl e)]
              /\ fst (receivingPhase w tc f) = Throw e)
        \/ (exists receipt owner e,
              tail = [CallWaitForDestinationChainReceipt
                        (txHash (deref crossProcess (step f))) (chain_id tc)
                        (inr receipt);
                      CallGetAddress (inr owner);
                      CallParseReceipt (inl e)]
              /\ fst (receivingPhase w tc f) = Throw e)
        \/ (exists receipt owner parsed,
              tail = [CallWaitForDestinationChainReceipt
                        (txHash (deref crossProcess (step f))) (chain_id tc)
                        (inr receipt);
                      CallGetAddress (inr owner);
                      CallParseReceipt (inr parsed);
                      LedgerUpdateProcess waitForTxProcess DONE
                        (receivedPatch tc receipt);
                      LedgerUpdateExecution DONE]
              /\ parseReceipt w owner (address (toToken (action (step f))))
                   (txHash (deref crossProcess (step f))) receipt
                 = inr parsed
              /\ fst (receivingPhase w tc f)
                 = Ok (initExecutionObject (step (snd (receivingPhase w tc f))))
              /\ processOf waitForTxProcess (step (snd (receivingPhase w tc f)))
                 = Some (applyPatch DONE (receivedPatch tc receipt)
                           (entryWaitProcess (step f)))
              /\ summaryOf (step (snd (receivingPhase w tc f)))
                 = mkSummary (parsed_fromAmount parsed) (parsed_toAmount parsed)
              /\ statusOf (step (snd (receivingPhase w tc f))) = DONE)).
Proof.
  destruct f as [s tr]. cbn [step trace].
  run (receivingPhase w tc (mkFrame s tr)).
  all: rewrite <- ?app_assoc; cbn [app].
  all: rewrite ?txHash_deref_started in *.
  all: rewrite ?action_findOrCreateProcess in *.
  all: eexists; split; [reflexivity|].
  all: unfold entryWaitProcess, failedWaitingPatch, receivedPatch.
  all: rewrite ?evm_processOf_updateExecution, ?evm_processOf_updateProcess,
         ?evm_processOf_findOrCreateProcess, ?evm_processOf_updateProcess_other
         by discriminate.
  all: cbn [option_map].
  all: first
    [ left; eexists; split; [eassumption|split; reflexivity]
    | right; left; eexists; split; [eassumption|repeat split; reflexivity]
    | right; right; left; eexists _, _; split; reflexivity
    | right; right; right; left; eexists _, _, _; split; reflexivity
    | right; right; right; right; eexists _, _, _;
      split; [reflexivity|split; [eassumption|repeat split; reflexivity]] ].
Qed.

(** *** What [execute] leaves of the step alone *)

Lemma evm_estimate_findOrCreateProcess i s msg :
  estimate (fst (findOrCreateProcess i s msg)) = estimate s.
Proof.
  unfold findOrCreateProcess.
  destruct (findProcess i (process (initExecutionObject s))); reflexivity.
Qed.

Lemma evm_transactionRequest_findOrCreateProcess i s msg :
  transactionRequest (fst (findOrCreateProcess i s msg)) = transactionRequest s.
Proof.
  unfold findOrCreateProcess.
  destruct (findProcess i (process (initExecutionObject s))); reflexivity.
Qed.

Ltac samePlan_goal :=
  unfold samePlan;
  repeat (rewrite ?action_findOrCreateProcess, ?evm_estimate_findOrCreateProcess,
            ?evm_transactionRequest_findOrCreateProcess;
          cbn [action estimate transactionRequest updateProcess updateExecution
               set_execution entryStep]);
  split; [reflexivity|split; reflexivity].

Lemma evm_plan_stage w s0 : samePlan s0 (step (snd (sendRun w s0))).
Proof.
  unfold sendRun.
  run (sendStage w (fromChainOf w s0) (mkFrame (entryStep s0) [])).
  all: samePlan_goal.
Qed.

Lemma evm_plan_receiving w tc f : samePlan (step f) (step (snd (receivingPhase w tc f))).
Proof.
  destruct f as [s tr]. cbn [step trace].
  run (receivingPhase w tc (mkFrame s tr)).
  all: samePlan_goal.
Qed.

Lemma evm_own_writes_stage w s0 :
  existsb is_foreign_write (trace (snd (sendRun w s0))) = false.
Proof.
  unfold sendRun.
  run (sendStage w (fromChainOf w s0) (mkFrame (entryStep s0) [])).
  all: reflexivity.
Qed.

Lemma evm_own_writes_receiving w tc f :
  existsb is_foreign_write (trace (snd (receivingPhase w tc f)))
  = existsb is_foreign_write (trace f).
Proof.
  destruct f as [s tr]. cbn [step trace].
  run (receivingPhase w tc (mkFrame s tr)).
  all: rewrite ?existsb_app; cbn [existsb is_foreign_write];
    rewrite ?orb_false_r; reflexivity.
Qed.

Lemma evm_frame w s0 :
  samePlan s0 (step (snd (execute w s0)))
  /\ existsb is_foreign_write (trace (snd (execute w s0))) = false.
Proof.
  pose proof (evm_plan_stage w s0) as (Ha & He & Ht).
  pose proof (evm_own_writes_stage w s0) as Hw.
  destruct (execute_of_sendRun w s0) as [[_ Hrun]|(_ & Hf & _)].
  - rewrite Hrun.
    destruct (evm_plan_receiving w (toChainOf w s0) (snd (sendRun w s0)))
      as (Ha' & He' & Ht').
    rewrite evm_own_writes_receiving.
    split; [|exact Hw]. repeat split; congruence.
  - rewrite Hf. split; [|exact Hw]. repeat split; assumption.
Qed.

(** *** The whole run, by its last call *)

(** A call of the receiving phase found in the trace of the run was made in
    the receiving phase. *)
Lemma evm_receiving_call w s0 ev :
  In ev (trace (snd (execute w s0))) ->
  is_receiving_call ev = true ->
  execute w s0 = receivingPhase w (toChainOf w s0) (snd (sendRun w s0))
  /\ exists tail,
       trace (snd (execute w s0))
       = (trace (snd (sendRun w s0))
          ++ [LedgerUpdateProcess crossProcess DONE startedPatch;
              LedgerFindOrCreateProcess waitForTxProcess] ++ tail)%list
       /\ In ev tail.
Proof.
  intros H Hev.
  assert (Hno : ~ In ev (trace (snd (sendRun w s0)))).
  { intros Hin. pose proof (evm_stage_calls w s0) as Hs.
    rewrite <- not_true_iff_false in Hs. apply Hs.
    apply existsb_exists. exists ev. split; assumption. }
  destruct (execute_of_sendRun w s0) as [[_ Hrun]|(_ & Hf & _)].
  - split; [exact Hrun|].
    destruct (evm_receivingPhase_cases w (toChainOf w s0) (snd (sendRun w s0)))
      as (tail & Htr & _).
    rewrite <- Hrun in Htr. exists tail. split; [exact Htr|].
    rewrite Htr in H. apply in_app_or in H. destruct H as [H|H]; [contradiction|].
    apply in_app_or in H. destruct H as [H|H]; [|exact H].
    destruct H as [<-|[<-|[]]]; discriminate Hev.
  - rewrite Hf in H. contradiction.
Qed.

Lemma evm_destination_failed w s0 h c e :
  In (CallWaitForDestinationChainReceipt h c (inl e)) (trace (snd (execute w s0))) ->
  isUndefined e = false ->
  fst (execute w s0) = Throw e
  /\ statusOf (step (snd (execute w s0))) = FAILED
  /\ option_map status (processOf crossProcess (step (snd (execute w s0)))) = Some DONE
  /\ processOf waitForTxProcess (step (snd (execute w s0)))
     = Some (applyPatch FAILED (failedWaitingPatch e)
               (entryWaitProcess (step (snd (sendRun w s0)))))
  /\ exists pre,
       trace (snd (execute w s0))
       = (pre ++ [CallWaitForDestinationChainReceipt h c (inl e);
                  LedgerUpdateProcess waitForTxProcess FAILED (failedWaitingPatch e);
                  LedgerUpdateExecution FAILED])%list.
Proof.
  intros H Hdef.
  destruct (evm_receiving_call w s0 _ H eq_refl) as (Hrun & tail0 & Htr0 & Hin).
  destruct (evm_receivingPhase_cases w (toChainOf w s0) (snd (sendRun w s0)))
    as (tail & Htr & Hcase).
  destruct (evm_receivingPhase_spec w (toChainOf w s0) (snd (sendRun w s0)))
    as (_ & _ & _ & _ & Hcross & _).
  rewrite <- Hrun in Htr, Hcase, Hcross.
  rewrite Htr in Htr0. apply app_inv_head in Htr0. apply app_inv_head in Htr0.
  subst tail0.
  assert (Hok : fst (sendRun w s0) = Ok true).
  { destruct (execute_of_sendRun w s0) as [[Hok _]|(_ & Hf & _)]; [exact Hok|].
    exfalso. pose proof (evm_stage_calls w s0) as Hs.
    rewrite <- not_true_iff_false in Hs. apply Hs. apply existsb_exists.
    eexists. split; [rewrite <- Hf; exact H|reflexivity]. }
  destruct (evm_entered w s0 true Hok) as (p & Hp).
  destruct Hcase as [(e' & Hu & -> & _)
                    |[(e' & _ & -> & Hthrow & Hproc & Hst)
                     |[(receipt & e' & -> & _)
                      |[(receipt & owner & e' & -> & _)
                       |(receipt & owner & parsed & -> & _)]]]];
    in_trace Hin.
  - injection Hin as _ _ ->. congruence.
  - injection Hin as <- <- ->.
    split; [exact Hthrow|]. split; [exact Hst|]. split.
    { rewrite Hcross, Hp. reflexivity. }
    split; [exact Hproc|].
    rewrite Htr. eexists (_ ++ [_; _])%list. rewrite <- app_assoc. reflexivity.
Qed.

Lemma evm_completed w s0 ex :
  fst (execute w s0) = Ok ex ->
  shouldContinue w = true ->
  exists h receipt owner parsed pre,
    trace (snd (execute w s0))
    = (pre ++ [CallWaitForDestinationChainReceipt h (chain_id (toChainOf w s0))
                 (inr receipt);
               CallGetAddress (inr owner);
               CallParseReceipt (inr parsed);
               LedgerUpdateProcess waitForTxProcess DONE
                 (receivedPatch (toChainOf w s0) receipt);
               LedgerUpdateExecution DONE])%list
    /\ parseReceipt w owner (address (toToken (action s0))) h receipt = inr parsed
    /\ option_map txHash (processOf crossProcess (step (snd (execute w s0)))) = Some h
    /\ option_map status (processOf crossProcess (step (snd (execute w s0))))
       = Some DONE
    /\ option_map message (processOf crossProcess (step (snd (execute w s0))))
       = Some (Some "Transfer started: ")
    /\ processOf waitForTxProcess (step (snd (execute w s0)))
       = Some (applyPatch DONE (receivedPatch (toChainOf w s0) receipt)
                 (entryWaitProcess (step (snd (sendRun w s0)))))
    /\ summaryOf (step (snd (execute w s0)))
       = mkSummary (parsed_fromAmount parsed) (parsed_toAmount parsed)
    /\ statusOf (step (snd (execute w s0))) = DONE.
Proof.
  intros H Hc.
  destruct (execute_of_sendRun w s0) as [[Hok Hrun]|(Hne & Hf & Ho)].
  - destruct (evm_receivingPhase_cases w (toChainOf w s0) (snd (sendRun w s0)))
      as (tail & Htr & Hcase).
    destruct (evm_receivingPhase_spec w (toChainOf w s0) (snd (sendRun w s0)))
      as (_ & _ & _ & _ & Hcross & _).
    destruct (evm_plan_stage w s0) as (Hact & _).
    destruct (evm_entered w s0 true Hok) as (p & Hp).
    rewrite <- Hrun in Htr, Hcase, Hcross.
    destruct Hcase as [(e' & _ & _ & Hthrow)
                      |[(e' & _ & _ & Hthrow & _)
                       |[(receipt & e' & _ & Hthrow)
                        |[(receipt & owner & e' & _ & Hthrow)
                         |(receipt & owner & parsed & -> & Hparse & _ & Hproc & Hsum
                           & Hst)]]]];
      [congruence|congruence|congruence|congruence|].
    exists (txHash (deref crossProcess (step (snd (sendRun w s0))))), receipt, owner,
      parsed.
    eexists (_ ++ [_; _])%list.
    split; [rewrite Htr, <- app_assoc; reflexivity|].
    split; [rewrite <- Hact; exact Hparse|].
    rewrite Hcross, deref_processOf, Hp. cbn [option_map].
    repeat split; assumption.
  - exfalso. rewrite Ho in H.
    destruct (fst (sendRun w s0)) as [[|]|e] eqn:Hout; [contradiction| |discriminate].
    destruct (evm_early_return_stage w s0 Hout) as (Hq & _). congruence.
Qed.

(** *** A confirmed transaction (lines 94, 116-131) *)

Lemma evm_confirmed_stage w s0 tx :
  In (CallWait tx (inr tt)) (trace (snd (sendRun w s0))) ->
  fst (sendRun w s0) = Ok true
  /\ (exists pre, trace (snd (sendRun w s0)) = (pre ++ [CallWait tx (inr tt)])%list)
  /\ match carriedTxHash (processOf crossProcess s0) with
     | Some h =>
         txHash (deref crossProcess (step (snd (sendRun w s0)))) = Some h
         /\ existsb is_send (trace (snd (sendRun w s0))) = false
     | None =>
         txHash (deref crossProcess (step (snd (sendRun w s0)))) = Some (hash tx)
         /\ exists req, In (CallSendTransaction req (inr tx)) (trace (snd (sendRun w s0)))
     end.
Proof.
  intros H. unfold sendRun in *.
  run (sendStage w (fromChainOf w s0) (mkFrame (entryStep s0) [])).
  all: in_trace H.
  all: injection H as <- Hu.
  all: try discriminate Hu.
  all: repeat match goal with u : unit |- _ => destruct u end.
  all: entry_facts s0.
  all: try match goal with
           | H1 : match ?x with Some _ => false | None => true end = true,
             H2 : match ?x with Some _ => true | None => false end = true |- _ =>
               destruct x; discriminate
           end.
  all: split; [reflexivity|split; [split_trace|]].
  all: autorewrite with evm_ledger; cbn [option_map].
  all: destruct (carriedTxHash (processOf crossProcess s0)) as [h|] eqn:Hcar;
    try discriminate.
  all: first
    [ split; [|reflexivity];
      unfold entryProcess; unfold carriedTxHash in Hcar;
      destruct (processOf crossProcess s0) as [p|]; [|discriminate Hcar];
      apply truthy_value_Some in Hcar; destruct Hcar as [Hcar _]; exact Hcar
    | split; [reflexivity|eexists; cbn [In]; auto 12] ].
Qed.

Lemma evm_confirmed w s0 tx :
  In (CallWait tx (inr tt)) (trace (snd (execute w s0))) ->
  exists pre res rest,
    trace (snd (execute w s0))
    = (pre ++ [CallWait tx (inr tt);
               LedgerUpdateProcess crossProcess DONE startedPatch;
               LedgerFindOrCreateProcess waitForTxProcess;
               CallWaitForDestinationChainReceipt
                 (Some (match carriedTxHash (processOf crossProcess s0) with
                        | Some h => h
                        | None => hash tx
                        end))
                 (chain_id (toChainOf w s0)) res]
       ++ rest)%list
    /\ (carriedTxHash (processOf crossProcess s0) = None ->
        exists req, In (CallSendTransaction req (inr tx)) pre).
Proof.
  intros H. apply evm_In_sendRun_trace in H; [|reflexivity].
  destruct (evm_confirmed_stage w s0 tx H) as (Hok & (pre & Htr1) & Hhash).
  destruct (execute_of_sendRun w s0) as [[_ Hrun]|[Hne _]]; [|contradiction].
  destruct (evm_receivingPhase_spec w (toChainOf w s0) (snd (sendRun w s0)))
    as (res & rest & Htr & _).
  rewrite <- Hrun in Htr.
  exists pre, res, rest. split.
  - rewrite Htr, Htr1, <- !app_assoc. cbn [app].
    destruct (carriedTxHash (processOf crossProcess s0));
      destruct Hhash as [-> _]; reflexivity.
  - intros Hnone. rewrite Hnone in Hhash. destruct Hhash as [_ (req & Hin)].
    exists req. rewrite Htr1 in Hin. apply in_app_or in Hin.
    destruct Hin as [Hin|[Hin|[]]]; [exact Hin|discriminate Hin].
Qed.

(** *** A rejected call of the first [try] block (lines 60-113) *)

Lemma evm_rejection_not_receiving ev e :
  rejection ev = Some e -> is_receiving_event ev = false.
Proof. destruct ev; try discriminate; reflexivity. Qed.

Lemma evm_rejection_stage w s0 ev e :
  In ev (trace (snd (sendRun w s0))) ->
  rejection ev = Some e ->
  isUndefined e = false ->
  replaced e = None ->
  exists s' p' pre,
    fst (sendRun w s0) = Throw (ThrowObject (parseWalletError w e s' p'))
    /\ option_map status (processOf crossProcess (step (snd (sendRun w s0))))
       = Some FAILED
    /\ statusOf (step (snd (sendRun w s0))) = FAILED
    /\ trace (snd (sendRun w s0))
       = (pre ++ [ev;
                  LedgerUpdateProcess crossProcess FAILED
                    (errorPatch (parseWalletError w e s' p'));
                  LedgerUpdateExecution FAILED])%list.
Proof.
  intros H Hr Hu Hp. unfold sendRun in *.
  run (sendStage w (fromChainOf w s0) (mkFrame (entryStep s0) [])).
  all: in_trace H.
  all: subst ev; cbn [rejection] in Hr; try discriminate Hr.
  all: injection Hr as <-.
  all: try congruence.
  all: eexists _, _; autorewrite with evm_ledger; cbn [option_map status applyPatch].
  all: split_trace_with ltac:(repeat split; reflexivity).
Qed.

Lemma evm_rejection w s0 ev e :
  In ev (trace (snd (execute w s0))) ->
  rejection ev = Some e ->
  isUndefined e = false ->
  replaced e = None ->
  exists s' p' pre,
    fst (execute w s0) = Throw (ThrowObject (parseWalletError w e s' p'))
    /\ option_map status (processOf crossProcess (step (snd (execute w s0))))
       = Some FAILED
    /\ statusOf (step (snd (execute w s0))) = FAILED
    /\ trace (snd (execute w s0))
       = (pre ++ [ev;
                  LedgerUpdateProcess crossProcess FAILED
                    (errorPatch (parseWalletError w e s' p'));
                  LedgerUpdateExecution FAILED])%list.
Proof.
  intros H Hr Hu Hp.
  apply evm_In_sendRun_trace in H; [|exact (evm_rejection_not_receiving ev e Hr)].
  destruct (evm_rejection_stage w s0 ev e H Hr Hu Hp) as (s' & p' & pre & Hout & Hrest).
  rewrite (execute_of_failed_sendRun w s0 _ Hout). cbn [fst snd].
  exists s', p', pre. split; [reflexivity|exact Hrest].
Qed.

End MultichainMore.

(** * The claims, settled on both executors *)

Module Sol := Solana.
Module Evm := Multichain.

Ltac evaluated := vm_compute; reflexivity.

(** The event is in the (concrete) trace. *)
Ltac occurs := vm_compute; repeat (first [left; reflexivity | right]).

(** ** C1: halting before the user's action *)

(** C1, as stated, fails: a non-interactive run on a step without transaction
    hash and with a payload, whose balance check rejects, throws and never
    puts the Process in [ACTION_REQUIRED]. *)
Lemma C1_balance_failure_skips_action_required :
  Sol.allowUserInteraction SolanaExamples.brokeWorld = false
  /\ Sol.carriedTxHash (Sol.sendProcess SolanaExamples.brokeWorld SolanaExamples.swapStep)
     = None
  /\ truthy (Sol.payload SolanaExamples.swapStep) = true
  /\ fst (Sol.executeStep SolanaExamples.brokeWorld SolanaExamples.swapStep)
     = Throw SolanaExamples.insufficientFunds
  /\ existsb (Sol.sets_status ACTION_REQUIRED)
       (Sol.trace (snd (Sol.executeStep SolanaExamples.brokeWorld SolanaExamples.swapStep)))
     = false.
Proof. repeat split; evaluated. Qed.

(** C1 (amended): with interactive continuation disabled, on a step whose
    send-phase Process carries no transaction hash and is not already [DONE],
    once the balance check has passed and the payload is present (Solana: in
    the step after reconciliation; EVM: in the answer of the quote service),
    the executor puts the Process in [ACTION_REQUIRED] as its last ledger
    call and returns, without a send call and without putting any Process in
    [PENDING]. *)
Theorem C1_halts_at_action_required :
  (forall w s0 o,
      Sol.allowUserInteraction w = false ->
      Sol.carriedTxHash (Sol.sendProcess w s0) = None ->
      Sol.alreadyDone (Sol.sendProcess w s0) = false ->
      In (Sol.CallCheckBalance o (inr tt)) (Sol.trace (snd (Sol.executeStep w s0))) ->
      truthy (Sol.payload (Sol.step (snd (Sol.executeStep w s0)))) = true ->
      fst (Sol.executeStep w s0) = Ok (Sol.step (snd (Sol.executeStep w s0)))
      /\ option_map Sol.status
           (Sol.processOf (Sol.currentProcessType w s0)
              (Sol.step (snd (Sol.executeStep w s0))))
         = Some ACTION_REQUIRED
      /\ (exists pre,
             Sol.trace (snd (Sol.executeStep w s0))
             = (pre ++ [Sol.LedgerUpdateProcess (Sol.currentProcessType w s0)
                          ACTION_REQUIRED Sol.noPatch])%list)
      /\ existsb Sol.is_send (Sol.trace (snd (Sol.executeStep w s0))) = false
      /\ existsb (Sol.sets_status PENDING) (Sol.trace (snd (Sol.executeStep w s0)))
         = false)
  /\ (forall w s0 q req,
         Evm.shouldContinue w = false ->
         Evm.carriedTxHash (Evm.processOf Evm.crossProcess s0) = None ->
         In (Evm.CallGetStepTransaction (inr q)) (Evm.trace (snd (Evm.execute w s0))) ->
         Evm.transactionRequest q = Some req ->
         fst (Evm.execute w s0)
         = Ok (Evm.initExecutionObject (Evm.step (snd (Evm.execute w s0))))
         /\ option_map Evm.status
              (Evm.processOf Evm.crossProcess (Evm.step (snd (Evm.execute w s0))))
            = Some ACTION_REQUIRED
         /\ (exists pre,
                Evm.trace (snd (Evm.execute w s0))
                = (pre ++ [Evm.LedgerUpdateProcess Evm.crossProcess ACTION_REQUIRED
                             Evm.noPatch])%list)
         /\ existsb Evm.is_send (Evm.trace (snd (Evm.execute w s0))) = false
         /\ existsb (Evm.sets_status PENDING) (Evm.trace (snd (Evm.execute w s0)))
            = false).
Proof.
  split.
  - intros w s0 o Hq Hh Hd Hb Hp.
    destruct (SolanaFacts.sol_halt w s0 Hq Hh Hd) as (Hsend & Hpen & Hhalt).
    destruct (Hhalt o Hb Hp) as (Hok & Hst & Hlast).
    exact (conj Hok (conj Hst (conj Hlast (conj Hsend Hpen)))).
  - intros w s0 q req Hq Hh Hin Hreq.
    destruct (MultichainFacts.evm_halt w s0 Hq Hh) as (Hsend & Hhalt).
    destruct (Hhalt q req Hin Hreq) as (Hok & Hst & Hpen & Hlast).
    exact (conj Hok (conj Hst (conj Hlast (conj Hsend Hpen)))).
Qed.

Lemma C1_halts_at_action_required_witness :
  (Sol.allowUserInteraction SolanaExamples.quietWorld = false
   /\ Sol.carriedTxHash (Sol.sendProcess SolanaExamples.quietWorld SolanaExamples.swapStep)
      = None
   /\ option_map Sol.status
        (Sol.processOf (Sol.currentProcessType SolanaExamples.quietWorld SolanaExamples.swapStep)
           (Sol.step (snd (Sol.executeStep SolanaExamples.quietWorld SolanaExamples.swapStep))))
      = Some ACTION_REQUIRED
   /\ existsb Sol.is_send
        (Sol.trace (snd (Sol.executeStep SolanaExamples.quietWorld SolanaExamples.swapStep)))
      = false)
  /\ (Evm.shouldContinue MultichainExamples.quietWorld = false
      /\ Evm.carriedTxHash (Evm.processOf Evm.crossProcess MultichainExamples.tokenStep)
         = None
      /\ option_map Evm.status
           (Evm.processOf Evm.crossProcess
              (Evm.step (snd (Evm.execute MultichainExamples.quietWorld
                                MultichainExamples.tokenStep))))
         = Some ACTION_REQUIRED
      /\ existsb Evm.is_send
           (Evm.trace (snd (Evm.execute MultichainExamples.quietWorld
                              MultichainExamples.tokenStep)))
         = false).
Proof.
  split.
  - assert (Hb : In (Sol.CallCheckBalance "wallet" (inr tt))
                   (Sol.trace (snd (Sol.executeStep SolanaExamples.quietWorld
                                      SolanaExamples.swapStep)))) by occurs.
    destruct (proj1 C1_halts_at_action_required SolanaExamples.quietWorld
                SolanaExamples.swapStep "wallet" eq_refl eq_refl eq_refl Hb)
      as (_ & Hst & _ & Hsend & _); [evaluated|].
    exact (conj eq_refl (conj eq_refl (conj Hst Hsend))).
  - assert (Hq : In (Evm.CallGetStepTransaction (inr MultichainExamples.quoted))
                   (Evm.trace (snd (Evm.execute MultichainExamples.quietWorld
                                      MultichainExamples.tokenStep)))) by occurs.
    destruct (proj2 C1_halts_at_action_required MultichainExamples.quietWorld
                MultichainExamples.tokenStep MultichainExamples.quoted
                (Evm.mkTransactionRequest "0xdata") eq_refl eq_refl Hq eq_refl)
      as (_ & Hst & _ & Hsend & _).
    exact (conj eq_refl (conj eq_refl (conj Hst Hsend))).
Defined.

(** ** C2: resuming a broadcast transaction *)

(** C2, as stated, fails: on a bridge step whose sending Process carries a
    transaction hash and is already [DONE], the executor does not await
    confirmation of that hash; it goes on to the receiving side. *)
Lemma C2_done_process_is_not_confirmed :
  Sol.carriedTxHash
    (Sol.sendProcess SolanaExamples.interactiveWorld SolanaExamples.sentBridgeStep)
  = Some "sig0"
  /\ existsb Sol.is_confirmation
       (Sol.trace (snd (Sol.executeStep SolanaExamples.interactiveWorld
                          SolanaExamples.sentBridgeStep)))
     = false
  /\ existsb Sol.is_receiving_wait
       (Sol.trace (snd (Sol.executeStep SolanaExamples.interactiveWorld
                          SolanaExamples.sentBridgeStep)))
     = true.
Proof. repeat split; evaluated. Qed.

(** C2 (amended): on a step whose send-phase Process carries a transaction
    hash [h] at invocation, the executor makes no balance check, no quote
    reconciliation call and no send call (EVM: no allowance check either).
    Solana: unless that Process is already [DONE], it obtains the RPC
    connection and its next call is the confirmation of [h]; when the Process
    is already [DONE] it makes no confirmation call and goes on to the status
    waiter with [h].  EVM: its first call loads the transaction of [h], and
    waits for it when the provider knows it. *)
Theorem C2_resume_skips_preparation :
  (forall w s0 h,
      Sol.carriedTxHash (Sol.sendProcess w s0) = Some h ->
      existsb Sol.is_balance_check (Sol.trace (snd (Sol.executeStep w s0))) = false
      /\ existsb Sol.is_reconciliation (Sol.trace (snd (Sol.executeStep w s0))) = false
      /\ existsb Sol.is_send (Sol.trace (snd (Sol.executeStep w s0))) = false
      /\ (Sol.alreadyDone (Sol.sendProcess w s0) = false ->
          exists c rest,
            Sol.trace (snd (Sol.executeStep w s0))
            = Sol.LedgerFindOrCreateProcess (Sol.currentProcessType w s0) None
              :: Sol.CallGetSolanaConnection c :: rest
            /\ (c = inr tt ->
                exists res rest', rest = Sol.CallConfirmTransaction h res :: rest'))
      /\ (Sol.alreadyDone (Sol.sendProcess w s0) = true ->
          existsb Sol.is_confirmation (Sol.trace (snd (Sol.executeStep w s0))) = false
          /\ exists res rest,
              Sol.trace (snd (Sol.executeStep w s0))
              = (Sol.LedgerFindOrCreateProcess (Sol.currentProcessType w s0) None
                 :: Sol.receivingOpening (Sol.isBridgeExecution w s0)
                 ++ Sol.CallWaitForReceivingTransaction h
                      (if Sol.isBridgeExecution w s0 then Sol.RECEIVING_CHAIN
                       else Sol.currentProcessType w s0) res
                 :: rest)%list))
  /\ (forall w s0 h,
         Evm.carriedTxHash (Evm.processOf Evm.crossProcess s0) = Some h ->
         existsb Evm.is_allowance_check (Evm.trace (snd (Evm.execute w s0))) = false
         /\ existsb Evm.is_balance_check (Evm.trace (snd (Evm.execute w s0))) = false
         /\ existsb Evm.is_reconciliation (Evm.trace (snd (Evm.execute w s0))) = false
         /\ existsb Evm.is_send (Evm.trace (snd (Evm.execute w s0))) = false
         /\ exists res rest,
              Evm.trace (snd (Evm.execute w s0))
              = Evm.LedgerFindOrCreateProcess Evm.crossProcess
                :: Evm.CallGetTransaction (Some h) res :: rest
              /\ forall tx, res = inr (Some tx) ->
                   exists r' rest', rest = Evm.CallWait tx r' :: rest').
Proof.
  split.
  - intros w s0 h Hh. exact (SolanaFacts.sol_resume w s0 h Hh).
  - intros w s0 h Hh. exact (MultichainFacts.evm_resume w s0 h Hh).
Qed.

Lemma C2_resume_skips_preparation_witness :
  (Sol.carriedTxHash
     (Sol.sendProcess SolanaExamples.interactiveWorld SolanaExamples.pendingSwapStep)
   = Some "sig0"
   /\ existsb Sol.is_balance_check
        (Sol.trace (snd (Sol.executeStep SolanaExamples.interactiveWorld
                           SolanaExamples.pendingSwapStep)))
      = false
   /\ existsb Sol.is_send
        (Sol.trace (snd (Sol.executeStep SolanaExamples.interactiveWorld
                           SolanaExamples.pendingSwapStep)))
      = false)
  /\ (Evm.carriedTxHash (Evm.processOf Evm.crossProcess MultichainExamples.sentStep)
      = Some "0xabc"
      /\ existsb Evm.is_balance_check
           (Evm.trace (snd (Evm.execute MultichainExamples.interactiveWorld
                              MultichainExamples.sentStep)))
         = false
      /\ existsb Evm.is_send
           (Evm.trace (snd (Evm.execute MultichainExamples.interactiveWorld
                              MultichainExamples.sentStep)))
         = false).
Proof.
  split.
  - destruct (proj1 C2_resume_skips_preparation SolanaExamples.interactiveWorld
                SolanaExamples.pendingSwapStep "sig0" eq_refl)
      as (Hb & _ & Hs & _).
    exact (conj eq_refl (conj Hb Hs)).
  - destruct (proj2 C2_resume_skips_preparation MultichainExamples.interactiveWorld
                MultichainExamples.sentStep "0xabc" eq_refl)
      as (_ & Hb & _ & Hs & _).
    exact (conj eq_refl (conj Hb Hs)).
Defined.

(** ** C3: a replaced transaction *)

(** C3, as stated, fails: when the wait is answered with a replaced
    transaction, the Process ends [DONE] and no confirmation call was made on
    the replacement. *)
Lemma C3_replacement_is_not_awaited :
  In (Evm.CallWait (Evm.mkTransactionResponse "0xabc")
        (inl (MultichainExamples.replacedBy "0xnew")))
     (Evm.trace (snd (Evm.execute MultichainExamples.repricedWorld
                        MultichainExamples.tokenStep)))
  /\ Evm.replaced (MultichainExamples.replacedBy "0xnew") = Some "0xnew"
  /\ existsb (Evm.confirms "0xnew")
       (Evm.trace (snd (Evm.execute MultichainExamples.repricedWorld
                          MultichainExamples.tokenStep)))
     = false
  /\ option_map Evm.status
       (Evm.processOf Evm.crossProcess
          (Evm.step (snd (Evm.execute MultichainExamples.repricedWorld
                            MultichainExamples.tokenStep))))
     = Some DONE.
Proof. split; [occurs|]. repeat split; evaluated. Qed.

(** C3 (amended): when the broadcast or the confirmation wait is answered
    with a [TRANSACTION_REPLACED] error that carries a replacement, the
    executor does not treat it as a failure (nothing was put in [FAILED] up
    to there): it writes the replacement hash and link on the send-phase
    Process with status [PENDING], and with its next ledger call marks that
    Process [DONE]; it makes no further confirmation call, and goes on to the
    destination chain with the replacement hash. *)
Theorem C3_replaced_transaction_is_adopted (w : Evm.World) (s0 : Evm.Step)
  (e : Thrown) (h' : string) (ev : Evm.Event) :
  In ev (Evm.trace (snd (Evm.execute w s0))) ->
  Evm.broadcastOrWaitFailed e ev ->
  Evm.replaced e = Some h' ->
  option_map Evm.status
    (Evm.processOf Evm.crossProcess (Evm.step (snd (Evm.execute w s0)))) = Some DONE
  /\ option_map Evm.txHash
       (Evm.processOf Evm.crossProcess (Evm.step (snd (Evm.execute w s0))))
     = Some (Some h')
  /\ exists pre res rest,
       Evm.trace (snd (Evm.execute w s0))
       = (pre ++ [ev;
                  Evm.LedgerUpdateProcess Evm.crossProcess PENDING
                    (Evm.hashPatch (Evm.fromChainOf w s0) h');
                  Evm.LedgerUpdateProcess Evm.crossProcess DONE Evm.startedPatch;
                  Evm.LedgerFindOrCreateProcess Evm.waitForTxProcess;
                  Evm.CallWaitForDestinationChainReceipt (Some h')
                    (chain_id (Evm.toChainOf w s0)) res]
          ++ rest)%list
       /\ existsb (Evm.sets_status FAILED) pre = false
       /\ existsb Evm.is_confirmation rest = false.
Proof. exact (MultichainFacts.evm_replaced w s0 e h' ev). Qed.

Lemma C3_replaced_transaction_is_adopted_witness :
  Evm.replaced (MultichainExamples.replacedBy "0xnew") = Some "0xnew"
  /\ option_map Evm.txHash
       (Evm.processOf Evm.crossProcess
          (Evm.step (snd (Evm.execute MultichainExamples.repricedWorld
                            MultichainExamples.tokenStep))))
     = Some (Some "0xnew").
Proof.
  split; [reflexivity|].
  refine (proj1 (proj2 (C3_replaced_transaction_is_adopted
                          MultichainExamples.repricedWorld MultichainExamples.tokenStep
                          (MultichainExamples.replacedBy "0xnew") "0xnew"
                          (Evm.CallWait (Evm.mkTransactionResponse "0xabc")
                             (inl (MultichainExamples.replacedBy "0xnew")))
                          _ _ eq_refl))).
  - occurs.
  - left. exists (Evm.mkTransactionResponse "0xabc"). reflexivity.
Defined.

(** ** C4: what follows the source-chain confirmation *)

(** C4, as stated, fails: on a single-chain step whose broadcast and
    confirmation succeed, the status waiter is invoked. *)
Lemma C4_single_chain_run_calls_the_waiter :
  Sol.isBridgeExecution SolanaExamples.interactiveWorld SolanaExamples.swapStep = false
  /\ Sol.statusOf
       (Sol.step (snd (Sol.executeStep SolanaExamples.interactiveWorld
                         SolanaExamples.swapStep)))
     = DONE
  /\ existsb Sol.is_receiving_wait
       (Sol.trace (snd (Sol.executeStep SolanaExamples.interactiveWorld
                          SolanaExamples.swapStep)))
     = true.
Proof. repeat split; evaluated. Qed.

(** C4 (amended): once the source-chain confirmation of the hash [h] has
    returned without error, nothing having been marked [DONE] before, the
    executor calls the status waiter with [h], on a single-chain step too.
    On a single-chain step it creates no [RECEIVING_CHAIN] Process and calls
    the waiter for the [SWAP] Process, with no ledger call in between; on a
    cross-chain step it first marks the [CROSS_CHAIN] Process [DONE] and
    opens a [RECEIVING_CHAIN] Process in [PENDING], for which the waiter is
    called.  The Process the waiter is called for and the Execution end
    [DONE] when the waiter resolves, and [FAILED], with the waiter's rejection
    thrown, when it rejects. *)
Theorem C4_confirmation_is_followed_by_the_waiter (w : Sol.World) (s0 : Sol.Step)
  (h : string) (sr : Sol.SignatureResult) :
  In (Sol.CallConfirmTransaction h (inr sr)) (Sol.trace (snd (Sol.executeStep w s0))) ->
  truthy (Sol.err sr) = false ->
  h <> "" ->
  exists pre res post,
    Sol.trace (snd (Sol.executeStep w s0))
    = (pre ++ Sol.CallConfirmTransaction h (inr sr)
        :: (if Sol.isBridgeExecution w s0
            then [Sol.LedgerUpdateProcess Sol.CROSS_CHAIN DONE Sol.noPatch;
                  Sol.LedgerFindOrCreateProcess Sol.RECEIVING_CHAIN (Some PENDING)]
            else [])
        ++ Sol.CallWaitForReceivingTransaction h
             (if Sol.isBridgeExecution w s0 then Sol.RECEIVING_CHAIN else Sol.SWAP) res
        :: post)%list
    /\ existsb (Sol.sets_status DONE) pre = false
    /\ match res with
       | inr _ =>
           fst (Sol.executeStep w s0) = Ok (Sol.step (snd (Sol.executeStep w s0)))
           /\ option_map Sol.status
                (Sol.processOf
                   (if Sol.isBridgeExecution w s0 then Sol.RECEIVING_CHAIN else Sol.SWAP)
                   (Sol.step (snd (Sol.executeStep w s0)))) = Some DONE
           /\ Sol.statusOf (Sol.step (snd (Sol.executeStep w s0))) = DONE
       | inl e =>
           fst (Sol.executeStep w s0) = Throw e
           /\ option_map Sol.status
                (Sol.processOf
                   (if Sol.isBridgeExecution w s0 then Sol.RECEIVING_CHAIN else Sol.SWAP)
                   (Sol.step (snd (Sol.executeStep w s0)))) = Some FAILED
           /\ Sol.statusOf (Sol.step (snd (Sol.executeStep w s0))) = FAILED
       end
    /\ (if Sol.isBridgeExecution w s0
        then option_map Sol.status
               (Sol.processOf Sol.CROSS_CHAIN (Sol.step (snd (Sol.executeStep w s0))))
             = Some DONE
        else existsb Sol.creates_receiving (Sol.trace (snd (Sol.executeStep w s0)))
             = false).
Proof. exact (SolanaFacts.sol_confirmed w s0 h sr). Qed.

Lemma C4_confirmation_is_followed_by_the_waiter_witness :
  In (Sol.CallConfirmTransaction "sig1" (inr (Sol.mkSignatureResult None)))
     (Sol.trace (snd (Sol.executeStep SolanaExamples.interactiveWorld
                        SolanaExamples.swapStep)))
  /\ exists pre res post,
       Sol.trace (snd (Sol.executeStep SolanaExamples.interactiveWorld
                         SolanaExamples.swapStep))
       = (pre ++ Sol.CallConfirmTransaction "sig1" (inr (Sol.mkSignatureResult None))
           :: (if Sol.isBridgeExecution SolanaExamples.interactiveWorld
                    SolanaExamples.swapStep
               then [Sol.LedgerUpdateProcess Sol.CROSS_CHAIN DONE Sol.noPatch;
                     Sol.LedgerFindOrCreateProcess Sol.RECEIVING_CHAIN (Some PENDING)]
               else [])
           ++ Sol.CallWaitForReceivingTransaction "sig1"
                (if Sol.isBridgeExecution SolanaExamples.interactiveWorld
                      SolanaExamples.swapStep
                 then Sol.RECEIVING_CHAIN else Sol.SWAP) res
           :: post)%list.
Proof.
  assert (Hc : In (Sol.CallConfirmTransaction "sig1" (inr (Sol.mkSignatureResult None)))
                 (Sol.trace (snd (Sol.executeStep SolanaExamples.interactiveWorld
                                    SolanaExamples.swapStep)))) by occurs.
  split; [exact Hc|].
  destruct (C4_confirmation_is_followed_by_the_waiter SolanaExamples.interactiveWorld
              SolanaExamples.swapStep "sig1" (Sol.mkSignatureResult None) Hc eq_refl)
    as (pre & res & post & Htr & _); [discriminate|].
  exists pre, res, post. exact Htr.
Defined.

(** ** C5: a missing payload *)

(** C5, as stated, fails: when the customization hook returns a result
    without a payload (no [data] key), the executor goes on to the send call,
    with the payload of the step. *)
Lemma C5_hook_result_without_payload_is_sent :
  In (Sol.CallHook (inr (Sol.mkTransactionParameters None)))
     (Sol.trace (snd (Sol.executeStep SolanaExamples.hookWithoutDataWorld
                        SolanaExamples.swapStep)))
  /\ existsb Sol.is_send
       (Sol.trace (snd (Sol.executeStep SolanaExamples.hookWithoutDataWorld
                          SolanaExamples.swapStep)))
     = true
  /\ Sol.statusOf
       (Sol.step (snd (Sol.executeStep SolanaExamples.hookWithoutDataWorld
                         SolanaExamples.swapStep)))
     = DONE.
Proof. split; [occurs|]. repeat split; evaluated. Qed.

(** C5 (amended).  Solana: when the balance check has passed, the quote
    reconciliation (if the step needed one) has answered, and the payload of
    the step is absent or empty, the executor fails the phase with the
    classified [TransactionUnprepared] error, without a send call and
    without reaching [ACTION_REQUIRED]; when the customization hook returns a
    result whose [data] key is present and holds nothing, it fails the phase
    the same way, without a send call; when the hook returns a result that has
    no [data] key, the payload of the step is kept and handed on to the
    signing agent.  EVM: when the quote service answers without a transaction
    request, the executor fails the phase with the classified error of the
    string ['Unable to prepare Transaction'], without a send call and
    without reaching [ACTION_REQUIRED]. *)
Theorem C5_missing_payload_fails_before_send :
  (forall w s0 o,
      In (Sol.CallCheckBalance o (inr tt)) (Sol.trace (snd (Sol.executeStep w s0))) ->
      (Sol.transactionRequest s0 <> None
       \/ exists c, In (Sol.CallStepComparison (inr c))
                      (Sol.trace (snd (Sol.executeStep w s0)))) ->
      truthy (Sol.payload (Sol.step (snd (Sol.executeStep w s0)))) = false ->
      Sol.failedUnprepared w (Sol.executeStep w s0)
      /\ existsb (Sol.sets_status ACTION_REQUIRED)
           (Sol.trace (snd (Sol.executeStep w s0))) = false)
  /\ (forall w s0 c v,
         In (Sol.CallHook (inr c)) (Sol.trace (snd (Sol.executeStep w s0))) ->
         Sol.tp_data c = Some v ->
         truthy v = false ->
         Sol.failedUnprepared w (Sol.executeStep w s0))
  /\ (forall w s0 c,
         In (Sol.CallHook (inr c)) (Sol.trace (snd (Sol.executeStep w s0))) ->
         Sol.tp_data c = None ->
         exists d,
           truthy_value (Sol.payload (Sol.step (snd (Sol.executeStep w s0)))) = Some d
           /\ In (Sol.CallDeserialize d) (Sol.trace (snd (Sol.executeStep w s0))))
  /\ (forall w s0 q,
         In (Evm.CallGetStepTransaction (inr q)) (Evm.trace (snd (Evm.execute w s0))) ->
         Evm.transactionRequest q = None ->
         (exists s' p',
             fst (Evm.execute w s0)
             = Throw (ThrowObject
                        (Evm.parseWalletError w
                           (ThrowString "Unable to prepare Transaction") s' p')))
         /\ Evm.recordedFailure Evm.crossProcess (snd (Evm.execute w s0))
         /\ existsb Evm.is_send (Evm.trace (snd (Evm.execute w s0))) = false
         /\ existsb (Evm.sets_status ACTION_REQUIRED) (Evm.trace (snd (Evm.execute w s0)))
            = false).
Proof.
  split; [|split; [|split]].
  - intros w s0 o. exact (SolanaFacts.sol_unprepared w s0 o).
  - intros w s0 c v. exact (SolanaFacts.sol_hook_unprepared w s0 c v).
  - intros w s0 c. exact (SolanaFacts.sol_hook_omits_payload w s0 c).
  - intros w s0 q. exact (MultichainFacts.evm_unprepared w s0 q).
Qed.

Lemma C5_missing_payload_fails_before_send_witness :
  (truthy (Sol.payload
             (Sol.step (snd (Sol.executeStep SolanaExamples.interactiveWorld
                               SolanaExamples.emptyStep)))) = false
   /\ Sol.failedUnprepared SolanaExamples.interactiveWorld
        (Sol.executeStep SolanaExamples.interactiveWorld SolanaExamples.emptyStep))
  /\ (In (Sol.CallHook (inr (Sol.mkTransactionParameters (Some None))))
        (Sol.trace (snd (Sol.executeStep SolanaExamples.hookWithUndefinedDataWorld
                           SolanaExamples.swapStep)))
      /\ Sol.failedUnprepared SolanaExamples.hookWithUndefinedDataWorld
           (Sol.executeStep SolanaExamples.hookWithUndefinedDataWorld
              SolanaExamples.swapStep))
  /\ (In (Sol.CallHook (inr (Sol.mkTransactionParameters None)))
        (Sol.trace (snd (Sol.executeStep SolanaExamples.hookWithoutDataWorld
                           SolanaExamples.swapStep)))
      /\ exists d,
           In (Sol.CallDeserialize d)
             (Sol.trace (snd (Sol.executeStep SolanaExamples.hookWithoutDataWorld
                                SolanaExamples.swapStep))))
  /\ (In (Evm.CallGetStepTransaction (inr MultichainExamples.unquoted))
        (Evm.trace (snd (Evm.execute MultichainExamples.unquotedWorld
                           MultichainExamples.tokenStep)))
      /\ existsb Evm.is_send
           (Evm.trace (snd (Evm.execute MultichainExamples.unquotedWorld
                              MultichainExamples.tokenStep)))
         = false).
Proof.
  destruct C5_missing_payload_fails_before_send as (Hstep & Hempty & Hkept & Hevm).
  split; [|split; [|split]].
  - split; [evaluated|].
    refine (proj1 (Hstep SolanaExamples.interactiveWorld SolanaExamples.emptyStep
                     "wallet" _ _ _)).
    + occurs.
    + left. discriminate.
    + evaluated.
  - assert (Hh : In (Sol.CallHook (inr (Sol.mkTransactionParameters (Some None))))
                   (Sol.trace (snd (Sol.executeStep
                                      SolanaExamples.hookWithUndefinedDataWorld
                                      SolanaExamples.swapStep)))) by occurs.
    split; [exact Hh|].
    exact (Hempty SolanaExamples.hookWithUndefinedDataWorld SolanaExamples.swapStep
             (Sol.mkTransactionParameters (Some None)) None Hh eq_refl eq_refl).
  - assert (Hh : In (Sol.CallHook (inr (Sol.mkTransactionParameters None)))
                   (Sol.trace (snd (Sol.executeStep SolanaExamples.hookWithoutDataWorld
                                      SolanaExamples.swapStep)))) by occurs.
    split; [exact Hh|].
    destruct (Hkept SolanaExamples.hookWithoutDataWorld SolanaExamples.swapStep
                (Sol.mkTransactionParameters None) Hh eq_refl) as (d & _ & Hd).
    exists d. exact Hd.
  - assert (Hq : In (Evm.CallGetStepTransaction (inr MultichainExamples.unquoted))
                   (Evm.trace (snd (Evm.execute MultichainExamples.unquotedWorld
                                      MultichainExamples.tokenStep)))) by occurs.
    split; [exact Hq|].
    exact (proj1 (proj2 (proj2 (Hevm MultichainExamples.unquotedWorld
                                  MultichainExamples.tokenStep
                                  MultichainExamples.unquoted Hq eq_refl)))).
Defined.

(** ** C6: failures are recorded before they are propagated *)

(** C6 fails on the EVM executor: the receipt is parsed outside both [try]
    blocks (lines 142-147).  When the destination receipt arrives and cannot
    be parsed, [execute] throws while the Execution is still [PENDING], the
    receiving Process is as it was created, and no Process was put in
    [FAILED]. *)
Theorem C6_receipt_failure_is_not_recorded :
  fst (Evm.execute MultichainExamples.malformedReceiptWorld MultichainExamples.tokenStep)
  = Throw MultichainExamples.malformedReceipt
  /\ Evm.statusOf
       (Evm.step (snd (Evm.execute MultichainExamples.malformedReceiptWorld
                         MultichainExamples.tokenStep)))
     = PENDING
  /\ option_map Evm.status
       (Evm.processOf Evm.waitForTxProcess
          (Evm.step (snd (Evm.execute MultichainExamples.malformedReceiptWorld
                            MultichainExamples.tokenStep))))
     = Some STARTED
  /\ option_map Evm.status
       (Evm.processOf Evm.crossProcess
          (Evm.step (snd (Evm.execute MultichainExamples.malformedReceiptWorld
                            MultichainExamples.tokenStep))))
     = Some DONE
  /\ existsb (Evm.sets_status FAILED)
       (Evm.trace (snd (Evm.execute MultichainExamples.malformedReceiptWorld
                          MultichainExamples.tokenStep)))
     = false.
Proof. repeat split; evaluated. Qed.

(** ** C7: a failed balance check *)

(** C7: when the balance check rejects, the executor records the classified
    rejection on the send-phase Process with status [FAILED], marks the
    Execution [FAILED] and throws the classified error; these two ledger
    calls follow the balance check at once and end the run, which holds no
    send call and exactly one balance check.  (EVM: for a rejection that is
    a value, and not a replaced-transaction notice.) *)
Theorem C7_balance_failure_fails_the_phase :
  (forall w s0 o e,
      In (Sol.CallCheckBalance o (inl e)) (Sol.trace (snd (Sol.executeStep w s0))) ->
      exists s' p' p pre,
        fst (Sol.executeStep w s0) = Throw (ThrowObject (Sol.parseError w e s' p'))
        /\ Sol.processOf (Sol.currentProcessType w s0)
             (Sol.step (snd (Sol.executeStep w s0))) = Some p
        /\ Sol.status p = FAILED
        /\ Sol.error p = Some (Sol.errorTriple (Sol.parseError w e s' p'))
        /\ Sol.statusOf (Sol.step (snd (Sol.executeStep w s0))) = FAILED
        /\ existsb Sol.is_send (Sol.trace (snd (Sol.executeStep w s0))) = false
        /\ List.length (filter Sol.is_balance_check
                          (Sol.trace (snd (Sol.executeStep w s0)))) = 1%nat
        /\ Sol.trace (snd (Sol.executeStep w s0))
           = (pre ++ [Sol.CallCheckBalance o (inl e);
                      Sol.LedgerUpdateProcess (Sol.currentProcessType w s0) FAILED
                        (Sol.mkProcessPatch None None None None
                           (Some (Sol.errorTriple (Sol.parseError w e s' p'))));
                      Sol.LedgerUpdateExecution FAILED])%list)
  /\ (forall w s0 e,
         In (Evm.CallBalanceCheck (inl e)) (Evm.trace (snd (Evm.execute w s0))) ->
         isUndefined e = false ->
         Evm.replaced e = None ->
         exists s' p' pre,
           fst (Evm.execute w s0) = Throw (ThrowObject (Evm.parseWalletError w e s' p'))
           /\ Evm.processOf Evm.crossProcess (Evm.step (snd (Evm.execute w s0)))
              = Some (Evm.applyPatch FAILED
                        (Evm.errorPatch (Evm.parseWalletError w e s' p'))
                        (Evm.entryProcess s0))
           /\ Evm.statusOf (Evm.step (snd (Evm.execute w s0))) = FAILED
           /\ existsb Evm.is_send (Evm.trace (snd (Evm.execute w s0))) = false
           /\ List.length (filter Evm.is_balance_check
                             (Evm.trace (snd (Evm.execute w s0)))) = 1%nat
           /\ Evm.trace (snd (Evm.execute w s0))
              = (pre ++ [Evm.CallBalanceCheck (inl e);
                         Evm.LedgerUpdateProcess Evm.crossProcess FAILED
                           (Evm.errorPatch (Evm.parseWalletError w e s' p'));
                         Evm.LedgerUpdateExecution FAILED])%list).
Proof.
  split.
  - intros w s0 o e. exact (SolanaFacts.sol_balance_failure w s0 o e).
  - intros w s0 e. exact (MultichainFacts.evm_balance_failure w s0 e).
Qed.

Lemma C7_balance_failure_fails_the_phase_witness :
  (In (Sol.CallCheckBalance "wallet" (inl SolanaExamples.insufficientFunds))
      (Sol.trace (snd (Sol.executeStep SolanaExamples.brokeWorld SolanaExamples.swapStep)))
   /\ option_map Sol.error
        (Sol.processOf Sol.SWAP
           (Sol.step (snd (Sol.executeStep SolanaExamples.brokeWorld
                             SolanaExamples.swapStep))))
      = Some (Some (Sol.mkProcessError "The balance is too low." None
                      (Some (CodeLiFi InsufficientFunds))))
   /\ exists s' p',
        fst (Sol.executeStep SolanaExamples.brokeWorld SolanaExamples.swapStep)
        = Throw (ThrowObject
                   (Sol.parseError SolanaExamples.brokeWorld
                      SolanaExamples.insufficientFunds s' p')))
  /\ (In (Evm.CallBalanceCheck (inl MultichainExamples.insufficientFunds))
        (Evm.trace (snd (Evm.execute MultichainExamples.brokeWorld
                           MultichainExamples.tokenStep)))
      /\ isUndefined MultichainExamples.insufficientFunds = false
      /\ Evm.replaced MultichainExamples.insufficientFunds = None
      /\ option_map Evm.errorCode
           (Evm.processOf Evm.crossProcess
              (Evm.step (snd (Evm.execute MultichainExamples.brokeWorld
                                MultichainExamples.tokenStep))))
         = Some (Some (CodeLiFi InsufficientFunds))
      /\ exists s' p',
           fst (Evm.execute MultichainExamples.brokeWorld MultichainExamples.tokenStep)
           = Throw (ThrowObject
                      (Evm.parseWalletError MultichainExamples.brokeWorld
                         MultichainExamples.insufficientFunds s' p'))).
Proof.
  split.
  - assert (Hb : In (Sol.CallCheckBalance "wallet" (inl SolanaExamples.insufficientFunds))
                   (Sol.trace (snd (Sol.executeStep SolanaExamples.brokeWorld
                                      SolanaExamples.swapStep)))) by occurs.
    split; [exact Hb|]. split; [evaluated|].
    destruct (proj1 C7_balance_failure_fails_the_phase SolanaExamples.brokeWorld
                SolanaExamples.swapStep "wallet" SolanaExamples.insufficientFunds Hb)
      as (s' & p' & _ & _ & Hthrow & _).
    exists s', p'. exact Hthrow.
  - assert (Hb : In (Evm.CallBalanceCheck (inl MultichainExamples.insufficientFunds))
                   (Evm.trace (snd (Evm.execute MultichainExamples.brokeWorld
                                      MultichainExamples.tokenStep)))) by occurs.
    split; [exact Hb|]. split; [reflexivity|]. split; [reflexivity|].
    split; [evaluated|].
    destruct (proj2 C7_balance_failure_fails_the_phase MultichainExamples.brokeWorld
                MultichainExamples.tokenStep MultichainExamples.insufficientFunds
                Hb eq_refl eq_refl)
      as (s' & p' & _ & Hthrow & _).
    exists s', p'. exact Hthrow.
Defined.

(** ** C8: the execution record survives the replacement of the step *)

(** C8: when the step has no transaction request, the quote service answers
    with an updated step and the comparison with a step [c], the step the
    executor goes on with is [c] with the execution record of the step it
    replaces: the [execution] field after the replacement equals the one
    before it. *)
Theorem C8_replacement_keeps_execution (w : Sol.World) (f : Sol.Frame)
  (u c : Sol.Step) :
  Sol.transactionRequest (Sol.step f) = None ->
  Sol.getStepTransaction w (Sol.step f) = inr u ->
  Sol.stepComparison w (Sol.step f) u = inr c ->
  fst (Sol.reconcile w f) = Ok tt
  /\ Sol.step (snd (Sol.reconcile w f))
     = Sol.mkStep (Sol.id c) (Sol.action c) (Sol.estimate c) (Sol.transactionRequest c)
         (Sol.execution (Sol.step f))
  /\ Sol.execution (Sol.step (snd (Sol.reconcile w f))) = Sol.execution (Sol.step f).
Proof.
  intros Hnone Hu Hc.
  destruct (SolanaFacts.reconcile_replaces w f u c Hnone Hu Hc) as [Hok Hstep].
  split; [exact Hok|]. split; [exact Hstep|].
  exact (proj1 (SolanaFacts.reconcile_keeps_execution w f)).
Qed.

Lemma C8_replacement_keeps_execution_witness :
  Sol.transactionRequest
    (Sol.step (Sol.entryFrame SolanaExamples.interactiveWorld SolanaExamples.bareStep))
  = None
  /\ Sol.estimate
       (Sol.step (snd (Sol.reconcile SolanaExamples.interactiveWorld
                         (Sol.entryFrame SolanaExamples.interactiveWorld
                            SolanaExamples.bareStep))))
     = "estimate-2"
  /\ Sol.execution
       (Sol.step (snd (Sol.reconcile SolanaExamples.interactiveWorld
                         (Sol.entryFrame SolanaExamples.interactiveWorld
                            SolanaExamples.bareStep))))
     = Sol.execution
         (Sol.step (Sol.entryFrame SolanaExamples.interactiveWorld
                      SolanaExamples.bareStep)).
Proof.
  split; [reflexivity|]. split; [evaluated|].
  exact (proj2 (proj2 (C8_replacement_keeps_execution SolanaExamples.interactiveWorld
                         (Sol.entryFrame SolanaExamples.interactiveWorld
                            SolanaExamples.bareStep)
                         (SolanaExamples.quote
                            (Sol.step (Sol.entryFrame SolanaExamples.interactiveWorld
                                         SolanaExamples.bareStep)))
                         (SolanaExamples.quote
                            (Sol.step (Sol.entryFrame SolanaExamples.interactiveWorld
                                         SolanaExamples.bareStep)))
                         eq_refl eq_refl eq_refl))).
Defined.

(** ** C9: invoking the executor on a finished step *)

(** C9, as stated, fails: invoked on a step whose Execution is [DONE], with a
    status waiter that rejects, the executor leaves the Execution and the
    Process [FAILED]; invoked on a step whose Execution is [FAILED], it runs
    the send phase again and leaves the Execution and the Process [DONE]. *)
Lemma C9_done_execution_is_rewritten :
  Sol.statusOf SolanaExamples.finishedSwapStep = DONE
  /\ option_map Sol.status (Sol.processOf Sol.SWAP SolanaExamples.finishedSwapStep)
     = Some DONE
  /\ fst (Sol.executeStep SolanaExamples.statusDownWorld SolanaExamples.finishedSwapStep)
     = Throw SolanaExamples.statusUnavailable
  /\ Sol.statusOf
       (Sol.step (snd (Sol.executeStep SolanaExamples.statusDownWorld
                         SolanaExamples.finishedSwapStep)))
     = FAILED
  /\ option_map Sol.status
       (Sol.processOf Sol.SWAP
          (Sol.step (snd (Sol.executeStep SolanaExamples.statusDownWorld
                            SolanaExamples.finishedSwapStep))))
     = Some FAILED
  /\ Sol.statusOf SolanaExamples.failedSwapStep = FAILED
  /\ option_map Sol.status (Sol.processOf Sol.SWAP SolanaExamples.failedSwapStep)
     = Some FAILED
  /\ Sol.statusOf
       (Sol.step (snd (Sol.executeStep SolanaExamples.interactiveWorld
                         SolanaExamples.failedSwapStep)))
     = DONE
  /\ option_map Sol.status
       (Sol.processOf Sol.SWAP
          (Sol.step (snd (Sol.executeStep SolanaExamples.interactiveWorld
                            SolanaExamples.failedSwapStep))))
     = Some DONE.
Proof. repeat split; evaluated. Qed.

(** C9 (amended): the executor has no guard on the Execution status, and
    rewrites an Execution that reached [DONE] or [FAILED].

    Every invocation, whatever the step it finds, ends with a ledger write:
    the send-phase Process set to [ACTION_REQUIRED] when it halts for want of
    user interaction, the Execution set to [DONE] when it returns otherwise,
    a Process and the Execution set to [FAILED] when it throws.

    When the send-phase Process is not [DONE] (as after a failed send phase)
    the send phase is entered again: the RPC connection is obtained, and a
    Process without a transaction hash is put back to [STARTED] and the
    balance check is made again.

    When the send-phase Process is [DONE] (guard of line 55) no balance
    check, quote reconciliation, send or confirmation is repeated, and the
    last ledger call writes the Execution status.  If that Process carries a
    transaction hash, the only call is the status waiter with that hash, for
    the [RECEIVING_CHAIN] Process on a cross-chain step and for the
    send-phase Process otherwise; when the waiter resolves, that Process is
    rewritten [DONE] with the substatus, substatus message, hash and link of
    the new answer and the Execution is rewritten [DONE] with its summary
    fields; when the waiter rejects, both are set [FAILED] and the rejection
    is thrown.  If the [DONE] Process carries no transaction hash, no
    collaborator is called, the Process of the receiving phase and the
    Execution are set [FAILED] and the error ['Transaction hash is
    undefined.'] is thrown. *)
Theorem C9_rerun_of_a_finished_step :
  (forall (w : Sol.World) (s0 : Sol.Step),
     (fst (Sol.executeStep w s0) = Ok (Sol.step (snd (Sol.executeStep w s0)))
      /\ Sol.allowUserInteraction w = false
      /\ option_map Sol.status
           (Sol.processOf (Sol.currentProcessType w s0)
              (Sol.step (snd (Sol.executeStep w s0))))
         = Some ACTION_REQUIRED
      /\ exists pre,
           Sol.trace (snd (Sol.executeStep w s0))
           = (pre ++ [Sol.LedgerUpdateProcess (Sol.currentProcessType w s0)
                        ACTION_REQUIRED Sol.noPatch])%list)
     \/ (fst (Sol.executeStep w s0) = Ok (Sol.step (snd (Sol.executeStep w s0)))
         /\ Sol.statusOf (Sol.step (snd (Sol.executeStep w s0))) = DONE
         /\ exists pre,
              Sol.trace (snd (Sol.executeStep w s0))
              = (pre ++ [Sol.LedgerUpdateExecution DONE])%list)
     \/ (exists e t pre pa,
           fst (Sol.executeStep w s0) = Throw e
           /\ Sol.recorded t FAILED (snd (Sol.executeStep w s0))
           /\ Sol.trace (snd (Sol.executeStep w s0))
              = (pre ++ [Sol.LedgerUpdateProcess t FAILED pa;
                         Sol.LedgerUpdateExecution FAILED])%list))
  /\ (forall (w : Sol.World) (s0 : Sol.Step),
        Sol.alreadyDone (Sol.sendProcess w s0) = false ->
        exists c rest,
          Sol.trace (snd (Sol.executeStep w s0))
          = Sol.LedgerFindOrCreateProcess (Sol.currentProcessType w s0) None
            :: Sol.CallGetSolanaConnection c :: rest
          /\ (c = inr tt ->
              Sol.carriedTxHash (Sol.sendProcess w s0) = None ->
              exists b rest',
                rest = Sol.LedgerUpdateProcess (Sol.currentProcessType w s0) STARTED
                         Sol.noPatch
                       :: Sol.CallCheckBalance (Sol.publicKey w) b :: rest'))
  /\ (forall (w : Sol.World) (s0 : Sol.Step),
        Sol.alreadyDone (Sol.sendProcess w s0) = true ->
        existsb Sol.is_balance_check (Sol.trace (snd (Sol.executeStep w s0))) = false
        /\ existsb Sol.is_reconciliation (Sol.trace (snd (Sol.executeStep w s0))) = false
        /\ existsb Sol.is_send (Sol.trace (snd (Sol.executeStep w s0))) = false
        /\ existsb Sol.is_confirmation (Sol.trace (snd (Sol.executeStep w s0))) = false
        /\ (exists pre st,
              Sol.trace (snd (Sol.executeStep w s0))
              = (pre ++ [Sol.LedgerUpdateExecution st])%list
              /\ Sol.statusOf (Sol.step (snd (Sol.executeStep w s0))) = st
              /\ ((st = DONE
                   /\ fst (Sol.executeStep w s0)
                      = Ok (Sol.step (snd (Sol.executeStep w s0))))
                  \/ (st = FAILED /\ exists e, fst (Sol.executeStep w s0) = Throw e)))
        /\ (forall h,
              Sol.carriedTxHash (Sol.sendProcess w s0) = Some h ->
              exists res pa,
                Sol.trace (snd (Sol.executeStep w s0))
                = (Sol.LedgerFindOrCreateProcess (Sol.currentProcessType w s0) None
                   :: Sol.receivingOpening (Sol.isBridgeExecution w s0)
                   ++ [Sol.CallWaitForReceivingTransaction h
                         (if Sol.isBridgeExecution w s0 then Sol.RECEIVING_CHAIN
                          else Sol.currentProcessType w s0) res;
                       Sol.LedgerUpdateProcess
                         (if Sol.isBridgeExecution w s0 then Sol.RECEIVING_CHAIN
                          else Sol.currentProcessType w s0)
                         (match res with inr _ => DONE | inl _ => FAILED end) pa;
                       Sol.LedgerUpdateExecution
                         (match res with inr _ => DONE | inl _ => FAILED end)])%list
                /\ match res with
                   | inr d =>
                       fst (Sol.executeStep w s0)
                       = Ok (Sol.step (snd (Sol.executeStep w s0)))
                       /\ Sol.statusOf (Sol.step (snd (Sol.executeStep w s0))) = DONE
                       /\ Sol.summaryOf (Sol.step (snd (Sol.executeStep w s0)))
                          = Sol.mkSummary (Sol.ti_amount (Sol.sending d))
                              (optionalChain (Sol.receiving d) Sol.eti_amount)
                              (optionalChain (Sol.receiving d) Sol.eti_token)
                              (Sol.ti_gasAmount (Sol.sending d))
                              (Sol.ti_gasAmountUSD (Sol.sending d))
                              (Sol.ti_gasPrice (Sol.sending d))
                              (Sol.ti_gasToken (Sol.sending d))
                              (Sol.ti_gasUsed (Sol.sending d))
                       /\ exists p,
                            Sol.processOf
                              (if Sol.isBridgeExecution w s0 then Sol.RECEIVING_CHAIN
                               else Sol.currentProcessType w s0)
                              (Sol.step (snd (Sol.executeStep w s0))) = Some p
                            /\ Sol.status p = DONE
                            /\ Sol.txHash p = optionalChain (Sol.receiving d) Sol.eti_txHash
                            /\ Sol.txLink p
                               = Some (blockExplorerUrl (Sol.toChainOf w s0) ++ "tx/"
                                       ++ interpolate
                                            (optionalChain (Sol.receiving d)
                                               Sol.eti_txHash))
                            /\ Sol.substatus p = Sol.sr_substatus d
                            /\ Sol.substatusMessage p
                               = orElse (Sol.sr_substatusMessage d)
                                   (Sol.getSubstatusMessage w (Sol.sr_status d)
                                      (Sol.sr_substatus d))
                   | inl e =>
                       fst (Sol.executeStep w s0) = Throw e
                       /\ Sol.statusOf (Sol.step (snd (Sol.executeStep w s0))) = FAILED
                       /\ exists p s' l',
                            Sol.processOf
                              (if Sol.isBridgeExecution w s0 then Sol.RECEIVING_CHAIN
                               else Sol.currentProcessType w s0)
                              (Sol.step (snd (Sol.executeStep w s0))) = Some p
                            /\ Sol.status p = FAILED
                            /\ Sol.error p
                               = Some (Sol.mkProcessError
                                         "Failed while waiting for receiving chain."
                                         (Sol.getTransactionFailedMessage w s' l')
                                         (Some (CodeLiFi TransactionFailed)))
                   end)
        /\ (Sol.carriedTxHash (Sol.sendProcess w s0) = None ->
            fst (Sol.executeStep w s0) = Throw (JsError "Transaction hash is undefined.")
            /\ Sol.calls (Sol.trace (snd (Sol.executeStep w s0))) = []
            /\ Sol.statusOf (Sol.step (snd (Sol.executeStep w s0))) = FAILED
            /\ exists p s' l',
                 Sol.processOf
                   (if Sol.isBridgeExecution w s0 then Sol.RECEIVING_CHAIN
                    else Sol.currentProcessType w s0)
                   (Sol.step (snd (Sol.executeStep w s0))) = Some p
                 /\ Sol.status p = FAILED
                 /\ Sol.error p
                    = Some (Sol.mkProcessError
                              "Failed while waiting for receiving chain."
                              (Sol.getTransactionFailedMessage w s' l')
                              (Some (CodeLiFi TransactionFailed))))).
Proof.
  split; [|split].
  - exact SolanaMore.sol_last_write.
  - exact SolanaMore.sol_reentry.
  - intros w s0 Hd.
    destruct (SolanaFacts.sol_rerun_done w s0 Hd) as (Hb & Hr & Hs & Hc & Hlast).
    repeat (split; [assumption|]).
    split.
    + intros h Hh. exact (SolanaMore.sol_rerun_with_hash w s0 h Hd Hh).
    + intros Hh. exact (SolanaMore.sol_missing_hash w s0 Hd Hh).
Qed.

Lemma C9_rerun_of_a_finished_step_witness :
  Sol.alreadyDone
    (Sol.sendProcess SolanaExamples.interactiveWorld SolanaExamples.finishedSwapStep)
  = true
  /\ Sol.carriedTxHash
       (Sol.sendProcess SolanaExamples.interactiveWorld SolanaExamples.finishedSwapStep)
     = Some "sigR"
  /\ existsb Sol.is_send
       (Sol.trace (snd (Sol.executeStep SolanaExamples.interactiveWorld
                          SolanaExamples.finishedSwapStep)))
     = false
  /\ existsb Sol.is_confirmation
       (Sol.trace (snd (Sol.executeStep SolanaExamples.interactiveWorld
                          SolanaExamples.finishedSwapStep)))
     = false
  /\ Sol.alreadyDone
       (Sol.sendProcess SolanaExamples.interactiveWorld SolanaExamples.doneWithoutHashStep)
     = true
  /\ Sol.carriedTxHash
       (Sol.sendProcess SolanaExamples.interactiveWorld SolanaExamples.doneWithoutHashStep)
     = None
  /\ Sol.calls
       (Sol.trace (snd (Sol.executeStep SolanaExamples.interactiveWorld
                          SolanaExamples.doneWithoutHashStep)))
     = []
  /\ Sol.alreadyDone
       (Sol.sendProcess SolanaExamples.interactiveWorld SolanaExamples.failedSwapStep)
     = false
  /\ exists c rest,
       Sol.trace (snd (Sol.executeStep SolanaExamples.interactiveWorld
                         SolanaExamples.failedSwapStep))
       = Sol.LedgerFindOrCreateProcess
           (Sol.currentProcessType SolanaExamples.interactiveWorld
              SolanaExamples.failedSwapStep) None
         :: Sol.CallGetSolanaConnection c :: rest.
Proof.
  split; [reflexivity|]. split; [reflexivity|].
  destruct (proj2 (proj2 C9_rerun_of_a_finished_step) SolanaExamples.interactiveWorld
              SolanaExamples.finishedSwapStep eq_refl)
    as (_ & _ & Hs & Hc & _).
  split; [exact Hs|]. split; [exact Hc|].
  split; [reflexivity|]. split; [reflexivity|].
  destruct (proj2 (proj2 C9_rerun_of_a_finished_step) SolanaExamples.interactiveWorld
              SolanaExamples.doneWithoutHashStep eq_refl)
    as (_ & _ & _ & _ & _ & _ & Hnone).
  split; [exact (proj1 (proj2 (Hnone eq_refl)))|].
  split; [reflexivity|].
  destruct (proj1 (proj2 C9_rerun_of_a_finished_step) SolanaExamples.interactiveWorld
              SolanaExamples.failedSwapStep eq_refl)
    as (c & rest & Htr & _).
  exists c, rest. exact Htr.
Defined.

(** ** C10: the allowance check of the EVM executor *)

(** C10: [execute] makes an allowance check exactly when the source token is
    not the native token (its address is not the zero address) and the
    send-phase Process of the step carries no transaction hash; when it makes
    one, it is the first thing it does, before the send phase is entered. *)
Theorem C10_allowance_check_condition (w : Evm.World) (s0 : Evm.Step) :
  existsb Evm.is_allowance_check (Evm.trace (snd (Evm.execute w s0)))
  = negb (String.eqb (Evm.address (Evm.fromToken (Evm.action s0))) Evm.AddressZero)
    && match Evm.carriedTxHash (Evm.processOf Evm.crossProcess s0) with
       | Some _ => false
       | None => true
       end
  /\ (existsb Evm.is_allowance_check (Evm.trace (snd (Evm.execute w s0))) = true ->
      exists rest,
        Evm.trace (snd (Evm.execute w s0))
        = Evm.CallCheckAllowance
            (Evm.checkAllowance w (Evm.entryStep s0) (Evm.fromChainOf w s0)
               (Evm.fromToken (Evm.action s0)) (Evm.fromAmount_ (Evm.action s0))
               (Evm.approvalAddress (Evm.estimate s0)) true (Evm.shouldContinue w))
          :: rest).
Proof. exact (MultichainFacts.evm_allowance w s0). Qed.

(** * More about the two executors *)

(** ** The Solana executor *)

(** X1: within one invocation [executeStep] calls its collaborators in the
    order of their call sites (RPC connection, balance check, quote service,
    quote comparison, customization hook, deserializer, signing agent,
    confirmation, status waiter), each at most once: no call is repeated. *)
Theorem X1_solana_calls_in_order (w : Sol.World) (s0 : Sol.Step) :
  Sol.in_order Sol.callSites (Sol.calls (Sol.trace (snd (Sol.executeStep w s0)))) = true.
Proof. exact (SolanaMore.sol_calls w s0). Qed.

(** X2: [executeStep] returns normally in two states only: stopped at
    [ACTION_REQUIRED] by its last ledger call, when user interaction is not
    allowed; or with the Execution [DONE], set by its last ledger call.  The
    step it returns is the one it worked on. *)
Theorem X2_solana_normal_returns (w : Sol.World) (s0 s : Sol.Step) :
  fst (Sol.executeStep w s0) = Ok s ->
  s = Sol.step (snd (Sol.executeStep w s0))
  /\ ((Sol.allowUserInteraction w = false
       /\ option_map Sol.status
            (Sol.processOf (Sol.currentProcessType w s0)
               (Sol.step (snd (Sol.executeStep w s0))))
          = Some ACTION_REQUIRED
       /\ exists pre,
            Sol.trace (snd (Sol.executeStep w s0))
            = (pre ++ [Sol.LedgerUpdateProcess (Sol.currentProcessType w s0)
                         ACTION_REQUIRED Sol.noPatch])%list)
      \/ (Sol.statusOf (Sol.step (snd (Sol.executeStep w s0))) = DONE
          /\ exists pre,
               Sol.trace (snd (Sol.executeStep w s0))
               = (pre ++ [Sol.LedgerUpdateExecution DONE])%list)).
Proof. exact (SolanaMore.sol_returns w s0 s). Qed.

Lemma X2_solana_normal_returns_witness :
  fst (Sol.executeStep SolanaExamples.interactiveWorld SolanaExamples.swapStep)
  = Ok (Sol.step (snd (Sol.executeStep SolanaExamples.interactiveWorld
                         SolanaExamples.swapStep)))
  /\ Sol.statusOf
       (Sol.step (snd (Sol.executeStep SolanaExamples.interactiveWorld
                         SolanaExamples.swapStep)))
     = DONE.
Proof.
  assert (H : fst (Sol.executeStep SolanaExamples.interactiveWorld SolanaExamples.swapStep)
              = Ok (Sol.step (snd (Sol.executeStep SolanaExamples.interactiveWorld
                                     SolanaExamples.swapStep)))) by evaluated.
  split; [exact H|].
  destruct (X2_solana_normal_returns _ _ _ H) as (_ & [(Hq & _)|(Hst & _)]).
  - discriminate Hq.
  - exact Hst.
Defined.

(** X3: with the chains of the step resolved, whenever [executeStep] throws,
    its last two ledger calls have put the Process that the local [process]
    holds in [FAILED], with an error attached, and the Execution in
    [FAILED]: no failure leaves the function unrecorded. *)
Theorem X3_solana_failures_are_recorded (w : Sol.World) (s0 : Sol.Step) (e : Thrown) :
  fst (Sol.executeStep w s0) = Throw e ->
  exists t pre pa,
    Sol.recorded t FAILED (snd (Sol.executeStep w s0))
    /\ Sol.error (Sol.current (snd (Sol.executeStep w s0))) <> None
    /\ Sol.trace (snd (Sol.executeStep w s0))
       = (pre ++ [Sol.LedgerUpdateProcess t FAILED pa;
                  Sol.LedgerUpdateExecution FAILED])%list.
Proof. exact (SolanaFacts.sol_failure_recorded w s0 e). Qed.

Lemma X3_solana_failures_are_recorded_witness :
  fst (Sol.executeStep SolanaExamples.brokeWorld SolanaExamples.swapStep)
  = Throw SolanaExamples.insufficientFunds
  /\ exists t, Sol.recorded t FAILED
                 (snd (Sol.executeStep SolanaExamples.brokeWorld SolanaExamples.swapStep)).
Proof.
  assert (H : fst (Sol.executeStep SolanaExamples.brokeWorld SolanaExamples.swapStep)
              = Throw SolanaExamples.insufficientFunds) by evaluated.
  split; [exact H|].
  destruct (X3_solana_failures_are_recorded _ _ _ H) as (t & _ & _ & Hrec & _).
  exists t. exact Hrec.
Defined.

(** X4: when the confirmation of the signature returns with an error [m]
    (a truthy [value.err]), [executeStep] throws the classified
    [TransactionFailed] error with message ['Transaction failed: ' + m],
    records it on the send-phase Process with [FAILED], marks the Execution
    [FAILED], marks nothing [DONE] and does not call the status waiter. *)
Theorem X4_solana_confirmation_error (w : Sol.World) (s0 : Sol.Step) (h : string)
  (sr : Sol.SignatureResult) (m : string) :
  In (Sol.CallConfirmTransaction h (inr sr)) (Sol.trace (snd (Sol.executeStep w s0))) ->
  truthy_value (Sol.err sr) = Some m ->
  exists s' p' p pre,
    fst (Sol.executeStep w s0)
    = Throw (ThrowObject
               (Sol.parseError w
                  (TransactionError TransactionFailed ("Transaction failed: " ++ m))
                  s' p'))
    /\ Sol.processOf (Sol.currentProcessType w s0)
         (Sol.step (snd (Sol.executeStep w s0))) = Some p
    /\ Sol.status p = FAILED
    /\ Sol.error p
       = Some (Sol.errorTriple
                 (Sol.parseError w
                    (TransactionError TransactionFailed ("Transaction failed: " ++ m))
                    s' p'))
    /\ Sol.statusOf (Sol.step (snd (Sol.executeStep w s0))) = FAILED
    /\ existsb (Sol.sets_status DONE) (Sol.trace (snd (Sol.executeStep w s0))) = false
    /\ existsb Sol.is_receiving_wait (Sol.trace (snd (Sol.executeStep w s0))) = false
    /\ Sol.trace (snd (Sol.executeStep w s0))
       = (pre ++ [Sol.CallConfirmTransaction h (inr sr);
                  Sol.LedgerUpdateProcess (Sol.currentProcessType w s0) FAILED
                    (Sol.mkProcessPatch None None None None
                       (Some (Sol.errorTriple
                                (Sol.parseError w
                                   (TransactionError TransactionFailed
                                      ("Transaction failed: " ++ m)) s' p'))));
                  Sol.LedgerUpdateExecution FAILED])%list.
Proof. exact (SolanaMore.sol_confirmation_error w s0 h sr m). Qed.

Lemma X4_solana_confirmation_error_witness :
  In (Sol.CallConfirmTransaction "sig1"
        (inr (Sol.mkSignatureResult (Some "InstructionError"))))
     (Sol.trace (snd (Sol.executeStep SolanaExamples.failedConfirmationWorld
                        SolanaExamples.swapStep)))
  /\ Sol.statusOf
       (Sol.step (snd (Sol.executeStep SolanaExamples.failedConfirmationWorld
                         SolanaExamples.swapStep)))
     = FAILED
  /\ existsb Sol.is_receiving_wait
       (Sol.trace (snd (Sol.executeStep SolanaExamples.failedConfirmationWorld
                          SolanaExamples.swapStep)))
     = false.
Proof.
  assert (H : In (Sol.CallConfirmTransaction "sig1"
                    (inr (Sol.mkSignatureResult (Some "InstructionError"))))
                (Sol.trace (snd (Sol.executeStep SolanaExamples.failedConfirmationWorld
                                   SolanaExamples.swapStep)))) by occurs.
  split; [exact H|].
  destruct (X4_solana_confirmation_error _ _ _ _ "InstructionError" H eq_refl)
    as (_ & _ & _ & _ & _ & _ & _ & _ & Hst & _ & Hw & _).
  exact (conj Hst Hw).
Defined.

(** X5: a send call is made only when user interaction is allowed, with the
    options [maxRetries: 5, skipPreflight: true], on the transaction just
    deserialized, after the balance check has passed and the Process was put
    in [ACTION_REQUIRED], with no Process put in [PENDING] before; it is the
    only send call of the invocation.  When it resolves with a signature, the
    next two events record the signature and its explorer link on the
    send-phase Process with [PENDING] and ask for its confirmation. *)
Theorem X5_solana_broadcast (w : Sol.World) (s0 : Sol.Step)
  (tx : Sol.VersionedTransaction) (o : Sol.SendOptions) (r : Thrown + string) :
  In (Sol.CallSendTransaction tx o r) (Sol.trace (snd (Sol.executeStep w s0))) ->
  Sol.allowUserInteraction w = true
  /\ o = Sol.mkSendOptions 5 true
  /\ exists d pre post,
       Sol.deserialize w d = inr tx
       /\ Sol.trace (snd (Sol.executeStep w s0))
          = (pre ++ Sol.CallDeserialize d :: Sol.CallSendTransaction tx o r :: post)%list
       /\ In (Sol.CallCheckBalance (Sol.publicKey w) (inr tt)) pre
       /\ existsb (Sol.sets_status ACTION_REQUIRED) pre = true
       /\ existsb (Sol.sets_status PENDING) pre = false
       /\ existsb Sol.is_send pre = false
       /\ existsb Sol.is_send post = false
       /\ forall sig, r = inr sig ->
            exists res post',
              post = Sol.LedgerUpdateProcess (Sol.currentProcessType w s0) PENDING
                       (Sol.sentPatch (Sol.fromChainOf w s0) sig)
                     :: Sol.CallConfirmTransaction sig res :: post'.
Proof. exact (SolanaMore.sol_send w s0 tx o r). Qed.

Lemma X5_solana_broadcast_witness :
  In (Sol.CallSendTransaction (Sol.mkVersionedTransaction "AQID")
        (Sol.mkSendOptions 5 true) (inr "sig1"))
     (Sol.trace (snd (Sol.executeStep SolanaExamples.interactiveWorld
                        SolanaExamples.swapStep)))
  /\ Sol.allowUserInteraction SolanaExamples.interactiveWorld = true.
Proof.
  assert (H : In (Sol.CallSendTransaction (Sol.mkVersionedTransaction "AQID")
                    (Sol.mkSendOptions 5 true) (inr "sig1"))
                (Sol.trace (snd (Sol.executeStep SolanaExamples.interactiveWorld
                                   SolanaExamples.swapStep)))) by occurs.
  split; [exact H|].
  exact (proj1 (X5_solana_broadcast _ _ _ _ _ H)).
Defined.

(** X6: the customization hook is called only when user interaction is
    allowed and a hook is configured; it is handed the payload of the step;
    and when it returns a result whose [data] is a non-empty payload, that
    payload is the one deserialized for the signing agent. *)
Theorem X6_solana_hook (w : Sol.World) (s0 : Sol.Step)
  (r : Thrown + Sol.TransactionParameters) :
  In (Sol.CallHook r) (Sol.trace (snd (Sol.executeStep w s0))) ->
  Sol.allowUserInteraction w = true
  /\ exists hook d0,
       Sol.updateTransactionRequestHook w = Some hook
       /\ truthy_value (Sol.payload (Sol.step (snd (Sol.executeStep w s0)))) = Some d0
       /\ r = hook (Sol.mkTransactionParameters (Some (Some d0)))
       /\ forall c d,
            r = inr c -> Sol.tp_data c = Some (Some d) -> d <> "" ->
            In (Sol.CallDeserialize d) (Sol.trace (snd (Sol.executeStep w s0))).
Proof. exact (SolanaMore.sol_hook w s0 r). Qed.

Lemma X6_solana_hook_witness :
  In (Sol.CallHook (inr (Sol.mkTransactionParameters (Some (Some "BAUG")))))
     (Sol.trace (snd (Sol.executeStep SolanaExamples.hookWithDataWorld
                        SolanaExamples.swapStep)))
  /\ In (Sol.CallDeserialize "BAUG")
       (Sol.trace (snd (Sol.executeStep SolanaExamples.hookWithDataWorld
                          SolanaExamples.swapStep))).
Proof.
  assert (H : In (Sol.CallHook (inr (Sol.mkTransactionParameters (Some (Some "BAUG")))))
                (Sol.trace (snd (Sol.executeStep SolanaExamples.hookWithDataWorld
                                   SolanaExamples.swapStep)))) by occurs.
  split; [exact H|].
  destruct (X6_solana_hook _ _ _ H) as (_ & hook & d0 & _ & _ & _ & Hd).
  apply (Hd (Sol.mkTransactionParameters (Some (Some "BAUG"))) "BAUG" eq_refl eq_refl).
  discriminate.
Defined.

(** X7: a step that comes with a transaction request keeps its plan: the
    step [executeStep] ends with has the [id], [action], [estimate] and
    [transactionRequest] it came with, and neither the quote service nor the
    quote comparison is called. *)
Theorem X7_solana_plan_is_kept (w : Sol.World) (s0 : Sol.Step) :
  Sol.transactionRequest s0 <> None ->
  Sol.samePlan (Sol.step (snd (Sol.executeStep w s0))) s0
  /\ existsb Sol.is_reconciliation (Sol.trace (snd (Sol.executeStep w s0))) = false.
Proof. exact (SolanaMore.sol_plan w s0). Qed.

Lemma X7_solana_plan_is_kept_witness :
  Sol.transactionRequest SolanaExamples.swapStep <> None
  /\ Sol.samePlan
       (Sol.step (snd (Sol.executeStep SolanaExamples.interactiveWorld
                         SolanaExamples.swapStep)))
       SolanaExamples.swapStep.
Proof.
  assert (H : Sol.transactionRequest SolanaExamples.swapStep <> None) by discriminate.
  split; [exact H|].
  exact (proj1 (X7_solana_plan_is_kept SolanaExamples.interactiveWorld _ H)).
Defined.

(** X8: the ledger calls [executeStep] makes for a Process name the Process
    of its send phase ([SWAP] on a single-chain step, [CROSS_CHAIN] on a
    cross-chain step) and, on a cross-chain step only, the [RECEIVING_CHAIN]
    Process.  For a Process of another type it makes no ledger call, and
    that Process is after the invocation what it was before: a single-chain
    run leaves the [CROSS_CHAIN] and the [RECEIVING_CHAIN] Process of the
    step alone, a cross-chain run the [SWAP] Process. *)
Theorem X8_solana_other_processes_are_kept (w : Sol.World) (s0 : Sol.Step)
  (t' : Sol.ProcessType) :
  t' <> Sol.currentProcessType w s0 ->
  (Sol.isBridgeExecution w s0 = true -> t' <> Sol.RECEIVING_CHAIN) ->
  existsb (Sol.ledger_call_for t') (Sol.trace (snd (Sol.executeStep w s0))) = false
  /\ Sol.processOf t' (Sol.step (snd (Sol.executeStep w s0))) = Sol.processOf t' s0.
Proof.
  intros Hc Hr. split.
  - exact (SolanaMore.sol_own_writes w s0 t' Hc Hr).
  - exact (SolanaMore.sol_frame w s0 t' Hc Hr).
Qed.

Lemma X8_solana_other_processes_are_kept_witness :
  Sol.RECEIVING_CHAIN
  <> Sol.currentProcessType SolanaExamples.interactiveWorld SolanaExamples.retriedSwapStep
  /\ Sol.isBridgeExecution SolanaExamples.interactiveWorld SolanaExamples.retriedSwapStep
     = false
  /\ Sol.processOf Sol.RECEIVING_CHAIN
       (Sol.step (snd (Sol.executeStep SolanaExamples.interactiveWorld
                         SolanaExamples.retriedSwapStep)))
     = Some SolanaExamples.staleReceiving
  /\ Sol.processOf Sol.CROSS_CHAIN
       (Sol.step (snd (Sol.executeStep SolanaExamples.interactiveWorld
                         SolanaExamples.retriedSwapStep)))
     = Some SolanaExamples.staleSending
  /\ option_map Sol.status
       (Sol.processOf Sol.SWAP
          (Sol.step (snd (Sol.executeStep SolanaExamples.interactiveWorld
                            SolanaExamples.retriedSwapStep))))
     = Some DONE.
Proof.
  assert (Hb : Sol.isBridgeExecution SolanaExamples.interactiveWorld
                 SolanaExamples.retriedSwapStep = false) by reflexivity.
  assert (Hr : Sol.RECEIVING_CHAIN
               <> Sol.currentProcessType SolanaExamples.interactiveWorld
                    SolanaExamples.retriedSwapStep) by (vm_compute; discriminate).
  assert (Hc : Sol.CROSS_CHAIN
               <> Sol.currentProcessType SolanaExamples.interactiveWorld
                    SolanaExamples.retriedSwapStep) by (vm_compute; discriminate).
  split; [exact Hr|]. split; [exact Hb|].
  split.
  { exact (eq_trans
             (proj2 (X8_solana_other_processes_are_kept SolanaExamples.interactiveWorld
                       SolanaExamples.retriedSwapStep Sol.RECEIVING_CHAIN Hr
                       (fun H => False_ind _
                                   (Bool.diff_false_true (eq_trans (eq_sym Hb) H)))))
             eq_refl). }
  split.
  { exact (eq_trans
             (proj2 (X8_solana_other_processes_are_kept SolanaExamples.interactiveWorld
                       SolanaExamples.retriedSwapStep Sol.CROSS_CHAIN Hc
                       (fun _ => ltac:(discriminate))))
             eq_refl). }
  evaluated.
Defined.

(** X9: when the status waiter resolves with the response [d], [executeStep]
    returns the step with the Execution [DONE] and the summary fields of [d]
    (amounts, token and gas data), and the Process the waiter was called for
    [DONE] with the substatus of [d], the substatus message of [d] or else
    the one [getSubstatusMessage] gives, and as [txHash] and [txLink] the
    hash of the receiving side of [d] on the explorer of the destination
    chain (the text [undefined] in the link when [d] has no receiving
    side). *)
Theorem X9_solana_waiter_resolved (w : Sol.World) (s0 : Sol.Step) (h : string)
  (t : Sol.ProcessType) (d : Sol.FullStatusData) :
  In (Sol.CallWaitForReceivingTransaction h t (inr d))
     (Sol.trace (snd (Sol.executeStep w s0))) ->
  fst (Sol.executeStep w s0) = Ok (Sol.step (snd (Sol.executeStep w s0)))
  /\ Sol.statusOf (Sol.step (snd (Sol.executeStep w s0))) = DONE
  /\ Sol.summaryOf (Sol.step (snd (Sol.executeStep w s0)))
     = Sol.mkSummary (Sol.ti_amount (Sol.sending d))
         (optionalChain (Sol.receiving d) Sol.eti_amount)
         (optionalChain (Sol.receiving d) Sol.eti_token)
         (Sol.ti_gasAmount (Sol.sending d)) (Sol.ti_gasAmountUSD (Sol.sending d))
         (Sol.ti_gasPrice (Sol.sending d)) (Sol.ti_gasToken (Sol.sending d))
         (Sol.ti_gasUsed (Sol.sending d))
  /\ exists p,
       Sol.processOf t (Sol.step (snd (Sol.executeStep w s0))) = Some p
       /\ Sol.status p = DONE
       /\ Sol.txHash p = optionalChain (Sol.receiving d) Sol.eti_txHash
       /\ Sol.txLink p
          = Some (blockExplorerUrl (Sol.toChainOf w s0) ++ "tx/"
                  ++ interpolate (optionalChain (Sol.receiving d) Sol.eti_txHash))
       /\ Sol.substatus p = Sol.sr_substatus d
       /\ Sol.substatusMessage p
          = orElse (Sol.sr_substatusMessage d)
              (Sol.getSubstatusMessage w (Sol.sr_status d) (Sol.sr_substatus d)).
Proof. exact (SolanaMore.sol_waiter_resolved w s0 h t d). Qed.

Lemma X9_solana_waiter_resolved_witness :
  In (Sol.CallWaitForReceivingTransaction "sig1" Sol.SWAP (inr SolanaExamples.completed))
     (Sol.trace (snd (Sol.executeStep SolanaExamples.interactiveWorld
                        SolanaExamples.swapStep)))
  /\ Sol.statusOf
       (Sol.step (snd (Sol.executeStep SolanaExamples.interactiveWorld
                         SolanaExamples.swapStep)))
     = DONE.
Proof.
  assert (H : In (Sol.CallWaitForReceivingTransaction "sig1" Sol.SWAP
                    (inr SolanaExamples.completed))
                (Sol.trace (snd (Sol.executeStep SolanaExamples.interactiveWorld
                                   SolanaExamples.swapStep)))) by occurs.
  split; [exact H|].
  exact (proj1 (proj2 (X9_solana_waiter_resolved _ _ _ _ _ H))).
Defined.

(** X10: when the status waiter rejects with [e], [executeStep] throws [e]
    itself, not a classified error, after it has put the Process the waiter
    was called for in [FAILED], with the fixed error of code
    [TransactionFailed] and message ['Failed while waiting for receiving
    chain.'] and the HTML message [getTransactionFailedMessage] gives, and
    the Execution in [FAILED]. *)
Theorem X10_solana_waiter_rejected (w : Sol.World) (s0 : Sol.Step) (h : string)
  (t : Sol.ProcessType) (e : Thrown) :
  In (Sol.CallWaitForReceivingTransaction h t (inl e))
     (Sol.trace (snd (Sol.executeStep w s0))) ->
  fst (Sol.executeStep w s0) = Throw e
  /\ Sol.statusOf (Sol.step (snd (Sol.executeStep w s0))) = FAILED
  /\ exists p s' l',
       Sol.processOf t (Sol.step (snd (Sol.executeStep w s0))) = Some p
       /\ Sol.status p = FAILED
       /\ Sol.error p
          = Some (Sol.mkProcessError "Failed while waiting for receiving chain."
                    (Sol.getTransactionFailedMessage w s' l')
                    (Some (CodeLiFi TransactionFailed))).
Proof. exact (SolanaMore.sol_waiter_rejected w s0 h t e). Qed.

Lemma X10_solana_waiter_rejected_witness :
  In (Sol.CallWaitForReceivingTransaction "sigR" Sol.SWAP
        (inl SolanaExamples.statusUnavailable))
     (Sol.trace (snd (Sol.executeStep SolanaExamples.statusDownWorld
                        SolanaExamples.finishedSwapStep)))
  /\ fst (Sol.executeStep SolanaExamples.statusDownWorld SolanaExamples.finishedSwapStep)
     = Throw SolanaExamples.statusUnavailable.
Proof.
  assert (H : In (Sol.CallWaitForReceivingTransaction "sigR" Sol.SWAP
                    (inl SolanaExamples.statusUnavailable))
                (Sol.trace (snd (Sol.executeStep SolanaExamples.statusDownWorld
                                   SolanaExamples.finishedSwapStep)))) by occurs.
  split; [exact H|].
  exact (proj1 (X10_solana_waiter_rejected _ _ _ _ _ H)).
Defined.

(** X11: invoked on a step whose send-phase Process is [DONE] and holds no
    transaction hash, [executeStep] calls no collaborator at all: it throws
    the error ['Transaction hash is undefined.'], with the Process of the
    receiving phase ([RECEIVING_CHAIN] for a bridge, the send-phase Process
    otherwise) in [FAILED] with the fixed [TransactionFailed] error, and the
    Execution in [FAILED]. *)
Theorem X11_solana_done_without_hash (w : Sol.World) (s0 : Sol.Step) :
  Sol.alreadyDone (Sol.sendProcess w s0) = true ->
  Sol.carriedTxHash (Sol.sendProcess w s0) = None ->
  fst (Sol.executeStep w s0) = Throw (JsError "Transaction hash is undefined.")
  /\ Sol.calls (Sol.trace (snd (Sol.executeStep w s0))) = []
  /\ Sol.statusOf (Sol.step (snd (Sol.executeStep w s0))) = FAILED
  /\ exists p s' l',
       Sol.processOf (if Sol.isBridgeExecution w s0 then Sol.RECEIVING_CHAIN
                      else Sol.currentProcessType w s0)
         (Sol.step (snd (Sol.executeStep w s0))) = Some p
       /\ Sol.status p = FAILED
       /\ Sol.error p
          = Some (Sol.mkProcessError "Failed while waiting for receiving chain."
                    (Sol.getTransactionFailedMessage w s' l')
                    (Some (CodeLiFi TransactionFailed))).
Proof. exact (SolanaMore.sol_missing_hash w s0). Qed.

Lemma X11_solana_done_without_hash_witness :
  Sol.alreadyDone
    (Sol.sendProcess SolanaExamples.interactiveWorld SolanaExamples.doneWithoutHashStep)
  = true
  /\ Sol.carriedTxHash
       (Sol.sendProcess SolanaExamples.interactiveWorld SolanaExamples.doneWithoutHashStep)
     = None
  /\ fst (Sol.executeStep SolanaExamples.interactiveWorld
            SolanaExamples.doneWithoutHashStep)
     = Throw (JsError "Transaction hash is undefined.").
Proof.
  split; [reflexivity|]. split; [reflexivity|].
  exact (proj1 (X11_solana_done_without_hash SolanaExamples.interactiveWorld
                  SolanaExamples.doneWithoutHashStep eq_refl eq_refl)).
Defined.

(** X12: a rejected call of the first [try] block (the RPC connection, the
    balance check, the quote service, the quote comparison, the customization
    hook, the deserializer, the signing agent or the confirmation) is the
    last call of the invocation: [executeStep] throws the error the
    classifier makes of the rejection, after its last two ledger calls have
    put the send-phase Process in [FAILED], with the message, HTML message
    and code of the classified error, and the Execution in [FAILED]. *)
Theorem X12_solana_rejected_call (w : Sol.World) (s0 : Sol.Step) (ev : Sol.Event)
  (e : Thrown) :
  In ev (Sol.trace (snd (Sol.executeStep w s0))) ->
  Sol.rejection w ev = Some e ->
  exists s' p' p pre,
    fst (Sol.executeStep w s0) = Throw (ThrowObject (Sol.parseError w e s' p'))
    /\ Sol.processOf (Sol.currentProcessType w s0)
         (Sol.step (snd (Sol.executeStep w s0))) = Some p
    /\ Sol.status p = FAILED
    /\ Sol.error p = Some (Sol.errorTriple (Sol.parseError w e s' p'))
    /\ Sol.statusOf (Sol.step (snd (Sol.executeStep w s0))) = FAILED
    /\ Sol.trace (snd (Sol.executeStep w s0))
       = (pre ++ [ev;
                  Sol.LedgerUpdateProcess (Sol.currentProcessType w s0) FAILED
                    (Sol.mkProcessPatch None None None None
                       (Some (Sol.errorTriple (Sol.parseError w e s' p'))));
                  Sol.LedgerUpdateExecution FAILED])%list.
Proof. exact (SolanaMore.sol_rejection w s0 ev e). Qed.

Lemma X12_solana_rejected_call_witness :
  In (Sol.CallSendTransaction (Sol.mkVersionedTransaction "AQID")
        (Sol.mkSendOptions 5 true) (inl SolanaExamples.userRejected))
     (Sol.trace (snd (Sol.executeStep SolanaExamples.rejectedSignatureWorld
                        SolanaExamples.swapStep)))
  /\ Sol.statusOf
       (Sol.step (snd (Sol.executeStep SolanaExamples.rejectedSignatureWorld
                         SolanaExamples.swapStep)))
     = FAILED.
Proof.
  assert (H : In (Sol.CallSendTransaction (Sol.mkVersionedTransaction "AQID")
                    (Sol.mkSendOptions 5 true) (inl SolanaExamples.userRejected))
                (Sol.trace (snd (Sol.executeStep SolanaExamples.rejectedSignatureWorld
                                   SolanaExamples.swapStep)))) by occurs.
  split; [exact H|].
  destruct (X12_solana_rejected_call _ _ _ SolanaExamples.userRejected H eq_refl)
    as (_ & _ & _ & _ & _ & _ & _ & _ & Hst & _).
  exact Hst.
Defined.

(** ** The EVM bridge executor *)

(** X13: within one invocation [execute] calls its collaborators in the order
    of their call sites (allowance check, transaction loader, balance check,
    personalizer, quote service, signing agent, confirmation wait,
    destination-chain waiter, address reader, receipt parser), each at most
    once: no call is repeated. *)
Theorem X13_evm_calls_in_order (w : Evm.World) (s0 : Evm.Step) :
  Evm.in_order Evm.callSites (Evm.calls (Evm.trace (snd (Evm.execute w s0)))) = true.
Proof. exact (MultichainMore.evm_calls w s0). Qed.

(** X14: [execute] returns normally in two states only: stopped at
    [ACTION_REQUIRED] by its last ledger call, when the manager may not
    continue; or with the Execution, [crossProcess] and [waitForTxProcess]
    all [DONE].  What it returns is the execution record of the step. *)
Theorem X14_evm_normal_returns (w : Evm.World) (s0 : Evm.Step) (ex : Evm.Execution) :
  fst (Evm.execute w s0) = Ok ex ->
  ex = Evm.initExecutionObject (Evm.step (snd (Evm.execute w s0)))
  /\ ((Evm.shouldContinue w = false
       /\ option_map Evm.status
            (Evm.processOf Evm.crossProcess (Evm.step (snd (Evm.execute w s0))))
          = Some ACTION_REQUIRED
       /\ exists pre,
            Evm.trace (snd (Evm.execute w s0))
            = (pre ++ [Evm.LedgerUpdateProcess Evm.crossProcess ACTION_REQUIRED
                         Evm.noPatch])%list)
      \/ (Evm.statusOf (Evm.step (snd (Evm.execute w s0))) = DONE
          /\ option_map Evm.status
               (Evm.processOf Evm.crossProcess (Evm.step (snd (Evm.execute w s0))))
             = Some DONE
          /\ option_map Evm.status
               (Evm.processOf Evm.waitForTxProcess (Evm.step (snd (Evm.execute w s0))))
             = Some DONE)).
Proof. exact (MultichainMore.evm_returns w s0 ex). Qed.

Lemma X14_evm_normal_returns_witness :
  fst (Evm.execute MultichainExamples.quietWorld MultichainExamples.tokenStep)
  = Ok (Evm.initExecutionObject
          (Evm.step (snd (Evm.execute MultichainExamples.quietWorld
                            MultichainExamples.tokenStep))))
  /\ option_map Evm.status
       (Evm.processOf Evm.crossProcess
          (Evm.step (snd (Evm.execute MultichainExamples.quietWorld
                            MultichainExamples.tokenStep))))
     = Some ACTION_REQUIRED.
Proof.
  assert (H : fst (Evm.execute MultichainExamples.quietWorld MultichainExamples.tokenStep)
              = Ok (Evm.initExecutionObject
                      (Evm.step (snd (Evm.execute MultichainExamples.quietWorld
                                        MultichainExamples.tokenStep)))))
    by evaluated.
  split; [exact H|].
  destruct (X14_evm_normal_returns _ _ _ H) as (_ & [(_ & Hst & _)|(Hst & _)]).
  - exact Hst.
  - discriminate Hst.
Defined.

(** X15: with the chains of the step resolved, when [execute] throws, one of
    four things holds: its last two ledger calls have put [crossProcess] and
    the Execution in [FAILED]; or they have put [waitForTxProcess] and the
    Execution in [FAILED]; or the last event is a rejected call outside both
    [try] blocks (the allowance check, [getAddress] or [parseReceipt]), which
    nothing records; or a collaborator rejected with [undefined] and the
    error thrown is the [TypeError] of reading its [code]. *)
Theorem X15_evm_failures_by_kind (w : Evm.World) (s0 : Evm.Step) (e : Thrown) :
  fst (Evm.execute w s0) = Throw e ->
  Evm.recordedFailure Evm.crossProcess (snd (Evm.execute w s0))
  \/ Evm.recordedFailure Evm.waitForTxProcess (snd (Evm.execute w s0))
  \/ (exists pre ev,
        Evm.trace (snd (Evm.execute w s0)) = (pre ++ [ev])%list
        /\ Evm.is_unguarded_rejection ev = true)
  \/ e = Evm.undefinedCodeRead.
Proof. exact (MultichainFacts.evm_failure_recorded_or_unguarded w s0 e). Qed.

Lemma X15_evm_failures_by_kind_witness :
  fst (Evm.execute MultichainExamples.brokeWorld MultichainExamples.tokenStep)
  = Throw MultichainExamples.insufficientFunds
  /\ (Evm.recordedFailure Evm.crossProcess
        (snd (Evm.execute MultichainExamples.brokeWorld MultichainExamples.tokenStep))
      \/ Evm.recordedFailure Evm.waitForTxProcess
           (snd (Evm.execute MultichainExamples.brokeWorld MultichainExamples.tokenStep))
      \/ (exists pre ev,
            Evm.trace (snd (Evm.execute MultichainExamples.brokeWorld
                              MultichainExamples.tokenStep))
            = (pre ++ [ev])%list
            /\ Evm.is_unguarded_rejection ev = true)
      \/ MultichainExamples.insufficientFunds = Evm.undefinedCodeRead).
Proof.
  assert (H : fst (Evm.execute MultichainExamples.brokeWorld MultichainExamples.tokenStep)
              = Throw MultichainExamples.insufficientFunds) by evaluated.
  split; [exact H|].
  exact (X15_evm_failures_by_kind _ _ _ H).
Defined.

(** X16: after [setShouldContinue(false)], [execute] never calls the signing
    agent, on a fresh step as on a resumed one; and setting the flag to the
    value it has changes nothing. *)
Theorem X16_evm_stopped_manager_never_sends (w : Evm.World) (s0 : Evm.Step) :
  existsb Evm.is_send
    (Evm.trace (snd (Evm.execute (Evm.setShouldContinue false w) s0))) = false
  /\ Evm.execute (Evm.setShouldContinue (Evm.shouldContinue w) w) s0 = Evm.execute w s0.
Proof.
  split.
  - apply MultichainMore.evm_stopped. reflexivity.
  - destruct w. reflexivity.
Qed.

(** X17: when the provider answers [null] for the transaction hash the step
    carries, [execute] calls nothing but the transaction loader: the member
    access on [null] throws, and the classified error is recorded on
    [crossProcess] with [FAILED], the Execution is [FAILED], and the error is
    thrown. *)
Theorem X17_evm_unknown_transaction (w : Evm.World) (s0 : Evm.Step) (h : option string) :
  In (Evm.CallGetTransaction h (inr None)) (Evm.trace (snd (Evm.execute w s0))) ->
  (exists s' p',
     fst (Evm.execute w s0)
     = Throw (ThrowObject
                (Evm.parseWalletError w
                   (JsError "Cannot read properties of null (reading 'wait')") s' p')))
  /\ Evm.recordedFailure Evm.crossProcess (snd (Evm.execute w s0))
  /\ Evm.calls (Evm.trace (snd (Evm.execute w s0))) = [Evm.TransactionLoader].
Proof. exact (MultichainMore.evm_null_transaction w s0 h). Qed.

Lemma X17_evm_unknown_transaction_witness :
  In (Evm.CallGetTransaction (Some "0xabc") (inr None))
     (Evm.trace (snd (Evm.execute MultichainExamples.unknownTransactionWorld
                        MultichainExamples.sentStep)))
  /\ Evm.calls (Evm.trace (snd (Evm.execute MultichainExamples.unknownTransactionWorld
                                  MultichainExamples.sentStep)))
     = [Evm.TransactionLoader].
Proof.
  assert (H : In (Evm.CallGetTransaction (Some "0xabc") (inr None))
                (Evm.trace (snd (Evm.execute MultichainExamples.unknownTransactionWorld
                                   MultichainExamples.sentStep)))) by occurs.
  split; [exact H|].
  exact (proj2 (proj2 (X17_evm_unknown_transaction _ _ _ H))).
Defined.

(** X18: a send call is made only when the manager may continue, with the
    transaction request the quote service has just returned, right after
    [crossProcess] was put in [ACTION_REQUIRED], and after the balance check
    has passed; it is the only send call of the invocation.  When it
    resolves with a transaction, the next two events record its hash and
    explorer link on [crossProcess] with [PENDING] and wait for it. *)
Theorem X18_evm_broadcast (w : Evm.World) (s0 : Evm.Step) (req : Evm.TransactionRequest)
  (r : Thrown + Evm.TransactionResponse) :
  In (Evm.CallSendTransaction req r) (Evm.trace (snd (Evm.execute w s0))) ->
  Evm.shouldContinue w = true
  /\ exists q pre post,
       Evm.transactionRequest q = Some req
       /\ Evm.trace (snd (Evm.execute w s0))
          = (pre ++ [Evm.CallGetStepTransaction (inr q);
                     Evm.LedgerUpdateProcess Evm.crossProcess ACTION_REQUIRED Evm.noPatch;
                     Evm.CallSendTransaction req r] ++ post)%list
       /\ In (Evm.CallBalanceCheck (inr tt)) pre
       /\ existsb Evm.is_send pre = false
       /\ existsb Evm.is_send post = false
       /\ forall tx, r = inr tx ->
            exists r' post',
              post = Evm.LedgerUpdateProcess Evm.crossProcess PENDING
                       (Evm.hashPatch (Evm.fromChainOf w s0) (Evm.hash tx))
                     :: Evm.CallWait tx r' :: post'.
Proof. exact (MultichainMore.evm_send w s0 req r). Qed.

Lemma X18_evm_broadcast_witness :
  In (Evm.CallSendTransaction (Evm.mkTransactionRequest "0xdata")
        (inr (Evm.mkTransactionResponse "0xabc")))
     (Evm.trace (snd (Evm.execute MultichainExamples.interactiveWorld
                        MultichainExamples.tokenStep)))
  /\ Evm.shouldContinue MultichainExamples.interactiveWorld = true.
Proof.
  assert (H : In (Evm.CallSendTransaction (Evm.mkTransactionRequest "0xdata")
                    (inr (Evm.mkTransactionResponse "0xabc")))
                (Evm.trace (snd (Evm.execute MultichainExamples.interactiveWorld
                                   MultichainExamples.tokenStep)))) by occurs.
  split; [exact H|].
  exact (proj1 (X18_evm_broadcast _ _ _ _ H)).
Defined.

(** X19: when [execute] returns and the manager may continue, its last five
    events are the destination-chain wait, [getAddress], [parseReceipt], all
    resolved, and the two ledger calls that mark [waitForTxProcess] and the
    Execution [DONE].  The receipt is parsed for the wallet address, the
    destination token of the step and the hash [crossProcess] holds;
    [waitForTxProcess] gets the hash of the destination receipt, its
    explorer link on the destination chain and the message ['Funds
    Received:']; the Execution gets the amounts of the parsed receipt;
    [crossProcess] is [DONE] with the message ['Transfer started: ']. *)
Theorem X19_evm_completed (w : Evm.World) (s0 : Evm.Step) (ex : Evm.Execution) :
  fst (Evm.execute w s0) = Ok ex ->
  Evm.shouldContinue w = true ->
  exists h receipt owner parsed pre,
    Evm.trace (snd (Evm.execute w s0))
    = (pre ++ [Evm.CallWaitForDestinationChainReceipt h (chain_id (Evm.toChainOf w s0))
                 (inr receipt);
               Evm.CallGetAddress (inr owner);
               Evm.CallParseReceipt (inr parsed);
               Evm.LedgerUpdateProcess Evm.waitForTxProcess DONE
                 (Evm.receivedPatch (Evm.toChainOf w s0) receipt);
               Evm.LedgerUpdateExecution DONE])%list
    /\ Evm.parseReceipt w owner (Evm.address (Evm.toToken (Evm.action s0))) h receipt
       = inr parsed
    /\ option_map Evm.txHash
         (Evm.processOf Evm.crossProcess (Evm.step (snd (Evm.execute w s0)))) = Some h
    /\ option_map Evm.status
         (Evm.processOf Evm.crossProcess (Evm.step (snd (Evm.execute w s0))))
       = Some DONE
    /\ option_map Evm.message
         (Evm.processOf Evm.crossProcess (Evm.step (snd (Evm.execute w s0))))
       = Some (Some "Transfer started: ")
    /\ Evm.processOf Evm.waitForTxProcess (Evm.step (snd (Evm.execute w s0)))
       = Some (Evm.applyPatch DONE (Evm.receivedPatch (Evm.toChainOf w s0) receipt)
                 (Evm.entryWaitProcess (Evm.step (snd (Evm.sendRun w s0)))))
    /\ Evm.summaryOf (Evm.step (snd (Evm.execute w s0)))
       = Evm.mkSummary (Evm.parsed_fromAmount parsed) (Evm.parsed_toAmount parsed)
    /\ Evm.statusOf (Evm.step (snd (Evm.execute w s0))) = DONE.
Proof. exact (MultichainMore.evm_completed w s0 ex). Qed.

Lemma X19_evm_completed_witness :
  fst (Evm.execute MultichainExamples.interactiveWorld MultichainExamples.tokenStep)
  = Ok (Evm.initExecutionObject
          (Evm.step (snd (Evm.execute MultichainExamples.interactiveWorld
                            MultichainExamples.tokenStep))))
  /\ Evm.shouldContinue MultichainExamples.interactiveWorld = true
  /\ Evm.statusOf
       (Evm.step (snd (Evm.execute MultichainExamples.interactiveWorld
                         MultichainExamples.tokenStep)))
     = DONE.
Proof.
  assert (H : fst (Evm.execute MultichainExamples.interactiveWorld
                     MultichainExamples.tokenStep)
              = Ok (Evm.initExecutionObject
                      (Evm.step (snd (Evm.execute MultichainExamples.interactiveWorld
                                        MultichainExamples.tokenStep)))))
    by evaluated.
  split; [exact H|]. split; [reflexivity|].
  destruct (X19_evm_completed _ _ _ H eq_refl)
    as (h & receipt & owner & parsed & pre & _ & _ & _ & _ & _ & _ & _ & Hst).
  exact Hst.
Defined.

(** X20: when the destination-chain wait rejects with an error [e] (a value,
    not [undefined]), [execute] throws [e] itself, not a classified error,
    after its last two ledger calls have put [waitForTxProcess] in [FAILED]
    with the error message ['Failed waiting'] and the code of [e], and the
    Execution in [FAILED]; [crossProcess] stays [DONE], and neither
    [getAddress] nor [parseReceipt] is called. *)
Theorem X20_evm_destination_wait_rejected (w : Evm.World) (s0 : Evm.Step)
  (h : option string) (c : N) (e : Thrown) :
  In (Evm.CallWaitForDestinationChainReceipt h c (inl e))
     (Evm.trace (snd (Evm.execute w s0))) ->
  isUndefined e = false ->
  fst (Evm.execute w s0) = Throw e
  /\ Evm.statusOf (Evm.step (snd (Evm.execute w s0))) = FAILED
  /\ option_map Evm.status
       (Evm.processOf Evm.crossProcess (Evm.step (snd (Evm.execute w s0))))
     = Some DONE
  /\ Evm.processOf Evm.waitForTxProcess (Evm.step (snd (Evm.execute w s0)))
     = Some (Evm.applyPatch FAILED (Evm.failedWaitingPatch e)
               (Evm.entryWaitProcess (Evm.step (snd (Evm.sendRun w s0)))))
  /\ exists pre,
       Evm.trace (snd (Evm.execute w s0))
       = (pre ++ [Evm.CallWaitForDestinationChainReceipt h c (inl e);
                  Evm.LedgerUpdateProcess Evm.waitForTxProcess FAILED
                    (Evm.failedWaitingPatch e);
                  Evm.LedgerUpdateExecution FAILED])%list.
Proof. exact (MultichainMore.evm_destination_failed w s0 h c e). Qed.

Lemma X20_evm_destination_wait_rejected_witness :
  In (Evm.CallWaitForDestinationChainReceipt (Some "0xabc") 56
        (inl MultichainExamples.destinationTimeout))
     (Evm.trace (snd (Evm.execute MultichainExamples.destinationDownWorld
                        MultichainExamples.tokenStep)))
  /\ isUndefined MultichainExamples.destinationTimeout = false
  /\ fst (Evm.execute MultichainExamples.destinationDownWorld MultichainExamples.tokenStep)
     = Throw MultichainExamples.destinationTimeout.
Proof.
  assert (H : In (Evm.CallWaitForDestinationChainReceipt (Some "0xabc") 56
                    (inl MultichainExamples.destinationTimeout))
                (Evm.trace (snd (Evm.execute MultichainExamples.destinationDownWorld
                                   MultichainExamples.tokenStep)))) by occurs.
  split; [exact H|]. split; [reflexivity|].
  exact (proj1 (X20_evm_destination_wait_rejected _ _ _ _ _ H eq_refl)).
Defined.

(** X21: once the wait for the transaction has resolved, the next three
    events mark [crossProcess] [DONE] with the message ['Transfer started:
    '], open [waitForTxProcess], and wait on the destination chain for the
    hash [crossProcess] holds: the hash the step carried when it was resumed,
    and otherwise the hash of the transaction broadcast in this invocation. *)
Theorem X21_evm_confirmed_transaction (w : Evm.World) (s0 : Evm.Step)
  (tx : Evm.TransactionResponse) :
  In (Evm.CallWait tx (inr tt)) (Evm.trace (snd (Evm.execute w s0))) ->
  exists pre res rest,
    Evm.trace (snd (Evm.execute w s0))
    = (pre ++ [Evm.CallWait tx (inr tt);
               Evm.LedgerUpdateProcess Evm.crossProcess DONE Evm.startedPatch;
               Evm.LedgerFindOrCreateProcess Evm.waitForTxProcess;
               Evm.CallWaitForDestinationChainReceipt
                 (Some (match Evm.carriedTxHash (Evm.processOf Evm.crossProcess s0) with
                        | Some h => h
                        | None => Evm.hash tx
                        end))
                 (chain_id (Evm.toChainOf w s0)) res]
       ++ rest)%list
    /\ (Evm.carriedTxHash (Evm.processOf Evm.crossProcess s0) = None ->
        exists req, In (Evm.CallSendTransaction req (inr tx)) pre).
Proof. exact (MultichainMore.evm_confirmed w s0 tx). Qed.

Lemma X21_evm_confirmed_transaction_witness :
  In (Evm.CallWait (Evm.mkTransactionResponse "0xabc") (inr tt))
     (Evm.trace (snd (Evm.execute MultichainExamples.interactiveWorld
                        MultichainExamples.tokenStep)))
  /\ exists res,
       In (Evm.CallWaitForDestinationChainReceipt (Some "0xabc") 56 res)
          (Evm.trace (snd (Evm.execute MultichainExamples.interactiveWorld
                             MultichainExamples.tokenStep))).
Proof.
  assert (H : In (Evm.CallWait (Evm.mkTransactionResponse "0xabc") (inr tt))
                (Evm.trace (snd (Evm.execute MultichainExamples.interactiveWorld
                                   MultichainExamples.tokenStep)))) by occurs.
  split; [exact H|].
  destruct (X21_evm_confirmed_transaction _ _ _ H) as (pre & res & rest & Htr & _).
  exists res. rewrite Htr. apply in_or_app. right.
  right. right. right. left. reflexivity.
Defined.

(** X22: [execute] leaves the plan of the step alone: after the invocation
    the step has the [action], [estimate] and [transactionRequest] it came
    with (the transaction request of the quote is sent, and not kept on the
    step); and every ledger call it makes for a Process names [crossProcess]
    or [waitForTxProcess]. *)
Theorem X22_evm_step_is_kept (w : Evm.World) (s0 : Evm.Step) :
  Evm.samePlan s0 (Evm.step (snd (Evm.execute w s0)))
  /\ existsb Evm.is_foreign_write (Evm.trace (snd (Evm.execute w s0))) = false.
Proof. exact (MultichainMore.evm_frame w s0). Qed.

(** X23: a call of the first [try] block (the transaction loader, the
    balance check, the personalizer, the quote service, the signing agent or
    the wait for the transaction) rejected with an error that is a value and
    no replacement notice is the last call of the invocation: [execute]
    throws the error [parseWalletError] makes of it, after its last two
    ledger calls have put [crossProcess] in [FAILED], with the message, HTML
    message and code of that error, and the Execution in [FAILED]. *)
Theorem X23_evm_rejected_call (w : Evm.World) (s0 : Evm.Step) (ev : Evm.Event)
  (e : Thrown) :
  In ev (Evm.trace (snd (Evm.execute w s0))) ->
  Evm.rejection ev = Some e ->
  isUndefined e = false ->
  Evm.replaced e = None ->
  exists s' p' pre,
    fst (Evm.execute w s0) = Throw (ThrowObject (Evm.parseWalletError w e s' p'))
    /\ option_map Evm.status
         (Evm.processOf Evm.crossProcess (Evm.step (snd (Evm.execute w s0))))
       = Some FAILED
    /\ Evm.statusOf (Evm.step (snd (Evm.execute w s0))) = FAILED
    /\ Evm.trace (snd (Evm.execute w s0))
       = (pre ++ [ev;
                  Evm.LedgerUpdateProcess Evm.crossProcess FAILED
                    (Evm.errorPatch (Evm.parseWalletError w e s' p'));
                  Evm.LedgerUpdateExecution FAILED])%list.
Proof. exact (MultichainMore.evm_rejection w s0 ev e). Qed.

Lemma X23_evm_rejected_call_witness :
  In (Evm.CallSendTransaction (Evm.mkTransactionRequest "0xdata")
        (inl MultichainExamples.userRejected))
     (Evm.trace (snd (Evm.execute MultichainExamples.rejectedSignatureWorld
                        MultichainExamples.tokenStep)))
  /\ fst (Evm.execute MultichainExamples.rejectedSignatureWorld
            MultichainExamples.tokenStep)
     = Throw MultichainExamples.userRejected.
Proof.
  assert (H : In (Evm.CallSendTransaction (Evm.mkTransactionRequest "0xdata")
                    (inl MultichainExamples.userRejected))
                (Evm.trace (snd (Evm.execute MultichainExamples.rejectedSignatureWorld
                                   MultichainExamples.tokenStep)))) by occurs.
  split; [exact H|].
  destruct (X23_evm_rejected_call _ _ _ MultichainExamples.userRejected H
              eq_refl eq_refl eq_refl) as (s' & p' & _ & Hout & _).
  exact Hout.
Defined.
